(** * Backup and restore of Cloud Data Fusion application state

    A shallow embedding of the three scripts of the repository,
    [cdf_export.py] (one archive per run), [cdf_state.py] (local staging
    without deployed apps) and their shared helpers, together with the
    properties of the backup and restore orchestration.

    The scripts talk to three outside parties: the pipeline service
    (HTTP), the object store (GCS) and the local file system.  The
    answers of the first two are fixed by an environment [env]; the file
    system, the bucket and the chronological trace of everything a run
    did are the state [world] that every function threads.  Python
    exceptions are results [Raise e]; each [try]/[except] of the source
    is a [try_except] with the class test of its [except] clause. *)

From stdpp Require Import gmap strings list fin_maps pretty.
From Stdlib Require Import ZArith Ascii.

Set Warnings "-register-all".
Local Open Scope string_scope.
Local Open Scope list_scope.

(** ** Python values *)

(** A decoded JSON document, as [json.load] and [response.json()] return
    it.  Numbers are integers; a dict is its list of items in insertion
    order. *)
Inductive json :=
| JNull
| JBool (b : bool)
| JNum (n : Z)
| JStr (s : string)
| JArr (items : list json)
| JObj (fields : list (string * json)).

(** A path is the list of its components below [DIRECTORY], the folder of
    the script; [os.path.join dir name] is [dir ++ [name]] for a name that
    is one path component. *)
Abbreviation path := (list string).

Definition path_str (p : path) : string := String.concat "/" p.

Inductive exn :=
| RequestException (msg : string)
| JSONDecodeError (msg : string)
| KeyError (key : string)
| TypeError (msg : string)
| AttributeError (msg : string)
| FileNotFoundError (msg : string)
| NotADirectoryError (msg : string)
| IsADirectoryError (msg : string)
| FileExistsError (msg : string)
| BadZipFile (msg : string)
| GoogleCloudError (msg : string)
| CalledProcessError (stderr : string)
| UnboundLocalError (msg : string)
| Exception (msg : string).

(** [str(e)], as the f-strings of the log lines and of the re-raised
    exceptions print it.  The texts of the library exceptions are
    abbreviated, and paths print relative to [DIRECTORY]; the texts of the
    script's own exceptions are exact. *)
Definition exn_str (e : exn) : string :=
  match e with
  | RequestException msg | JSONDecodeError msg | TypeError msg
  | AttributeError msg | FileNotFoundError msg | NotADirectoryError msg
  | IsADirectoryError msg | FileExistsError msg | BadZipFile msg
  | GoogleCloudError msg | UnboundLocalError msg | Exception msg => msg
  | KeyError key => "'" +:+ key +:+ "'"
  | CalledProcessError _ => "Command returned non-zero exit status."
  end.

(** The class tests of the [except] clauses of the scripts. *)
Definition is_RequestException (e : exn) : bool :=
  match e with RequestException _ => true | _ => false end.
Definition is_JSONDecodeError (e : exn) : bool :=
  match e with JSONDecodeError _ => true | _ => false end.
Definition is_CalledProcessError (e : exn) : bool :=
  match e with CalledProcessError _ => true | _ => false end.
Definition is_Exception (_ : exn) : bool := true.

Inductive result (A : Type) :=
| Ok (a : A)
| Raise (e : exn).
Arguments Ok {A} a.
Arguments Raise {A} e.

Definition is_Raise {A} (r : result A) : bool :=
  match r with Raise _ => true | Ok _ => false end.

(** Truth value of a document ([if not namespaces]). *)
Definition py_truthy (j : json) : bool :=
  match j with
  | JNull => false
  | JBool b => b
  | JNum n => negb (Z.eqb n 0)
  | JStr s => negb (String.eqb s "")
  | JArr items => match items with [] => false | _ => true end
  | JObj fields => match fields with [] => false | _ => true end
  end.

Fixpoint string_chars (s : string) : list string :=
  match s with
  | EmptyString => []
  | String a r => String a EmptyString :: string_chars r
  end.

(** [for x in j]: a list yields its items, a dict its keys, a string its
    characters; anything else is not iterable. *)
Definition py_iter (j : json) : result (list json) :=
  match j with
  | JArr items => Ok items
  | JObj fields => Ok (JStr <$> fields.*1)
  | JStr s => Ok (JStr <$> string_chars s)
  | _ => Raise (TypeError "object is not iterable")
  end.

Fixpoint assoc (k : string) (fields : list (string * json)) : option json :=
  match fields with
  | [] => None
  | (k', v) :: rest => if String.eqb k k' then Some v else assoc k rest
  end.

(** [d.get(k)]: only a dict has the method. *)
Definition py_get (j : json) (k : string) : result json :=
  match j with
  | JObj fields => Ok (default JNull (assoc k fields))
  | _ => Raise (AttributeError "object has no attribute 'get'")
  end.

(** [d.get(k, "")]. *)
Definition py_get_default (j : json) (k : string) (d : json) : result json :=
  match j with
  | JObj fields => Ok (default d (assoc k fields))
  | _ => Raise (AttributeError "object has no attribute 'get'")
  end.

(** [d[k]] for a string key [k]. *)
Definition py_getitem (j : json) (k : string) : result json :=
  match j with
  | JObj fields =>
      match assoc k fields with
      | Some v => Ok v
      | None => Raise (KeyError k)
      end
  | _ => Raise (TypeError "indices must be integers or object is not subscriptable")
  end.

(** [d[k] = v]: an existing key keeps its place, a new one goes last. *)
Fixpoint obj_set (k : string) (v : json) (fields : list (string * json))
  : list (string * json) :=
  match fields with
  | [] => [(k, v)]
  | (k', v') :: rest =>
      if String.eqb k k' then (k, v) :: rest else (k', v') :: obj_set k v rest
  end.

(** [str(j)] as an f-string interpolates it.  Exact on strings, [None],
    booleans and integers; lists and dicts are printed without the
    escaping Python's [repr] applies to the strings inside them. *)
Fixpoint py_repr (j : json) : string :=
  match j with
  | JNull => "None"
  | JBool true => "True"
  | JBool false => "False"
  | JNum n => pretty n
  | JStr s => "'" +:+ s +:+ "'"
  | JArr items => "[" +:+ String.concat ", " (map py_repr items) +:+ "]"
  | JObj fields =>
      "{" +:+ String.concat ", "
                (map (fun kv => "'" +:+ fst kv +:+ "': " +:+ py_repr (snd kv))
                     fields) +:+ "}"
  end.

Definition py_str (j : json) : string :=
  match j with
  | JStr s => s
  | _ => py_repr j
  end.

(** [os.path.join(dir, name)] wants a string. *)
Definition as_str (j : json) : result string :=
  match j with
  | JStr s => Ok s
  | _ => Raise (TypeError "expected str, bytes or os.PathLike object")
  end.

(** ** Strings *)

Fixpoint string_rev_acc (s acc : string) : string :=
  match s with
  | EmptyString => acc
  | String a r => string_rev_acc r (String a acc)
  end.
Definition string_rev (s : string) : string := string_rev_acc s "".

(** [s.endswith(suffix)] and [s.startswith(prefix)]. *)
Definition endswith (s suffix : string) : bool :=
  String.prefix (string_rev suffix) (string_rev s).
Definition startswith (s pre : string) : bool := String.prefix pre s.

(** [s.split(sep)[0]]: the part before the first separator. *)
Fixpoint before_first (sep : Ascii.ascii) (s : string) : string :=
  match s with
  | EmptyString => EmptyString
  | String a r =>
      if Ascii.eqb a sep then EmptyString else String a (before_first sep r)
  end.

(** [s.split(sep)[-1]]: the part after the last separator. *)
Definition after_last (sep : Ascii.ascii) (s : string) : string :=
  string_rev (before_first sep (string_rev s)).

(** [s[:-n]]. *)
Definition drop_last (n : nat) (s : string) : string :=
  String.substring 0 (String.length s - n) s.

(** [os.path.splitext(name)[0]] for a file name without directory part:
    the name up to its last dot, unless that dot has only dots before
    it. *)
Fixpoint all_dots (s : string) : bool :=
  match s with
  | EmptyString => true
  | String a r => Ascii.eqb a "."%char && all_dots r
  end.

Fixpoint splitext_rev (r : string) : option string :=
  match r with
  | EmptyString => None
  | String a r' => if Ascii.eqb a "."%char then Some r' else splitext_rev r'
  end.

Definition splitext_stem (name : string) : string :=
  match splitext_rev (string_rev name) with
  | Some stem_rev => if all_dots stem_rev then name else string_rev stem_rev
  | None => name
  end.

(** [s.strip()]. *)
Definition is_space (a : Ascii.ascii) : bool :=
  let n := Ascii.nat_of_ascii a in
  Nat.eqb n 32 || (Nat.leb 9 n && Nat.leb n 13).

Fixpoint lstrip (s : string) : string :=
  match s with
  | EmptyString => EmptyString
  | String a r => if is_space a then lstrip r else s
  end.

Definition strip (s : string) : string :=
  string_rev (lstrip (string_rev (lstrip s))).

(** ** Files, archives, the bucket and the trace *)

(** What a file or a blob holds: a JSON text ([json.dump] wrote it,
    [json.load] reads it back), bytes that are no JSON text, or a zip
    archive with its members.  A member without content is a directory
    entry. *)
Inductive content :=
| CJson (j : json)
| CRaw (bytes : string)
| CZip (members : list (path * option content)).

Abbreviation archive := (list (path * option content)).

Inductive node :=
| NFile (c : content)
| NDir.

(** The requests the scripts send to the pipeline service. *)
Inductive api_call :=
| GetNamespaces
| GetExport
| GetDrafts (namespace : string)
| GetDraft (namespace draft_id : string)
| GetConnections (namespace : string)
| GetApps (namespace : string)
| GetApp (namespace app : string)
| PutNamespace (name : string) (payload : json)
| PutApp (namespace app_name : string) (payload : json)
| PutDraft (namespace draft_id : string) (payload : json)
| PutConnection (namespace connection_name : string) (payload : json).

Inductive level := INFO | WARNING | ERROR | CRITICAL.

(** Which function of the scripts wrote a file. *)
Inductive writer :=
| ByExport      (* fetch_applications storing the downloaded export *)
| ByExtract     (* ZipFile.extractall *)
| ByFormat      (* format_deployed_apps rewriting an app file *)
| BySave        (* save_to_file *)
| ByCompress    (* compress_folder writing the archive *)
| ByDownload.   (* download_to_filename *)

Inductive event :=
| EvToken
| EvApi (c : api_call)
| EvLog (l : level) (msg : string)
| EvPrint (msg : string)
| EvMakedirs (p : path)
| EvWrite (who : writer) (p : path)
| EvRename (src dst : path)
| EvUpload (blob : string)
| EvDownload (blob : string).

(** The state a run threads: the files below [DIRECTORY], the blobs of
    the bucket in listing order, and everything done so far, oldest
    first. *)
Record world := World {
  fs : gmap path node;
  bucket : list (string * content);
  trace : list event
}.

(** ** The environment *)

Inductive http (A : Type) :=
| Response (status_code : Z) (reason : string) (body : A)
| NoResponse (msg : string).
Arguments Response {A} status_code reason body.
Arguments NoResponse {A} msg.

Inductive gcs_op :=
| GcsUpload (blob : string)
| GcsList (pre : string)
| GcsDownload (blob : string).

(** Everything the scripts do not decide themselves: the date of the
    run, the outcome of the gcloud call, the answers of the service, the
    failures of the object store, and [json.loads] on a text. *)
Record env := Env {
  TODAY : string;
  gcloud : result string;
  get_namespaces : http json;
  get_export : http content;
  get_drafts : string -> http json;
  get_draft : string -> string -> http json;
  get_connections : string -> http json;
  get_apps : string -> http json;
  get_app : string -> string -> http json;
  put : api_call -> http unit;
  gcs_error : gcs_op -> option string;
  json_loads_text : string -> option json
}.

(** ** The monad of the scripts *)

Definition M (A : Type) : Type := world -> result A * world.

Definition ret {A} (a : A) : M A := fun w => (Ok a, w).

Definition raise {A} (e : exn) : M A := fun w => (Raise e, w).

Definition bind {A B} (m : M A) (k : A -> M B) : M B :=
  fun w =>
    match m w with
    | (Ok a, w') => k a w'
    | (Raise e, w') => (Raise e, w')
    end.

Notation "'do' x <- m ; k" := (bind m (fun x => k))
  (at level 10, x name, m at level 100, k at level 200,
   format "'[v' 'do'  x  <-  m ; '/' k ']'").

Definition lift {A} (r : result A) : M A := fun w => (r, w).

(** [try: m except C as e: h e], with [catches] the test for class [C]. *)
Definition try_except {A} (m : M A) (catches : exn -> bool) (h : exn -> M A)
  : M A :=
  fun w =>
    match m w with
    | (Ok a, w') => (Ok a, w')
    | (Raise e, w') => if catches e then h e w' else (Raise e, w')
    end.

Definition when (b : bool) (m : M unit) : M unit :=
  fun w => if b then m w else (Ok tt, w).

(** [for x in l: body x]. *)
Fixpoint for_each {A} (l : list A) (body : A -> M unit) : M unit :=
  match l with
  | [] => ret tt
  | x :: rest => do _ <- body x; for_each rest body
  end.

(** A loop that updates local variables [s]. *)
Fixpoint for_fold {A S} (l : list A) (s : S) (body : A -> S -> M S) : M S :=
  match l with
  | [] => ret s
  | x :: rest => do s' <- body x s; for_fold rest s' body
  end.

(** A loop inside a [try] whose handler reads the variables [s] of the
    loop: the body hands back the exception it stopped with, if any,
    together with the variables as they are then. *)
Fixpoint for_until {A S} (l : list A) (s : S)
    (body : A -> S -> M (S * option exn)) : M (S * option exn) :=
  match l with
  | [] => ret (s, None)
  | x :: rest =>
      do r <- body x s;
      match snd r with
      | Some _ => ret r
      | None => for_until rest (fst r) body
      end
  end.

(** Running [m] and looking at how it ended. *)
Definition capture {A} (m : M A) : M (result A) :=
  fun w => (Ok (fst (m w)), snd (m w)).

Definition emit (e : event) : M unit :=
  fun w => (Ok tt, World (fs w) (bucket w) (trace w ++ [e])).

Definition logging_info (msg : string) : M unit := emit (EvLog INFO msg).
Definition logging_warning (msg : string) : M unit := emit (EvLog WARNING msg).
Definition logging_error (msg : string) : M unit := emit (EvLog ERROR msg).
Definition logging_critical (msg : string) : M unit := emit (EvLog CRITICAL msg).
Definition print (msg : string) : M unit := emit (EvPrint msg).

Definition get_fs : M (gmap path node) := fun w => (Ok (fs w), w).
Definition put_fs (f : gmap path node) : M unit :=
  fun w => (Ok tt, World f (bucket w) (trace w)).
Definition get_bucket : M (list (string * content)) :=
  fun w => (Ok (bucket w), w).
Definition put_bucket (b : list (string * content)) : M unit :=
  fun w => (Ok tt, World (fs w) b (trace w)).

Arguments ret {A} a w /.
Arguments raise {A} e w /.
Arguments bind {A B} m k w /.
Arguments lift {A} r w /.
Arguments try_except {A} m catches h w /.
Arguments capture {A} m w /.
Arguments when b m w /.
Arguments emit e w /.
Arguments logging_info msg /.
Arguments logging_warning msg /.
Arguments logging_error msg /.
Arguments logging_critical msg /.
Arguments print msg /.
Arguments get_fs w /.
Arguments put_fs f w /.
Arguments get_bucket w /.
Arguments put_bucket b w /.

(** ** The file system

    [DIRECTORY] itself, the empty path, is a directory that always
    exists.  Every other path exists when the map has a node for it. *)

Definition parent (p : path) : path := removelast p.

Definition lookup_node (f : gmap path node) (p : path) : option node :=
  match p with
  | [] => Some NDir
  | _ => f !! p
  end.

Fixpoint strip_prefix (d p : path) : option path :=
  match d with
  | [] => Some p
  | x :: d' =>
      match p with
      | [] => None
      | y :: p' => if String.eqb x y then strip_prefix d' p' else None
      end
  end.

Definition child_of (d p : path) : option string :=
  match strip_prefix d p with
  | Some [name] => Some name
  | _ => None
  end.

(** The entries of directory [d]. *)
Definition children (f : gmap path node) (d : path) : list string :=
  omap (fun pn => child_of d (fst pn)) (map_to_list f).

(** The files below [folder] with their paths relative to it, as the
    [os.walk] loop of [compress_folder] adds them to the archive:
    directories, empty or not, are no members. *)
Definition files_under (f : gmap path node) (folder : path) : archive :=
  omap (fun pn =>
          match snd pn with
          | NFile c =>
              match strip_prefix folder (fst pn) with
              | Some (x :: rel) => Some (x :: rel, Some c)
              | _ => None
              end
          | NDir => None
          end) (map_to_list f).

(** [os.makedirs]: [pre] exists already, the components [todo] are
    created below it one by one; the last of them must not exist. *)
Fixpoint mkdir_chain (f : gmap path node) (pre todo : path)
  : result (gmap path node) :=
  match todo with
  | [] => Raise (FileExistsError ("[Errno 17] File exists: '" +:+ path_str pre +:+ "'"))
  | x :: rest =>
      let q := pre ++ [x] in
      match f !! q with
      | None =>
          match rest with
          | [] => Ok (<[q := NDir]> f)
          | _ => mkdir_chain (<[q := NDir]> f) q rest
          end
      | Some NDir =>
          match rest with
          | [] => Raise (FileExistsError ("[Errno 17] File exists: '" +:+ path_str q +:+ "'"))
          | _ => mkdir_chain f q rest
          end
      | Some (NFile _) =>
          match rest with
          | [] => Raise (FileExistsError ("[Errno 17] File exists: '" +:+ path_str q +:+ "'"))
          | _ => Raise (NotADirectoryError ("[Errno 20] Not a directory: '" +:+ path_str q +:+ "'"))
          end
      end
  end.

Definition os_path_exists (p : path) : M bool :=
  do f <- get_fs;
  ret (match lookup_node f p with Some _ => true | None => false end).

Definition os_path_isfile (p : path) : M bool :=
  do f <- get_fs;
  ret (match lookup_node f p with Some (NFile _) => true | _ => false end).

Definition os_path_isdir (p : path) : M bool :=
  do f <- get_fs;
  ret (match lookup_node f p with Some NDir => true | _ => false end).

Definition os_makedirs (p : path) : M unit :=
  do _ <- emit (EvMakedirs p);
  do f <- get_fs;
  do f' <- lift (mkdir_chain f [] p);
  put_fs f'.

(** [open(p, 'w')] followed by writing [c]: the folder of [p] must be
    there and [p] must not be a directory. *)
Definition write_file (who : writer) (p : path) (c : content) : M unit :=
  do f <- get_fs;
  match p with
  | [] => raise (IsADirectoryError "[Errno 21] Is a directory: ''")
  | _ =>
      match lookup_node f (parent p) with
      | None =>
          raise (FileNotFoundError
                   ("[Errno 2] No such file or directory: '" +:+ path_str p +:+ "'"))
      | Some (NFile _) =>
          raise (NotADirectoryError
                   ("[Errno 20] Not a directory: '" +:+ path_str p +:+ "'"))
      | Some NDir =>
          match f !! p with
          | Some NDir =>
              raise (IsADirectoryError
                       ("[Errno 21] Is a directory: '" +:+ path_str p +:+ "'"))
          | _ =>
              do _ <- put_fs (<[p := NFile c]> f);
              emit (EvWrite who p)
          end
      end
  end.

(** [open(p, 'r')] and reading all of it. *)
Definition read_file (p : path) : M content :=
  do f <- get_fs;
  match lookup_node f p with
  | None =>
      raise (FileNotFoundError
               ("[Errno 2] No such file or directory: '" +:+ path_str p +:+ "'"))
  | Some NDir =>
      raise (IsADirectoryError
               ("[Errno 21] Is a directory: '" +:+ path_str p +:+ "'"))
  | Some (NFile c) => ret c
  end.

(** [json.load] on the file at [p]. *)
Definition json_load (p : path) : M json :=
  do c <- read_file p;
  match c with
  | CJson j => ret j
  | _ => raise (JSONDecodeError "Expecting value: line 1 column 1 (char 0)")
  end.

Definition os_listdir (d : path) : M (list string) :=
  do f <- get_fs;
  match lookup_node f d with
  | None =>
      raise (FileNotFoundError
               ("[Errno 2] No such file or directory: '" +:+ path_str d +:+ "'"))
  | Some (NFile _) =>
      raise (NotADirectoryError
               ("[Errno 20] Not a directory: '" +:+ path_str d +:+ "'"))
  | Some NDir => ret (children f d)
  end.

(** [os.rename] of a file; the scripts rename nothing else. *)
Definition os_rename (src dst : path) : M unit :=
  do f <- get_fs;
  match f !! src with
  | None =>
      raise (FileNotFoundError
               ("[Errno 2] No such file or directory: '" +:+ path_str src +:+ "'"))
  | Some NDir =>
      raise (IsADirectoryError "renaming a directory is outside the model")
  | Some (NFile c) =>
      match lookup_node f (parent dst), f !! dst with
      | Some NDir, Some NDir =>
          raise (IsADirectoryError
                   ("[Errno 21] Is a directory: '" +:+ path_str dst +:+ "'"))
      | Some NDir, _ =>
          do _ <- put_fs (<[dst := NFile c]> (delete src f));
          emit (EvRename src dst)
      | _, _ =>
          raise (FileNotFoundError
                   ("[Errno 2] No such file or directory: '" +:+ path_str dst +:+ "'"))
      end
  end.

(** One member of [ZipFile.extractall(dest)]: the folders above the
    target are created when missing, then the file is written (or the
    directory made). *)
Definition extract_member (dest : path) (m : path * option content) : M unit :=
  let target := dest ++ fst m in
  let upperdirs := parent target in
  do ex <- os_path_exists upperdirs;
  do _ <- when (negb ex) (os_makedirs upperdirs);
  match snd m with
  | Some c => write_file ByExtract target c
  | None =>
      do isd <- os_path_isdir target;
      when (negb isd) (os_makedirs target)
  end.

(** [with zipfile.ZipFile(zip_path, "r") as z: z.extractall(dest)]. *)
Definition zip_extractall (zip_path dest : path) : M unit :=
  do c <- read_file zip_path;
  match c with
  | CZip members => for_each members (extract_member dest)
  | _ => raise (BadZipFile "File is not a zip file")
  end.

(** [folder_path + ".zip"]. *)
Definition path_add_suffix (p : path) (suffix : string) : path :=
  match reverse p with
  | [] => [suffix]
  | x :: r => reverse r ++ [x +:+ suffix]
  end.

(** ** The bucket *)

Fixpoint blob_get (name : string) (b : list (string * content)) : option content :=
  match b with
  | [] => None
  | (n, c) :: rest => if String.eqb name n then Some c else blob_get name rest
  end.

(** Storing a blob: it replaces the blob of that name, or takes its
    place in the listing, which is ordered by name. *)
Fixpoint blob_put (name : string) (c : content) (b : list (string * content))
  : list (string * content) :=
  match b with
  | [] => [(name, c)]
  | (n, c') :: rest =>
      match String.compare name n with
      | Eq => (name, c) :: rest
      | Lt => (name, c) :: (n, c') :: rest
      | Gt => (n, c') :: blob_put name c rest
      end
  end.

(** ** HTTP *)

Record response (A : Type) := Resp {
  status_code : Z;
  reason : string;
  body : A
}.
Arguments Resp {A} status_code reason body.
Arguments status_code {A} r.
Arguments reason {A} r.
Arguments body {A} r.

(** [session.get] and [session.put]: the call is recorded and answered
    by the environment; no answer at all is a [RequestException]. *)
Definition session_request {A} (c : api_call) (answer : http A) : M (response A) :=
  do _ <- emit (EvApi c);
  match answer with
  | Response status rsn b => ret (Resp status rsn b)
  | NoResponse msg => raise (RequestException msg)
  end.

(** [response.raise_for_status()]: an [HTTPError] for 4xx and 5xx. *)
Definition raise_for_status {A} (r : response A) : M unit :=
  if (400 <=? status_code r)%Z && (status_code r <? 600)%Z
  then raise (RequestException
                (pretty (status_code r) +:+ " Error: " +:+ reason r))
  else ret tt.

(** ** Calls to the object store *)

Section ObjectStore.
Context (E : env).

(** [blob.upload_from_filename(file_path)]. *)
Definition upload_from_filename (blob : string) (file_path : path) : M unit :=
  do c <- read_file file_path;
  do _ <- emit (EvUpload blob);
  match gcs_error E (GcsUpload blob) with
  | Some msg => raise (GoogleCloudError msg)
  | None =>
      do b <- get_bucket;
      put_bucket (blob_put blob c b)
  end.

(** [bucket.list_blobs(prefix=...)]. *)
Definition list_blobs (pre : string) : M (list (string * content)) :=
  match gcs_error E (GcsList pre) with
  | Some msg => raise (GoogleCloudError msg)
  | None =>
      do b <- get_bucket;
      ret (filter (fun blob => String.prefix pre (fst blob) = true) b)
  end.

(** [blob.download_to_filename(local_path)]; a failed download is taken
    to leave the local files as they were. *)
Definition download_to_filename (blob : string * content) (local_path : path)
  : M unit :=
  do _ <- emit (EvDownload (fst blob));
  match gcs_error E (GcsDownload (fst blob)) with
  | Some msg => raise (GoogleCloudError msg)
  | None => write_file ByDownload local_path (snd blob)
  end.

(** [bucket.list_blobs(prefix=..., delimiter="/")]: only the blobs
    directly below the prefix. *)
Definition no_slash (s : string) : bool :=
  String.eqb (before_first "/"%char s) s.

Definition list_blobs_delimited (pre : string) : M (list (string * content)) :=
  match gcs_error E (GcsList pre) with
  | Some msg => raise (GoogleCloudError msg)
  | None =>
      do b <- get_bucket;
      ret (filter (fun blob =>
                     String.prefix pre (fst blob)
                     && no_slash (String.substring (String.length pre)
                                    (String.length (fst blob)) (fst blob)) = true) b)
  end.

(** [json.loads(blob.download_as_text())]. *)
Definition download_as_json (blob : string) : M json :=
  do _ <- emit (EvDownload blob);
  match gcs_error E (GcsDownload blob) with
  | Some msg => raise (GoogleCloudError msg)
  | None =>
      do b <- get_bucket;
      match blob_get blob b with
      | None => raise (GoogleCloudError "404 No such object")
      | Some (CJson j) => ret j
      | Some _ => raise (JSONDecodeError "Expecting value: line 1 column 1 (char 0)")
      end
  end.

End ObjectStore.

Definition GCS_BUCKET_NAME : string := "ci-dev-configurations-asia-northeast1".

(** * cdf_export.py *)

Module CdfExport.

Definition BACKUP_DIRECTORY : path := ["backup"].
Definition RESTORE_DIRECTORY : path := ["restore"].
Definition GCS_BACKUP_FOLDER : string := "cdf/latest".
Definition GCS_ARCHIVE_FOLDER : string := "cdf/archive".

Section Scripts.
Context (E : env).

Definition ZIPFILE_NAME : string := TODAY E +:+ "_backup.zip".

Definition get_access_token : M string :=
  try_except
    (do _ <- emit EvToken;
     do stdout <- lift (gcloud E);
     let access_token := strip stdout in
     do _ <- logging_info "Successfully retrieved access token.";
     ret access_token)
    is_CalledProcessError
    (fun e =>
       do _ <- logging_critical
                 ("Failed to retrieve access token: "
                    +:+ match e with CalledProcessError err => err | _ => "" end);
       raise (Exception "Unable to retrieve access token. Ensure you are authenticated using gcloud.")).

Definition fetch_namespaces (headers : string) : M json :=
  try_except
    (do response <- session_request GetNamespaces (get_namespaces E);
     do _ <- raise_for_status response;
     ret (body response))
    is_RequestException
    (fun e =>
       do _ <- logging_error ("Failed to fetch namespaces: " +:+ exn_str e);
       ret (JArr [])).

Definition fetch_applications (headers : string) : M path :=
  try_except
    (do response <- session_request GetExport (get_export E);
     do ex <- os_path_exists BACKUP_DIRECTORY;
     do _ <- when (negb ex) (os_makedirs BACKUP_DIRECTORY);
     let zip_path := BACKUP_DIRECTORY ++ ["exported_apps.zip"] in
     do _ <- when (negb (status_code response =? 200)%Z)
               (raise (Exception
                         ("Failed to export applications: "
                            +:+ pretty (status_code response) +:+ " "
                            +:+ reason response)));
     do _ <- write_file ByExport zip_path (body response);
     do _ <- logging_info
               ("Downloaded application export to: " +:+ path_str zip_path);
     let extracted_dir := BACKUP_DIRECTORY ++ [TODAY E +:+ "_backup"] in
     do _ <- zip_extractall zip_path extracted_dir;
     do _ <- logging_info
               ("Extracted application details to: " +:+ path_str extracted_dir);
     ret extracted_dir)
    is_Exception
    (fun e =>
       raise (Exception ("Error exporting CDAP applications: " +:+ exn_str e))).

Definition fetch_pipelines_list (namespace : json) (headers : string) : M json :=
  try_except
    (do response <- session_request (GetDrafts (py_str namespace))
                      (get_drafts E (py_str namespace));
     do _ <- raise_for_status response;
     ret (body response))
    is_RequestException
    (fun e =>
       do _ <- logging_error
                 ("Failed to fetch pipelines for namespace '"
                    +:+ py_str namespace +:+ "': " +:+ exn_str e);
       ret (JArr [])).

Definition fetch_pipeline (namespace : json) (header : string) (draft_id : json)
  : M json :=
  try_except
    (do response <- session_request
                      (GetDraft (py_str namespace) (py_str draft_id))
                      (get_draft E (py_str namespace) (py_str draft_id));
     do _ <- raise_for_status response;
     ret (body response))
    is_RequestException
    (fun e =>
       do _ <- logging_error
                 ("Failed to fetch pipeline *" +:+ py_str draft_id
                    +:+ "* from namespace '" +:+ py_str namespace +:+ "': "
                    +:+ exn_str e);
       ret JNull).

Definition fetch_connections (namespace : json) (headers : string) : M json :=
  try_except
    (do response <- session_request (GetConnections (py_str namespace))
                      (get_connections E (py_str namespace));
     do _ <- raise_for_status response;
     ret (body response))
    is_RequestException
    (fun e =>
       do _ <- logging_error
                 ("Failed to fetch connections for namespace '"
                    +:+ py_str namespace +:+ "': " +:+ exn_str e);
       ret (JArr [])).

Definition save_to_gcs (file_name : string) (file_path : path)
    (bucket_folder : string) : M unit :=
  try_except
    (do _ <- upload_from_filename E (bucket_folder +:+ "/" +:+ file_name) file_path;
     logging_info
       ("Zip file uploaded to GCS bucket '" +:+ GCS_BUCKET_NAME +:+ "' as '"
          +:+ file_name +:+ "'."))
    is_Exception
    (fun e =>
       logging_error
         ("Failed to save " +:+ file_name +:+ " to GCS: " +:+ exn_str e)).

Definition compress_folder (folder_path : path) : M path :=
  try_except
    (do ex <- os_path_exists folder_path;
     do _ <- when (negb ex)
               (raise (FileNotFoundError
                         ("Folder '" +:+ path_str folder_path
                            +:+ "' does not exist.")));
     let zip_path := path_add_suffix folder_path ".zip" in
     do f <- get_fs;
     do _ <- write_file ByCompress zip_path (CZip (files_under f folder_path));
     do _ <- logging_info ("Compressed folder saved at: " +:+ path_str zip_path);
     ret zip_path)
    is_Exception
    (fun e => raise (Exception ("Failed to compress folder: " +:+ exn_str e))).

Definition read_from_file (file_path : path) : M json :=
  try_except
    (json_load file_path)
    is_Exception
    (fun e =>
       raise (Exception
                ("Error reading JSON file at '" +:+ path_str file_path
                   +:+ "': " +:+ exn_str e))).

(** The version of a dated archive:
    [blob.name.split("/")[-1].split("_")[0]]. *)
Definition zip_version (blob_name : string) : string :=
  before_first "_"%char (after_last "/"%char blob_name).

(** [if version:] on the optional argument. *)
Definition version_given (version : option string) : bool :=
  match version with
  | Some v => negb (String.eqb v "")
  | None => false
  end.

Definition download_and_unzip_from_gcs (gcs_folder_path : string)
    (version : option string) : M path :=
  try_except
    (do blobs <- list_blobs E gcs_folder_path;
     let zip_files := filter (fun blob => endswith (fst blob) ".zip" = true) blobs in
     do _ <- match zip_files with
             | [] =>
                 do _ <- logging_error
                           ("No .zip files found in folder '" +:+ gcs_folder_path
                              +:+ "' of bucket '" +:+ GCS_BUCKET_NAME +:+ "'.");
                 raise (Exception
                          ("No .zip files found in folder '" +:+ gcs_folder_path
                             +:+ "'."))
             | _ => ret tt
             end;
     do zip_blob <-
       (if version_given version then
          let v := default "" version in
          match List.find (fun blob => String.eqb (zip_version (fst blob)) v)
                  zip_files with
          | Some blob =>
              do _ <- logging_info
                        ("Archive have the Specified version for date '"
                           +:+ zip_version (fst blob) +:+ "'.");
              ret blob
          | None =>
              do _ <- logging_warning
                        ("Specified version '" +:+ v
                           +:+ "' was not found in archive.");
              raise (Exception
                       ("Specified version '" +:+ v
                          +:+ "' was not found in archive."))
          end
        else
          match zip_files with
          | blob :: _ => do _ <- print (fst blob); ret blob
          | [] => raise (Exception "list index out of range")
          end);
     let zip_filename := after_last "/"%char (fst zip_blob) in
     let extract_dir := drop_last 4 (after_last "/"%char (fst zip_blob)) in
     do ex <- os_path_exists RESTORE_DIRECTORY;
     do _ <- when (negb ex) (os_makedirs RESTORE_DIRECTORY);
     let local_zip_path := RESTORE_DIRECTORY ++ [zip_filename] in
     let local_extract_path := RESTORE_DIRECTORY ++ [extract_dir] in
     do _ <- download_to_filename E zip_blob local_zip_path;
     do _ <- logging_info
               ("Downloaded '" +:+ zip_filename +:+ "' from GCS bucket '"
                  +:+ GCS_BUCKET_NAME +:+ "/" +:+ gcs_folder_path +:+ "' to '"
                  +:+ path_str RESTORE_DIRECTORY +:+ "'.");
     do _ <- zip_extractall local_zip_path local_extract_path;
     do _ <- logging_info
               ("Unzipped contents to '" +:+ path_str local_extract_path +:+ "'.");
     do _ <- logging_info
               ("File '" +:+ zip_filename
                  +:+ "' downloaded and extracted successfully to '"
                  +:+ path_str local_extract_path +:+ "'.");
     ret local_extract_path)
    is_Exception
    (fun e =>
       raise (Exception ("Failed to download and unzip file: " +:+ exn_str e))).

(** [filename] is a full path already, so that joining it to
    [BACKUP_DIRECTORY] gives [filename] itself. *)
Definition save_to_file (filename : path) (content : json) : M unit :=
  try_except
    (let backup_dir := BACKUP_DIRECTORY in
     do ex <- os_path_exists backup_dir;
     do _ <- when (negb ex) (os_makedirs backup_dir);
     let file_path := filename in
     do _ <- write_file BySave file_path (CJson content);
     logging_info ("File '" +:+ path_str file_path +:+ "' created successfully."))
    is_Exception
    (fun e =>
       raise (Exception
                ("Failed to create file '" +:+ path_str filename +:+ "': "
                   +:+ exn_str e))).

(** [json.loads(x)]: only a text can be decoded, and the environment
    says what it decodes to. *)
Definition json_loads (x : json) : M json :=
  match x with
  | JStr s =>
      match json_loads_text E s with
      | Some j => ret j
      | None => raise (JSONDecodeError "Expecting value: line 1 column 1 (char 0)")
      end
  | _ => raise (TypeError "the JSON object must be str, bytes or bytearray")
  end.

(** [response["configuration"] = configuration_dict]; [response] is a
    dict here, since [response.get] went through. *)
Definition set_configuration (response configuration_dict : json) : json :=
  match response with
  | JObj fields => JObj (obj_set "configuration" configuration_dict fields)
  | _ => response
  end.

(** The body of the inner loop of [format_deployed_apps], for one
    directory entry [file] of [namespace_dir]. *)
Definition format_app_file (namespace_dir : path) (file : string) : M unit :=
  let file_path := namespace_dir ++ [file] in
  do isf <- os_path_isfile file_path;
  when isf
    (try_except
       (do response <- json_load file_path;
        do configuration_str <-
          lift (py_get_default response "configuration" (JStr ""));
        do decoded <-
          try_except
            (do configuration_dict <- json_loads configuration_str;
             ret (Some (set_configuration response configuration_dict)))
            is_JSONDecodeError
            (fun e =>
               do _ <- logging_error
                         ("Failed to parse configuration in file '"
                            +:+ path_str file_path +:+ "': " +:+ exn_str e);
               ret None);
        match decoded with
        | None => ret tt
        | Some response' =>
            do _ <- write_file ByFormat file_path (CJson response');
            let new_file_path :=
              namespace_dir ++ ["app_" +:+ splitext_stem file +:+ ".json"] in
            do _ <- os_rename file_path new_file_path;
            logging_info
              ("Formatted and renamed file: " +:+ path_str file_path
                 +:+ " -> " +:+ path_str new_file_path)
        end)
       is_Exception
       (fun e =>
          logging_error
            ("Error processing file '" +:+ path_str file_path +:+ "': "
               +:+ exn_str e))).

(** The body of the outer loop of [format_deployed_apps]. *)
Definition format_namespace (apps_location : path) (namespace : json) : M unit :=
  do name <- lift (py_getitem namespace "name");
  do name_s <- lift (as_str name);
  let namespace_dir := apps_location ++ [name_s] in
  do ex <- os_path_exists namespace_dir;
  if negb ex then
    logging_warning
      ("Namespace directory '" +:+ path_str namespace_dir
         +:+ "' does not exist. Skipping.")
  else
    do files <- os_listdir namespace_dir;
    for_each files (format_app_file namespace_dir).

Definition format_deployed_apps (apps_location : path) (namespaces : json)
  : M unit :=
  do _ <- logging_info "*********Formatting Application****************";
  do nss <- lift (py_iter namespaces);
  for_each nss (format_namespace apps_location).

(** One pipeline of the list of a namespace. *)
Definition backup_pipeline (headers : string) (namespace_name : json)
    (namespace_dir : path) (pipeline : json) : M unit :=
  do pipeline_name <- lift (py_get pipeline "name");
  do draft_id <- lift (py_get pipeline "id");
  do content <- fetch_pipeline namespace_name headers draft_id;
  let pipeline_file_path :=
    namespace_dir ++ ["draft_" +:+ py_str pipeline_name +:+ ".json"] in
  save_to_file pipeline_file_path content.

(** One connection of the list of a namespace. *)
Definition backup_connection (namespace_dir : path) (connection : json)
  : M unit :=
  do connection_name <- lift (py_get connection "name");
  let connection_file_path :=
    namespace_dir ++ ["conn_" +:+ py_str connection_name +:+ ".json"] in
  save_to_file connection_file_path connection.

(** The body of the namespace loop of [backup_application_state]. *)
Definition backup_namespace (headers : string) (zip_folder : path)
    (namespace : json) : M unit :=
  do namespace_name <- lift (py_getitem namespace "name");
  try_except
    (do name_s <- lift (as_str namespace_name);
     let namespace_dir := zip_folder ++ [name_s] in
     do ex <- os_path_exists namespace_dir;
     do _ <- when (negb ex)
               (do _ <- logging_info
                          ("Creating namespace directory : '" +:+ name_s +:+ "'.");
                os_makedirs namespace_dir);
     do _ <- logging_info
               ("*************Fetching Pipelines from " +:+ name_s
                  +:+ "********************");
     do pipelines_list <- fetch_pipelines_list namespace_name headers;
     do pipelines <- lift (py_iter pipelines_list);
     do _ <- for_each pipelines
               (backup_pipeline headers namespace_name namespace_dir);
     do _ <- logging_info
               ("***************Fetching Connections from " +:+ name_s
                  +:+ "*****************");
     do connections <- fetch_connections namespace_name headers;
     do conns <- lift (py_iter connections);
     for_each conns (backup_connection namespace_dir))
    is_Exception
    (fun e =>
       logging_error
         ("Failed to fetch connections/pipelines for namespace '"
            +:+ py_str namespace_name +:+ "': ('" +:+ exn_str e +:+ "',)")).

(** The last [try] block of [backup_application_state]. *)
Definition compress_and_upload (zip_folder : path) : M unit :=
  try_except
    (do _ <- logging_info
               "***************Compressing and uploading the backup files to GCS******************************";
     do zip_path <- compress_folder zip_folder;
     do _ <- save_to_gcs ZIPFILE_NAME zip_path GCS_ARCHIVE_FOLDER;
     save_to_gcs "backup.zip" zip_path GCS_BACKUP_FOLDER)
    is_Exception
    (fun e =>
       logging_error
         ("Failed to compress and upload backup files to GCS: " +:+ exn_str e)).

Definition backup_application_state (headers : string) : M unit :=
  do _ <- logging_info
            "********************Exporting the Deployed applications******************";
  do export_dir <- fetch_applications headers;
  do namespaces <- fetch_namespaces headers;
  if negb (py_truthy namespaces) then
    logging_warning "No namespaces found to backup."
  else
    do _ <- format_deployed_apps export_dir namespaces;
    let zip_folder := export_dir in
    do ex <- os_path_exists zip_folder;
    do _ <- when (negb ex) (os_makedirs zip_folder);
    let file_path := zip_folder ++ ["namespaces.json"] in
    do _ <- save_to_file file_path namespaces;
    do nss <- lift (py_iter namespaces);
    do _ <- for_each nss (backup_namespace headers zip_folder);
    compress_and_upload zip_folder.

(** The three lists the restore loop sorts the files of a namespace
    into. *)
Record classified := Classified {
  conn_files : list string;
  pipeline_files : list string;
  deployed_apps : list string
}.

Definition classify_file (namespace_dir : path) (file : string) (acc : classified)
  : M classified :=
  do isf <- os_path_isfile (namespace_dir ++ [file]);
  if isf then
    if startswith file "conn" then
      ret (Classified (conn_files acc ++ [file]) (pipeline_files acc)
             (deployed_apps acc))
    else if startswith file "draft" then
      ret (Classified (conn_files acc) (pipeline_files acc ++ [file])
             (deployed_apps acc))
    else
      ret (Classified (conn_files acc) (pipeline_files acc)
             (deployed_apps acc ++ [file]))
  else ret acc.

Definition restore_app (headers : string) (name : string) (namespace_dir : path)
    (app : string) : M unit :=
  do app_pipeline <- read_from_file (namespace_dir ++ [app]);
  try_except
    (do app_name <- lift (py_get app_pipeline "name");
     do response <- session_request (PutApp name (py_str app_name) app_pipeline)
                      (put E (PutApp name (py_str app_name) app_pipeline));
     do _ <- raise_for_status response;
     logging_info
       ("App '" +:+ app +:+ "' recreated successfully in '" +:+ name
          +:+ "' namespace."))
    is_Exception
    (fun e =>
       logging_error
         ("Failed to recreate app '" +:+ app +:+ "': " +:+ exn_str e)).

Definition restore_connection (headers : string) (name : string)
    (namespace_dir : path) (blob : string) : M unit :=
  do connection <- read_from_file (namespace_dir ++ [blob]);
  do connection_name <- lift (py_getitem connection "name");
  try_except
    (do response <-
       session_request (PutConnection name (py_str connection_name) connection)
         (put E (PutConnection name (py_str connection_name) connection));
     do _ <- raise_for_status response;
     do shown <- lift (py_getitem connection "name");
     logging_info
       ("Connection '" +:+ py_str shown +:+ "' restored in namespace '"
          +:+ name +:+ "'."))
    is_RequestException
    (fun e =>
       do shown <- lift (py_getitem connection "name");
       logging_error
         ("Failed to restore connection '" +:+ py_str shown
            +:+ "' in namespace '" +:+ name +:+ "': " +:+ exn_str e)).

(** The body of the draft loop: the draft is put back, and then, inside
    the same loop body, every connection file of the namespace. *)
Definition restore_pipeline (headers : string) (name : string)
    (namespace_dir : path) (conn_files : list string) (blob : string) : M unit :=
  do pipeline <- read_from_file (namespace_dir ++ [blob]);
  do _ <-
    try_except
      (do pipeline_name <- lift (py_getitem pipeline "id");
       do response <-
         session_request (PutDraft name (py_str pipeline_name) pipeline)
           (put E (PutDraft name (py_str pipeline_name) pipeline));
       do _ <- raise_for_status response;
       do shown <- lift (py_getitem pipeline "name");
       logging_info
         ("Pipeline '" +:+ py_str shown +:+ "' restored in namespace '"
            +:+ name +:+ "'."))
      is_Exception
      (fun e =>
         do shown <- lift (py_getitem pipeline "name");
         logging_error
           ("Failed to restore pipeline '" +:+ py_str shown
              +:+ "' in namespace '" +:+ name +:+ "': " +:+ exn_str e));
  for_each conn_files (restore_connection headers name namespace_dir).

(** The body of the namespace loop of [restore_application_state]. *)
Definition restore_namespace (headers : string) (zip_blob_path : path)
    (namespace : json) : M unit :=
  do name_j <- lift (py_getitem namespace "name");
  do name <- lift (as_str name_j);
  let namespace_dir := zip_blob_path ++ [name] in
  do files <- os_listdir namespace_dir;
  do cl <- for_fold files (Classified [] [] []) (classify_file namespace_dir);
  do recreated <-
    (if negb (String.eqb name "default") then
       try_except
         (do response <- session_request (PutNamespace name namespace)
                           (put E (PutNamespace name namespace));
          do _ <- raise_for_status response;
          do _ <- logging_info
                    ("Namespace '" +:+ name +:+ "' recreated successfully.");
          ret true)
         is_RequestException
         (fun e =>
            do _ <- logging_error
                      ("Failed to recreate namespace '" +:+ name +:+ "': "
                         +:+ exn_str e);
            ret false)
     else ret true);
  when recreated
    (do _ <- for_each (deployed_apps cl) (restore_app headers name namespace_dir);
     for_each (pipeline_files cl)
       (restore_pipeline headers name namespace_dir (conn_files cl))).

Definition restore_application_state (headers : string)
    (restore_version : option string) : M unit :=
  do zip_blob_path <-
    (if version_given restore_version then
       download_and_unzip_from_gcs GCS_ARCHIVE_FOLDER restore_version
     else
       download_and_unzip_from_gcs GCS_BACKUP_FOLDER None);
  let namespace_file_path := zip_blob_path ++ ["namespaces.json"] in
  do namespaces <- read_from_file namespace_file_path;
  if negb (py_truthy namespaces) then
    logging_warning "No namespaces found in backup. Exiting restore process."
  else
    do nss <- lift (py_iter namespaces);
    for_each nss (restore_namespace headers zip_blob_path).

Inductive operation := Backup | Restore.

Definition operation_str (op : operation) : string :=
  match op with Backup => "backup" | Restore => "restore" end.

Definition main (op : operation) (restore_version : option string) : M unit :=
  try_except
    (do access_token <- get_access_token;
     let headers := "Bearer " +:+ access_token in
     match op with
     | Backup => backup_application_state headers
     | Restore => restore_application_state headers restore_version
     end)
    is_Exception
    (fun e =>
       logging_error
         ("An unexpected error occurred during -> " +:+ operation_str op +:+ ": "
            +:+ exn_str e)).

End Scripts.
End CdfExport.

(** * cdf_state.py *)

Module CdfState.

Section Scripts.
Context (E : env).

Definition BACKUP_DIRECTORY : path := [TODAY E +:+ "_backup"].

Definition fetch_namespaces (headers : string) : M json :=
  try_except
    (do response <- session_request GetNamespaces (get_namespaces E);
     do _ <- raise_for_status response;
     ret (body response))
    is_RequestException
    (fun e =>
       do _ <- logging_error ("Failed to fetch namespaces: " +:+ exn_str e);
       ret (JArr [])).

Definition fetch_pipelines_list (namespace : json) (headers : string) : M json :=
  try_except
    (do response <- session_request (GetApps (py_str namespace))
                      (get_apps E (py_str namespace));
     do _ <- raise_for_status response;
     ret (body response))
    is_RequestException
    (fun e =>
       do _ <- logging_error
                 ("Failed to fetch pipelines for namespace '"
                    +:+ py_str namespace +:+ "': " +:+ exn_str e);
       ret (JArr [])).

Definition fetch_pipeline (namespace : json) (header : string) (app : json)
  : M json :=
  try_except
    (do response <- session_request (GetApp (py_str namespace) (py_str app))
                      (get_app E (py_str namespace) (py_str app));
     do _ <- raise_for_status response;
     ret (body response))
    is_RequestException
    (fun e =>
       do _ <- logging_error
                 ("Failed to fetch pipeline *" +:+ py_str app
                    +:+ "* from namespace '" +:+ py_str namespace +:+ "': "
                    +:+ exn_str e);
       ret JNull).

Definition fetch_connections (namespace : json) (headers : string) : M json :=
  try_except
    (do response <- session_request (GetConnections (py_str namespace))
                      (get_connections E (py_str namespace));
     do _ <- raise_for_status response;
     ret (body response))
    is_RequestException
    (fun e =>
       do _ <- logging_error
                 ("Failed to fetch connections for namespace '"
                    +:+ py_str namespace +:+ "': " +:+ exn_str e);
       ret (JArr [])).

(** The archive is written; then [bucket.blob(zip_filename, sufix=...)]
    is a call with a keyword the method does not have, a [TypeError]. *)
Definition compress_folder_and_upload_to_gcs (folder_path : path)
    (zip_filename : string) : M string :=
  try_except
    (do ex <- os_path_exists folder_path;
     do _ <- when (negb ex)
               (raise (FileNotFoundError
                         ("Folder '" +:+ path_str folder_path
                            +:+ "' does not exist.")));
     let zip_path := path_add_suffix BACKUP_DIRECTORY ".zip" in
     do f <- get_fs;
     do _ <- write_file ByCompress zip_path (CZip (files_under f folder_path));
     do _ <- print ("Compressed folder saved at: " +:+ path_str zip_path);
     raise (TypeError "blob() got an unexpected keyword argument 'sufix'"))
    is_Exception
    (fun e =>
       raise (Exception
                ("Failed to compress and upload folder: " +:+ exn_str e))).

Definition load_from_gcs (file_name : string) : M json :=
  try_except
    (do data <- download_as_json E file_name;
     do _ <- logging_info ("Loaded " +:+ file_name +:+ " from GCS.");
     ret data)
    is_Exception
    (fun e =>
       do _ <- logging_error
                 ("Failed to load " +:+ file_name +:+ " from GCS: " +:+ exn_str e);
       ret (JObj [])).

Definition save_to_file (filename : path) (content : json) : M unit :=
  try_except
    (let backup_dir := BACKUP_DIRECTORY in
     do ex <- os_path_exists backup_dir;
     do _ <- when (negb ex) (os_makedirs backup_dir);
     let file_path := filename in
     do _ <- write_file BySave file_path (CJson content);
     logging_info ("File '" +:+ path_str file_path +:+ "' created successfully."))
    is_Exception
    (fun e =>
       raise (Exception
                ("Failed to create file '" +:+ path_str filename +:+ "': "
                   +:+ exn_str e))).

(** [namespace_name != "default"]. *)
Definition is_default (name : json) : bool :=
  match name with
  | JStr s => String.eqb s "default"
  | _ => false
  end.

Definition backup_pipeline (headers : string) (namespace_name : json)
    (pipeline : json) : M unit :=
  do pipeline_name <- lift (py_get pipeline "name");
  do content <- fetch_pipeline namespace_name headers pipeline_name;
  do name_s <- lift (as_str namespace_name);
  let pipeline_file_path :=
    BACKUP_DIRECTORY ++ [name_s; py_str pipeline_name +:+ ".json"] in
  save_to_file pipeline_file_path content.

Definition backup_connection (namespace_name : json) (connection : json)
  : M unit :=
  do connection_name <- lift (py_get connection "name");
  do name_s <- lift (as_str namespace_name);
  let connection_file_path :=
    BACKUP_DIRECTORY ++ [name_s; py_str connection_name +:+ ".json"] in
  save_to_file connection_file_path connection.

(** The body of the namespace loop of [backup_application_state]. *)
Definition backup_namespace (headers : string) (namespace : json) : M unit :=
  do namespace_name <- lift (py_getitem namespace "name");
  when (negb (is_default namespace_name))
    (try_except
       (do _ <- logging_info
                  ("*************Fetching Pipelines from "
                     +:+ py_str namespace_name +:+ "********************");
        do pipelines_list <- fetch_pipelines_list namespace_name headers;
        do pipelines <- lift (py_iter pipelines_list);
        do _ <- for_each pipelines (backup_pipeline headers namespace_name);
        do _ <- logging_info
                  ("***************Fetching Connections from "
                     +:+ py_str namespace_name +:+ "*****************");
        do connections <- fetch_connections namespace_name headers;
        do conns <- lift (py_iter connections);
        for_each conns (backup_connection namespace_name))
       is_Exception
       (fun e =>
          logging_error
            ("Failed to fetch connections/pipelines for namespace '"
               +:+ py_str namespace_name +:+ "': ('" +:+ exn_str e +:+ "',)"))).

Definition backup_application_state (headers : string) : M unit :=
  do namespaces <- fetch_namespaces headers;
  if negb (py_truthy namespaces) then
    logging_warning "No namespaces found to backup."
  else
    let file_path := BACKUP_DIRECTORY ++ ["namespaces.json"] in
    do _ <- save_to_file file_path namespaces;
    do nss <- lift (py_iter namespaces);
    do _ <- for_each nss (backup_namespace headers);
    try_except
      (do _ <- logging_info
                 "***************Compressing and uploading the backup files to GCS******************************";
       do _ <- compress_folder_and_upload_to_gcs BACKUP_DIRECTORY
                 (TODAY E +:+ "_backup.zip");
       ret tt)
      is_Exception
      (fun e =>
         logging_error
           ("Failed to compress and upload backup files to GCS: " +:+ exn_str e)).

(** One blob of the pipeline listing.  [pipeline] is the variable of
    that name of [restore_application_state]; it keeps its last value
    from one loop, and one namespace, to the next. *)
Definition restore_pipeline_blob (headers name : string)
    (blob : string * content) (pipeline : option json)
  : M (option json * option exn) :=
  do _ <- print ("blob -->  " +:+ fst blob);
  do loaded <- load_from_gcs (fst blob);
  do r <- capture
            (do pipeline_name <- lift (py_getitem loaded "name");
             do response <-
               session_request (PutDraft name (py_str pipeline_name) loaded)
                 (put E (PutDraft name (py_str pipeline_name) loaded));
             do _ <- raise_for_status response;
             do shown <- lift (py_getitem loaded "name");
             logging_info
               ("Pipeline '" +:+ py_str shown +:+ "' restored in namespace '"
                  +:+ name +:+ "'."));
  ret (Some loaded, match r with Ok _ => None | Raise e => Some e end).

(** The [try] block that recreates the pipelines of namespace [name],
    with its [except Exception] handler. *)
Definition restore_pipelines (headers name : string) (pipeline : option json)
  : M (option json) :=
  do listed <- capture
                 (do _ <- print ("name -->  " +:+ name);
                  do _ <- print ("bucket --> <Bucket: " +:+ GCS_BUCKET_NAME +:+ ">");
                  do _ <- print "list --> <iterator>";
                  list_blobs_delimited E ("cdf/" +:+ name +:+ "/pipelines/"));
  do out <-
    match listed with
    | Raise e => ret (pipeline, Some e)
    | Ok blobs => for_until blobs pipeline (restore_pipeline_blob headers name)
    end;
  match snd out with
  | None => ret (fst out)
  | Some e =>
      match fst out with
      | None =>
          raise (UnboundLocalError
                   "local variable 'pipeline' referenced before assignment")
      | Some p =>
          do shown <- lift (py_getitem p "name");
          do _ <- logging_error
                    ("Failed to restore pipeline '" +:+ py_str shown
                       +:+ "' in namespace '" +:+ name +:+ "': " +:+ exn_str e);
          ret (fst out)
      end
  end.

(** One blob of the connection listing.  The [except] clause of the
    [try] around the loop takes a [RequestException] only, which no
    statement but the request raises, so that the handler runs where the
    request is. *)
Definition restore_connection_blob (headers name : string)
    (blob : string * content) (_ : unit) : M (unit * option exn) :=
  do _ <- print ("blob --> <Blob: " +:+ GCS_BUCKET_NAME +:+ ", " +:+ fst blob +:+ ">");
  do connection <- load_from_gcs (fst blob);
  do connection_name <- lift (py_getitem connection "name");
  try_except
    (do response <-
       session_request (PutConnection name (py_str connection_name) connection)
         (put E (PutConnection name (py_str connection_name) connection));
     do _ <- raise_for_status response;
     do _ <- logging_info
               ("Connection '" +:+ py_str connection_name
                  +:+ "' restored in namespace '" +:+ name +:+ "'.");
     ret (tt, None))
    is_RequestException
    (fun e =>
       do _ <- logging_error
                 ("Failed to restore connection '" +:+ py_str connection_name
                    +:+ "' in namespace '" +:+ name +:+ "': " +:+ exn_str e);
       ret (tt, Some e)).

(** The [try] block that recreates the connections of namespace
    [name]. *)
Definition restore_connections (headers name : string) : M unit :=
  do _ <- print ("name -->  " +:+ name);
  do _ <- print ("bucket --> <Bucket: " +:+ GCS_BUCKET_NAME +:+ ">");
  do _ <- print "list --> <iterator>";
  do blobs <- list_blobs_delimited E ("cdf/" +:+ name +:+ "/connections/");
  do _ <- for_until blobs tt (restore_connection_blob headers name);
  ret tt.

(** The body of the namespace loop of [restore_application_state]:
    everything is under [if name != "default"]. *)
Definition restore_namespace (headers : string) (namespace : json)
    (pipeline : option json) : M (option json) :=
  do name_j <- lift (py_getitem namespace "name");
  if is_default name_j then ret pipeline
  else
    let name := py_str name_j in
    do recreated <-
      try_except
        (do response <- session_request (PutNamespace name namespace)
                          (put E (PutNamespace name namespace));
         do _ <- raise_for_status response;
         do _ <- logging_info
                   ("Namespace '" +:+ name +:+ "' recreated successfully.");
         ret true)
        is_RequestException
        (fun e =>
           do _ <- logging_error
                     ("Failed to recreate namespace '" +:+ name +:+ "': "
                        +:+ exn_str e);
           ret false);
    if recreated then
      do pipeline' <- restore_pipelines headers name pipeline;
      do _ <- restore_connections headers name;
      ret pipeline'
    else ret pipeline.

Definition restore_application_state (headers : string) : M unit :=
  do namespaces <- load_from_gcs "cdf/namespaces.json";
  if negb (py_truthy namespaces) then
    logging_warning "No namespaces found in backup. Exiting restore process."
  else
    do nss <- lift (py_iter namespaces);
    do _ <- for_fold nss None (restore_namespace headers);
    ret tt.

End Scripts.
End CdfState.

(** * Sample services

    Concrete environments and states on which the scripts are run. *)

Module Samples.

(** [json.loads] on the texts the samples use: ["{}"] is the empty
    dict, and no other text of the samples is JSON. *)
Definition sample_loads (s : string) : option json :=
  if String.eqb s "{}" then Some (JObj []) else None.

Definition ok {A} (b : A) : http A := Response 200%Z "OK" b.

Definition not_found : http json := Response 404%Z "Not Found" JNull.

Definition namespace_doc (name : string) : json := JObj [("name", JStr name)].

(** A fresh working directory and an empty bucket. *)
Definition fresh : world := World ∅ [] [].

(** No file, an empty trace, and the bucket [b]. *)
Definition with_bucket (b : list (string * content)) : world := World ∅ b [].

(** A service that lists no namespace; its export holds one app of a
    namespace it does not list. *)
Definition no_namespaces : env := {|
  TODAY := "2024-12-06";
  gcloud := Ok "token";
  get_namespaces := ok (JArr []);
  get_export :=
    ok (CZip [(["ns1"; "etl.json"],
               Some (CJson (JObj [("name", JStr "etl");
                                  ("configuration", JStr "{}")])))]);
  get_drafts := fun _ => ok (JArr []);
  get_draft := fun _ _ => not_found;
  get_connections := fun _ => ok (JArr []);
  get_apps := fun _ => ok (JArr []);
  get_app := fun _ _ => not_found;
  put := fun _ => ok tt;
  gcs_error := fun _ => None;
  json_loads_text := sample_loads
|}.

(** The export endpoint answers 204 No Content. *)
Definition export_204 : env := {|
  TODAY := "2024-12-06";
  gcloud := Ok "token";
  get_namespaces := ok (JArr [namespace_doc "ns1"]);
  get_export := Response 204%Z "No Content" (CRaw "");
  get_drafts := fun _ => ok (JArr []);
  get_draft := fun _ _ => not_found;
  get_connections := fun _ => ok (JArr []);
  get_apps := fun _ => ok (JArr []);
  get_app := fun _ _ => not_found;
  put := fun _ => ok tt;
  gcs_error := fun _ => None;
  json_loads_text := sample_loads
|}.

(** One namespace [ns1] with one deployed app, no draft and one
    connection [c1]; every request and every upload succeeds. *)
Definition one_connection : env := {|
  TODAY := "2024-12-06";
  gcloud := Ok "token";
  get_namespaces := ok (JArr [namespace_doc "ns1"]);
  get_export :=
    ok (CZip [(["ns1"; "etl.json"],
               Some (CJson (JObj [("name", JStr "etl");
                                  ("configuration", JStr "{}")])))]);
  get_drafts := fun _ => ok (JArr []);
  get_draft := fun _ _ => not_found;
  get_connections := fun ns =>
    if String.eqb ns "ns1" then ok (JArr [JObj [("name", JStr "c1")]])
    else ok (JArr []);
  get_apps := fun _ => ok (JArr []);
  get_app := fun _ _ => not_found;
  put := fun _ => ok tt;
  gcs_error := fun _ => None;
  json_loads_text := sample_loads
|}.

(** As [one_connection], but the upload to the history location
    fails. *)
Definition history_upload_fails : env := {|
  TODAY := "2024-12-06";
  gcloud := Ok "token";
  get_namespaces := ok (JArr [namespace_doc "ns1"]);
  get_export :=
    ok (CZip [(["ns1"; "etl.json"],
               Some (CJson (JObj [("name", JStr "etl");
                                  ("configuration", JStr "{}")])))]);
  get_drafts := fun _ => ok (JArr []);
  get_draft := fun _ _ => not_found;
  get_connections := fun ns =>
    if String.eqb ns "ns1" then ok (JArr [JObj [("name", JStr "c1")]])
    else ok (JArr []);
  get_apps := fun _ => ok (JArr []);
  get_app := fun _ _ => not_found;
  put := fun _ => ok tt;
  gcs_error := fun op =>
    match op with
    | GcsUpload blob =>
        if String.eqb blob "cdf/archive/2024-12-06_backup.zip"
        then Some "503 Service Unavailable" else None
    | _ => None
    end;
  json_loads_text := sample_loads
|}.

(** One namespace [ns1] with three deployed apps and nothing else; the
    [configuration] of the app [broken] is a text that is no JSON. *)
Definition undecodable_app : env := {|
  TODAY := "2024-12-06";
  gcloud := Ok "token";
  get_namespaces := ok (JArr [namespace_doc "ns1"]);
  get_export :=
    ok (CZip [(["ns1"; "etl.json"],
               Some (CJson (JObj [("name", JStr "etl");
                                  ("configuration", JStr "{}")])));
              (["ns1"; "broken.json"],
               Some (CJson (JObj [("name", JStr "broken");
                                  ("configuration", JStr "{not json")])));
              (["ns1"; "load.json"],
               Some (CJson (JObj [("name", JStr "load");
                                  ("configuration", JStr "{}")])))]);
  get_drafts := fun _ => ok (JArr []);
  get_draft := fun _ _ => not_found;
  get_connections := fun _ => ok (JArr []);
  get_apps := fun _ => ok (JArr []);
  get_app := fun _ _ => not_found;
  put := fun _ => ok tt;
  gcs_error := fun _ => None;
  json_loads_text := sample_loads
|}.

(** The archive a backup of [one_connection] produces. *)
Definition one_connection_archive : content :=
  CZip [(["namespaces.json"], Some (CJson (JArr [namespace_doc "ns1"])));
        (["ns1"; "app_etl.json"],
         Some (CJson (JObj [("name", JStr "etl"); ("configuration", JObj [])])));
        (["ns1"; "conn_c1.json"], Some (CJson (JObj [("name", JStr "c1")])))].

(** The bucket after that backup: one dated archive in the history, the
    same archive in the latest slot. *)
Definition backed_up : list (string * content) :=
  [("cdf/archive/2024-12-06_backup.zip", one_connection_archive);
   ("cdf/latest/backup.zip", one_connection_archive)].

(** One namespace [ns1] whose list of drafts has the draft [p1] with id
    [d1]; the service answers 404 when that draft is fetched. *)
Definition draft_not_found : env := {|
  TODAY := "2024-12-06";
  gcloud := Ok "token";
  get_namespaces := ok (JArr [namespace_doc "ns1"]);
  get_export := ok (CZip []);
  get_drafts := fun _ =>
    ok (JArr [JObj [("id", JStr "d1"); ("name", JStr "p1")]]);
  get_draft := fun _ _ => not_found;
  get_connections := fun _ => ok (JArr []);
  get_apps := fun _ => ok (JArr []);
  get_app := fun _ _ => not_found;
  put := fun _ => ok tt;
  gcs_error := fun _ => None;
  json_loads_text := sample_loads
|}.

(** The staging folder with the folder of [ns1] in it, empty. *)
Definition staged_ns1 : world :=
  World
    (list_to_map
       [(["backup"], NDir);
        (["backup"; "2024-12-06_backup"], NDir);
        (["backup"; "2024-12-06_backup"; "ns1"], NDir)])
    [] [].

(** An archive that lists the namespaces [default], [ns1] and [ns2]
    and has files for [ns1] and [ns2] only: [default] had nothing at
    backup time. *)
Definition archive_without_default : archive :=
  [(["namespaces.json"],
    Some (CJson (JArr [namespace_doc "ns1"; namespace_doc "default";
                       namespace_doc "ns2"])));
   (["ns1"; "conn_c1.json"], Some (CJson (JObj [("name", JStr "c1")])));
   (["ns2"; "conn_c2.json"], Some (CJson (JObj [("name", JStr "c2")])))].

(** The only namespace is [default]; it has one app, one draft and one
    connection. *)
Definition default_only : env := {|
  TODAY := "2024-12-06";
  gcloud := Ok "token";
  get_namespaces := ok (JArr [namespace_doc "default"]);
  get_export := ok (CZip []);
  get_drafts := fun _ =>
    ok (JArr [JObj [("id", JStr "d0"); ("name", JStr "p0")]]);
  get_draft := fun _ _ => ok (JObj [("id", JStr "d0"); ("name", JStr "p0")]);
  get_connections := fun _ => ok (JArr [JObj [("name", JStr "c0")]]);
  get_apps := fun _ => ok (JArr [JObj [("name", JStr "app0")]]);
  get_app := fun _ _ => ok (JObj [("name", JStr "app0")]);
  put := fun _ => ok tt;
  gcs_error := fun _ => None;
  json_loads_text := sample_loads
|}.

(** A bucket in the layout [cdf_state.py] restores from, with a pipeline
    and a connection stored for [default]. *)
Definition default_blobs : list (string * content) :=
  [("cdf/default/connections/c0.json", CJson (JObj [("name", JStr "c0")]));
   ("cdf/default/pipelines/p0.json",
    CJson (JObj [("id", JStr "d0"); ("name", JStr "p0")]));
   ("cdf/namespaces.json", CJson (JArr [namespace_doc "default"]))].

(** A staging folder that holds [namespaces.json] only. *)
Definition staged : world :=
  World
    (list_to_map
       [(["backup"], NDir);
        (["backup"; "2024-12-06_backup"], NDir);
        (["backup"; "2024-12-06_backup"; "namespaces.json"],
         NFile (CJson (JArr [namespace_doc "ns1"])))])
    [] [].

End Samples.

(** * Reasoning about runs *)

(** ** Relating the state before and after

    [follows R m]: whatever the state [w], running [m] leads to a state
    related to [w] by [R], whether [m] returns or raises.  For a
    reflexive and transitive [R] this goes through sequencing, handlers
    and loops, so that it is enough to look at the steps that change the
    state. *)
Definition follows {A} (R : relation world) (m : M A) : Prop :=
  forall w, R w (snd (m w)).

(** The state after one more event. *)
Definition logged (w : world) (e : event) : world :=
  World (fs w) (bucket w) (trace w ++ [e]).

Section Follows.
Context (R : relation world) `{!PreOrder R}.

Lemma follows_ret {A} (a : A) : follows R (ret a).
Proof. intros w. simpl. reflexivity. Qed.

Lemma follows_raise {A} (e : exn) : follows R (raise e : M A).
Proof. intros w. simpl. reflexivity. Qed.

Lemma follows_lift {A} (r : result A) : follows R (lift r).
Proof. intros w. simpl. reflexivity. Qed.

Lemma follows_get_fs : follows R get_fs.
Proof. intros w. simpl. reflexivity. Qed.

Lemma follows_get_bucket : follows R get_bucket.
Proof. intros w. simpl. reflexivity. Qed.

Lemma follows_bind {A B} (m : M A) (k : A -> M B) :
  follows R m -> (forall a, follows R (k a)) -> follows R (bind m k).
Proof.
  intros Hm Hk w. unfold bind. specialize (Hm w).
  destruct (m w) as [[a|e] w1]; simpl in *; [| done].
  etrans; [exact Hm | apply Hk].
Qed.

Lemma follows_bind_lift {A B} (r : result A) (k : A -> M B) :
  (forall a, r = Ok a -> follows R (k a)) -> follows R (bind (lift r) k).
Proof.
  intros Hk w. simpl. destruct r as [a|e]; simpl; [by apply Hk | reflexivity].
Qed.

Lemma follows_try_except {A} (m : M A) catches h :
  follows R m -> (forall e, catches e = true -> follows R (h e)) ->
  follows R (try_except m catches h).
Proof.
  intros Hm Hh w. unfold try_except. specialize (Hm w).
  destruct (m w) as [[a|e] w1]; simpl in *; [done |].
  destruct (catches e) eqn:Hc; simpl; [| done].
  etrans; [exact Hm | by apply Hh].
Qed.

Lemma follows_capture {A} (m : M A) : follows R m -> follows R (capture m).
Proof. intros Hm w. exact (Hm w). Qed.

Lemma follows_when b m : (b = true -> follows R m) -> follows R (when b m).
Proof. intros Hm w. destruct b; simpl; [by apply Hm | reflexivity]. Qed.

Lemma follows_for_each {A} (l : list A) body :
  (forall x, follows R (body x)) -> follows R (for_each l body).
Proof.
  intros Hb. induction l as [|x l IH]; simpl.
  - apply follows_ret.
  - apply follows_bind; [apply Hb | intros _; apply IH].
Qed.

Lemma follows_for_each_in {A} (l : list A) body :
  (forall x, x ∈ l -> follows R (body x)) -> follows R (for_each l body).
Proof.
  intros Hb. induction l as [|x l IH]; simpl.
  - apply follows_ret.
  - apply follows_bind; [apply Hb; apply list_elem_of_here |].
    intros _. apply IH. intros y Hy. apply Hb. by apply list_elem_of_further.
Qed.

Lemma follows_for_fold {A S} (l : list A) (s : S) body :
  (forall x s, follows R (body x s)) -> follows R (for_fold l s body).
Proof.
  intros Hb. revert s. induction l as [|x l IH]; intros s; simpl.
  - apply follows_ret.
  - apply follows_bind; [apply Hb | intros s'; apply IH].
Qed.

Lemma follows_for_until {A S} (l : list A) (s : S) body :
  (forall x s, follows R (body x s)) -> follows R (for_until l s body).
Proof.
  intros Hb. revert s. induction l as [|x l IH]; intros s; simpl.
  - apply follows_ret.
  - apply follows_bind; [apply Hb |].
    intros [s' [e|]]; simpl; [apply follows_ret | apply IH].
Qed.

(** The steps that change the state. *)

Lemma follows_emit e : (forall w, R w (logged w e)) -> follows R (emit e).
Proof. intros He w. apply He. Qed.

Lemma follows_put_bucket b :
  (forall w, R w (World (fs w) b (trace w))) -> follows R (put_bucket b).
Proof. intros Hb w. apply Hb. Qed.

Lemma follows_os_path_exists p : follows R (os_path_exists p).
Proof. intros w. simpl. reflexivity. Qed.

Lemma follows_os_path_isfile p : follows R (os_path_isfile p).
Proof. intros w. simpl. reflexivity. Qed.

Lemma follows_os_path_isdir p : follows R (os_path_isdir p).
Proof. intros w. simpl. reflexivity. Qed.

Lemma follows_read_file p : follows R (read_file p).
Proof.
  intros w. unfold read_file, bind, get_fs. simpl.
  destruct (lookup_node (fs w) p) as [[c|]|]; simpl; reflexivity.
Qed.

Lemma follows_json_load p : follows R (json_load p).
Proof.
  intros w. unfold json_load, bind. pose proof (follows_read_file p w) as H.
  destruct (read_file p w) as [[c|e] w1]; simpl in *; [| done].
  by destruct c.
Qed.

Lemma follows_os_listdir p : follows R (os_listdir p).
Proof.
  intros w. unfold os_listdir, bind, get_fs. simpl.
  destruct (lookup_node (fs w) p) as [[c|]|]; simpl; reflexivity.
Qed.

Lemma follows_raise_for_status {A} (r : response A) :
  follows R (raise_for_status r).
Proof.
  intros w. unfold raise_for_status.
  destruct (_ && _); simpl; reflexivity.
Qed.

Lemma follows_session_request {A} c (answer : http A) :
  (forall w, R w (logged w (EvApi c))) -> follows R (session_request c answer).
Proof.
  intros Hc w. unfold session_request, bind, emit.
  destruct answer; simpl; apply Hc.
Qed.

(** A file is written at [p] only if [p] is no directory and the folder
    of [p] is one. *)
Lemma follows_write_file who p c :
  (forall w,
      fs w !! p <> Some NDir -> lookup_node (fs w) (parent p) = Some NDir ->
      R w (World (<[p := NFile c]> (fs w)) (bucket w)
             (trace w ++ [EvWrite who p]))) ->
  follows R (write_file who p c).
Proof.
  intros Hw w. unfold write_file, bind, get_fs. simpl.
  destruct p as [|x p]; [simpl; reflexivity |].
  destruct (lookup_node (fs w) (parent (x :: p))) as [[?|]|] eqn:Hpar;
    simpl; try reflexivity.
  destruct (fs w !! (x :: p)) as [[?|]|] eqn:Hp; simpl; try reflexivity.
  all: apply Hw; [congruence | done].
Qed.

(** [os.rename] moves the file at [src] to [dst]. *)
Lemma follows_os_rename src dst :
  (forall w c,
      fs w !! src = Some (NFile c) -> fs w !! dst <> Some NDir ->
      R w (World (<[dst := NFile c]> (delete src (fs w))) (bucket w)
             (trace w ++ [EvRename src dst]))) ->
  follows R (os_rename src dst).
Proof.
  intros Hr w. unfold os_rename, bind, get_fs. simpl.
  destruct (fs w !! src) as [[c|]|] eqn:Hsrc; simpl; try reflexivity.
  destruct (lookup_node (fs w) (parent dst)) as [[?|]|]; simpl; try reflexivity.
  destruct (fs w !! dst) as [[?|]|] eqn:Hdst; simpl; try reflexivity.
  all: apply Hr; [done | congruence].
Qed.

End Follows.

Lemma follows_os_makedirs (R : relation world) `{!PreOrder R} p :
  (forall w, R w (logged w (EvMakedirs p))) ->
  (forall w f',
      mkdir_chain (fs w) [] p = Ok f' ->
      R w (World f' (bucket w) (trace w ++ [EvMakedirs p]))) ->
  follows R (os_makedirs p).
Proof.
  intros He Hm w. unfold os_makedirs, bind, emit, get_fs, lift, put_fs. simpl.
  destruct (mkdir_chain (fs w) [] p) as [f'|e] eqn:Hc; simpl.
  - by apply Hm.
  - apply He.
Qed.

(** What [os.makedirs] does to the files: what was there stays, and
    what is new is a directory on the way to the path asked for. *)
Lemma mkdir_chain_lookup f pre todo f' q :
  mkdir_chain f pre todo = Ok f' ->
  f' !! q = f !! q \/
  (f !! q = None /\ f' !! q = Some NDir /\
   exists k, q = pre ++ take (S k) todo).
Proof.
  revert f pre. induction todo as [|x rest IH]; intros f pre Hc; [done |].
  simpl in Hc.
  assert (Hstep : forall g, (g = f \/ (f !! (pre ++ [x]) = None /\ g = <[pre ++ [x] := NDir]> f)) ->
            (rest = [] /\ f' = g \/ mkdir_chain g (pre ++ [x]) rest = Ok f') ->
            f' !! q = f !! q \/
            (f !! q = None /\ f' !! q = Some NDir /\
             exists k, q = pre ++ take (S k) (x :: rest))).
  { intros g Hg [[-> ->]|Hrec].
    - destruct Hg as [->|[Hnone ->]]; [by left |].
      destruct (decide (q = pre ++ [x])) as [->|Hne].
      + right. rewrite lookup_insert_eq. split_and!; [done | done |].
        by exists 0.
      + left. by rewrite lookup_insert_ne.
    - destruct (IH _ _ Hrec) as [Heq|(Hn & Hd & k & ->)].
      + destruct Hg as [->|[Hnone ->]]; [by left |].
        destruct (decide (q = pre ++ [x])) as [->|Hne].
        * right. rewrite Heq, lookup_insert_eq. split_and!; [done | done |].
          by exists 0.
        * left. by rewrite Heq, lookup_insert_ne.
      + right. split_and!.
        * destruct Hg as [->|[Hnone ->]]; [done |].
          destruct (decide ((pre ++ [x]) ++ take (S k) rest = pre ++ [x]))
            as [Heq|Hne]; [by rewrite Heq in * |].
          by rewrite lookup_insert_ne in Hn.
        * done.
        * exists (S k). by rewrite <- app_assoc. }
  destruct (f !! (pre ++ [x])) as [[c|]|] eqn:Hq.
  - destruct rest; done.
  - destruct rest as [|y rest']; [done |].
    apply (Hstep f); [by left | by right].
  - destruct rest as [|y rest'].
    + apply (Hstep (<[pre ++ [x] := NDir]> f)); [by right |].
      left. split; [done | congruence].
    + apply (Hstep (<[pre ++ [x] := NDir]> f)); [by right | by right].
Qed.

(** ** Three relations *)

(** Only events satisfying [P] were appended to the trace. *)
Definition appends (P : event -> Prop) : relation world :=
  fun w w' => exists evs, trace w' = trace w ++ evs /\ Forall P evs.

(** The bucket is as it was. *)
Definition same_bucket : relation world :=
  fun w w' => bucket w' = bucket w.

(** The files are as they were. *)
Definition same_fs : relation world :=
  fun w w' => fs w' = fs w.

(** What the paths in [S] hold, they go on holding. *)
Definition fs_keeps (S : path -> Prop) : relation world :=
  fun w w' => forall p n, S p -> fs w !! p = Some n -> fs w' !! p = Some n.

(** The paths in [S] that do not exist stay that way. *)
Definition fs_absent (S : path -> Prop) : relation world :=
  fun w w' => forall p, S p -> fs w !! p = None -> fs w' !! p = None.

(** The paths in [S] hold what they held, or go on not existing. *)
Definition fs_same (S : path -> Prop) : relation world :=
  fun w w' => forall p, S p -> fs w' !! p = fs w !! p.

(** No directory is made at [p]. *)
Definition no_dir_at (p : path) : relation world :=
  fun w w' => fs w !! p <> Some NDir -> fs w' !! p <> Some NDir.

#[export] Instance appends_preorder P : PreOrder (appends P).
Proof.
  split.
  - intros w. exists []. by rewrite app_nil_r.
  - intros w1 w2 w3 (evs & H1 & HP) (evs' & H2 & HP').
    exists (evs ++ evs'). rewrite H2, H1, app_assoc.
    split; [done | by apply Forall_app].
Qed.

#[export] Instance same_bucket_preorder : PreOrder same_bucket.
Proof.
  split; [by intros w |].
  intros w1 w2 w3 H1 H2. unfold same_bucket in *. congruence.
Qed.

#[export] Instance same_fs_preorder : PreOrder same_fs.
Proof.
  split; [by intros w |].
  intros w1 w2 w3 H1 H2. unfold same_fs in *. congruence.
Qed.

#[export] Instance fs_keeps_preorder S : PreOrder (fs_keeps S).
Proof.
  split; [by intros w p |].
  intros w1 w2 w3 H1 H2 p n Hp Hn. eauto.
Qed.

#[export] Instance fs_absent_preorder S : PreOrder (fs_absent S).
Proof.
  split; [by intros w p |].
  intros w1 w2 w3 H1 H2 p Hp Hn. eauto.
Qed.

#[export] Instance fs_same_preorder S : PreOrder (fs_same S).
Proof.
  split; [by intros w p |].
  intros w1 w2 w3 H1 H2 p Hp. by rewrite H2, H1.
Qed.

#[export] Instance no_dir_at_preorder p : PreOrder (no_dir_at p).
Proof.
  split; [intros w Hp; exact Hp |].
  intros w1 w2 w3 H1 H2 Hp. apply H2, H1, Hp.
Qed.

Lemma appends_event P w f b e :
  P e -> appends P w (World f b (trace w ++ [e])).
Proof. intros He. exists [e]. split; [done | by constructor]. Qed.

Lemma appends_nothing P w f b : appends P w (World f b (trace w)).
Proof. exists []. by rewrite app_nil_r. Qed.

Lemma appends_new_events P w w' evs :
  appends P w w' -> trace w' = trace w ++ evs -> Forall P evs.
Proof.
  intros (evs' & Ht & HP) Heq. rewrite Ht in Heq.
  by apply app_inv_head in Heq as <-.
Qed.

Lemma fs_keeps_insert (S : path -> Prop) w p n b t :
  ~ S p -> fs_keeps S w (World (<[p := n]> (fs w)) b t).
Proof.
  intros Hp q m Hq Hm. simpl. rewrite lookup_insert_ne; [done |]. by intros ->.
Qed.

Lemma fs_keeps_rename (S : path -> Prop) w src dst n b t :
  ~ S src -> ~ S dst ->
  fs_keeps S w (World (<[dst := n]> (delete src (fs w))) b t).
Proof.
  intros Hs Hd q m Hq Hm. simpl.
  rewrite lookup_insert_ne by (by intros ->).
  rewrite lookup_delete_ne; [done |]. by intros ->.
Qed.

Lemma fs_keeps_same_fs (S : path -> Prop) w b t :
  fs_keeps S w (World (fs w) b t).
Proof. by intros q m Hq Hm. Qed.

(** [os.makedirs] leaves alone what exists. *)
Lemma fs_keeps_mkdir_chain (S : path -> Prop) w pre todo f' b t :
  mkdir_chain (fs w) pre todo = Ok f' ->
  fs_keeps S w (World f' b t).
Proof.
  intros Hc q m Hq Hm. simpl.
  destruct (mkdir_chain_lookup _ _ _ _ q Hc) as [Heq|(Hn & _)]; congruence.
Qed.

Lemma fs_absent_insert (S : path -> Prop) w p n b t :
  ~ S p -> fs_absent S w (World (<[p := n]> (fs w)) b t).
Proof.
  intros Hp q Hq Hm. simpl. rewrite lookup_insert_ne; [done |]. by intros ->.
Qed.

Lemma fs_absent_same_fs (S : path -> Prop) w b t :
  fs_absent S w (World (fs w) b t).
Proof. by intros q Hq Hm. Qed.

(** [os.makedirs p] makes nothing but [p] and the folders above it. *)
Lemma fs_absent_mkdir_chain (S : path -> Prop) w todo f' b t :
  mkdir_chain (fs w) [] todo = Ok f' ->
  (forall k, ~ S (take (Datatypes.S k) todo)) ->
  fs_absent S w (World f' b t).
Proof.
  intros Hc HS q Hq Hm. simpl.
  destruct (mkdir_chain_lookup _ _ _ _ q Hc) as [Heq|(_ & _ & k & ->)];
    [congruence |].
  by destruct (HS k).
Qed.

Lemma fs_absent_rename (S : path -> Prop) w src dst n b t :
  ~ S dst -> fs_absent S w (World (<[dst := n]> (delete src (fs w))) b t).
Proof.
  intros Hd q Hq Hm. simpl. rewrite lookup_insert_ne by (by intros ->).
  apply lookup_delete_None. by right.
Qed.

Lemma fs_same_insert (S : path -> Prop) w p n b t :
  ~ S p -> fs_same S w (World (<[p := n]> (fs w)) b t).
Proof.
  intros Hp q Hq. simpl. rewrite lookup_insert_ne; [done |]. by intros ->.
Qed.

Lemma fs_same_rename (S : path -> Prop) w src dst n b t :
  ~ S src -> ~ S dst ->
  fs_same S w (World (<[dst := n]> (delete src (fs w))) b t).
Proof.
  intros Hs Hd q Hq. simpl.
  rewrite lookup_insert_ne by (by intros ->).
  rewrite lookup_delete_ne; [done |]. by intros ->.
Qed.

Lemma fs_same_same_fs (S : path -> Prop) w b t :
  fs_same S w (World (fs w) b t).
Proof. by intros q Hq. Qed.

Lemma no_dir_at_insert_file p w q c b t :
  no_dir_at p w (World (<[q := NFile c]> (fs w)) b t).
Proof.
  intros Hp. simpl. destruct (decide (q = p)) as [->|Hne].
  - by rewrite lookup_insert_eq.
  - by rewrite lookup_insert_ne.
Qed.

Lemma no_dir_at_same_fs p w b t : no_dir_at p w (World (fs w) b t).
Proof. by intros Hp. Qed.

(** [os.makedirs q] makes nothing but [q] and the folders above it. *)
Lemma no_dir_at_mkdir_chain p w todo f' b t :
  mkdir_chain (fs w) [] todo = Ok f' ->
  (forall k, p <> take (S k) todo) ->
  no_dir_at p w (World f' b t).
Proof.
  intros Hc Hp Hnd. simpl.
  destruct (mkdir_chain_lookup _ _ _ _ p Hc) as [Heq|(_ & _ & k & ->)];
    [congruence |].
  by destruct (Hp k).
Qed.

(** The events of a run that started in [w] and ended in [w']. *)
Definition new_events (w w' : world) : list event :=
  drop (length (trace w)) (trace w').

(** The API calls among some events, in order. *)
Definition api_calls (evs : list event) : list api_call :=
  omap (fun e => match e with EvApi c => Some c | _ => None end) evs.

(** The files written among some events, with who wrote them. *)
Definition file_writes (evs : list event) : list (writer * path) :=
  omap (fun e => match e with EvWrite who p => Some (who, p) | _ => None end) evs.

Lemma new_events_app w w' evs :
  trace w' = trace w ++ evs -> new_events w w' = evs.
Proof. intros Ht. unfold new_events. by rewrite Ht, drop_app_length. Qed.

Lemma new_events_same w w' : trace w' = trace w -> new_events w w' = [].
Proof. intros Ht. apply new_events_app. by rewrite app_nil_r. Qed.

Lemma appends_new P w w' : appends P w w' -> Forall P (new_events w w').
Proof. intros (evs & Ht & HP). by rewrite (new_events_app _ _ _ Ht). Qed.

Lemma appends_trace P w w' :
  appends P w w' -> trace w' = trace w ++ new_events w w'.
Proof. intros (evs & Ht & HP). by rewrite (new_events_app _ _ _ Ht). Qed.

Create HintDb follows discriminated.

#[export] Hint Resolve appends_event appends_nothing fs_keeps_insert
  fs_keeps_rename fs_keeps_same_fs fs_keeps_mkdir_chain fs_absent_insert
  fs_absent_same_fs fs_absent_rename fs_same_insert fs_same_rename
  fs_same_same_fs no_dir_at_insert_file no_dir_at_same_fs : follows.
#[export] Hint Extern 1 (same_bucket _ _) => reflexivity : follows.
#[export] Hint Extern 1 (same_fs _ _) => reflexivity : follows.
#[export] Hint Extern 1 (appends _ ?w (logged ?w _)) =>
  (apply appends_event) : follows.
#[export] Hint Extern 1 (fs_keeps _ ?w (logged ?w _)) =>
  (apply fs_keeps_same_fs) : follows.
#[export] Hint Extern 1 (fs_absent _ ?w (logged ?w _)) =>
  (apply fs_absent_same_fs) : follows.
#[export] Hint Extern 1 (fs_same _ ?w (logged ?w _)) =>
  (apply fs_same_same_fs) : follows.
#[export] Hint Extern 1 (no_dir_at _ ?w (logged ?w _)) =>
  (apply no_dir_at_same_fs) : follows.
#[export] Hint Extern 2 (is_true _) => (simpl; exact I) : follows.
#[export] Hint Extern 2 (_ = true) => (simpl; reflexivity) : follows.

(** Applying a lemma of the [Follows] section: the order [R] is found
    among the instances. *)
Ltac fapply L :=
  apply L;
  try lazymatch goal with |- PreOrder _ => typeclasses eauto end.

Ltac head_of t :=
  lazymatch t with
  | ?f _ => head_of f
  | _ => t
  end.

(** One step of a proof of [follows R m], along the shape of [m]; a
    function of the scripts is unfolded. *)
Ltac follows_step :=
  lazymatch goal with
  | |- follows _ (bind (lift _) _) => fapply follows_bind_lift; intros ? ?
  | |- follows _ (bind _ _) => fapply follows_bind; [| intros ?]
  | |- follows _ (ret _) => fapply follows_ret
  | |- follows _ (raise _) => fapply follows_raise
  | |- follows _ (lift _) => fapply follows_lift
  | |- follows _ (try_except _ _ _) => fapply follows_try_except; [| intros ? ?]
  | |- follows _ (capture _) => fapply follows_capture
  | |- follows _ (when _ _) => fapply follows_when; intros ?
  | |- follows _ (for_each _ _) => fapply follows_for_each; intros ?
  | |- follows _ (for_fold _ _ _) => fapply follows_for_fold; intros ? ?
  | |- follows _ (for_until _ _ _) => fapply follows_for_until; intros ? ?
  | |- follows _ get_fs => fapply follows_get_fs
  | |- follows _ get_bucket => fapply follows_get_bucket
  | |- follows _ (put_bucket _) => fapply follows_put_bucket; intros ?
  | |- follows _ (emit _) => fapply follows_emit; intros ?
  | |- follows _ (logging_info _) => fapply follows_emit; intros ?
  | |- follows _ (logging_warning _) => fapply follows_emit; intros ?
  | |- follows _ (logging_error _) => fapply follows_emit; intros ?
  | |- follows _ (logging_critical _) => fapply follows_emit; intros ?
  | |- follows _ (print _) => fapply follows_emit; intros ?
  | |- follows _ (os_path_exists _) => fapply follows_os_path_exists
  | |- follows _ (os_path_isfile _) => fapply follows_os_path_isfile
  | |- follows _ (os_path_isdir _) => fapply follows_os_path_isdir
  | |- follows _ (read_file _) => fapply follows_read_file
  | |- follows _ (json_load _) => fapply follows_json_load
  | |- follows _ (os_listdir _) => fapply follows_os_listdir
  | |- follows _ (raise_for_status _) => fapply follows_raise_for_status
  | |- follows _ (session_request _ _) =>
      fapply follows_session_request; intros ?
  | |- follows _ (write_file _ _ _) => fapply follows_write_file; intros ? ? ?
  | |- follows _ (os_rename _ _) => fapply follows_os_rename; intros ? ? ? ?
  | |- follows _ (os_makedirs _) =>
      fapply follows_os_makedirs; [intros ? | intros ? ? ?]
  | |- follows _ (if ?b then _ else _) => destruct b eqn:?
  | |- follows _ (match ?x with _ => _ end) => destruct x eqn:?
  | |- follows _ (let _ := _ in _) => cbv zeta
  | |- follows _ ?m => let h := head_of m in progress unfold h
  end.

Ltac follows_auto :=
  repeat first [ solve [eauto with follows] | follows_step ].

(** ** Library calls follow the relations *)

Section FollowsLibrary.
Context (R : relation world) `{!PreOrder R}.

Lemma follows_extract_member dest m :
  (forall p, follows R (os_makedirs p)) ->
  (forall p c, follows R (write_file ByExtract p c)) ->
  follows R (extract_member dest m).
Proof. intros Hm Hw. unfold extract_member. follows_auto. Qed.

Lemma follows_zip_extractall zip_path dest :
  (forall p, follows R (os_makedirs p)) ->
  (forall p c, follows R (write_file ByExtract p c)) ->
  follows R (zip_extractall zip_path dest).
Proof.
  intros Hm Hw. unfold zip_extractall. follows_auto.
Qed.

End FollowsLibrary.

(** ** Running the file operations *)

Lemma lookup_node_nonempty f p : p <> [] -> lookup_node f p = f !! p.
Proof. by destruct p. Qed.

Lemma path_add_suffix_nonempty p suffix : path_add_suffix p suffix <> [].
Proof.
  unfold path_add_suffix. destruct (reverse p); [done |].
  intros Heq. by apply app_eq_nil in Heq as [_ ?].
Qed.

Lemma os_makedirs_run p w :
  os_makedirs p w =
    match mkdir_chain (fs w) [] p with
    | Ok f' => (Ok tt, World f' (bucket w) (trace w ++ [EvMakedirs p]))
    | Raise e => (Raise e, logged w (EvMakedirs p))
    end.
Proof. unfold os_makedirs. simpl. by destruct (mkdir_chain _ _ _). Qed.

Lemma write_file_run who p c w :
  p <> [] ->
  lookup_node (fs w) (parent p) = Some NDir ->
  fs w !! p <> Some NDir ->
  write_file who p c w =
    (Ok tt, World (<[p := NFile c]> (fs w)) (bucket w)
              (trace w ++ [EvWrite who p])).
Proof.
  intros Hp Hpar Hnd. unfold write_file. simpl.
  destruct p as [|x p]; [done |]. rewrite Hpar.
  by destruct (fs w !! (x :: p)) as [[?|]|].
Qed.

(** Either way [write_file] ends. *)
Lemma write_file_cases who p c w :
  (exists e, write_file who p c w = (Raise e, w)) \/
  write_file who p c w =
    (Ok tt, World (<[p := NFile c]> (fs w)) (bucket w)
              (trace w ++ [EvWrite who p])).
Proof.
  unfold write_file. simpl.
  destruct p as [|x p]; [left; by eexists |].
  destruct (lookup_node (fs w) (parent (x :: p))) as [[?|]|];
    try (left; by eexists).
  destruct (fs w !! (x :: p)) as [[?|]|]; try (left; by eexists); by right.
Qed.

Lemma os_rename_run src dst c w :
  fs w !! src = Some (NFile c) ->
  lookup_node (fs w) (parent dst) = Some NDir ->
  fs w !! dst <> Some NDir ->
  os_rename src dst w =
    (Ok tt, World (<[dst := NFile c]> (delete src (fs w))) (bucket w)
              (trace w ++ [EvRename src dst])).
Proof.
  intros Hsrc Hpar Hdst. unfold os_rename. simpl. rewrite Hsrc, Hpar.
  by destruct (fs w !! dst) as [[?|]|].
Qed.

Lemma lookup_node_insert_child f (d : path) (x : string) n :
  lookup_node (<[d ++ [x] := n]> f) d = lookup_node f d.
Proof.
  destruct d as [|y d]; [done |]. simpl. apply lookup_insert_ne.
  intros Heq. apply (f_equal length) in Heq.
  cbn [length] in Heq. rewrite length_app in Heq. cbn [length] in Heq. lia.
Qed.

Lemma parent_child (d : path) (x : string) : parent (d ++ [x]) = d.
Proof. unfold parent. by rewrite removelast_last. Qed.

Lemma child_nonempty (d : path) (x : string) : d ++ [x] <> [].
Proof. intros Heq. by apply app_eq_nil in Heq as [_ ?]. Qed.

Lemma read_file_run p c w :
  lookup_node (fs w) p = Some (NFile c) -> read_file p w = (Ok c, w).
Proof. intros Hp. unfold read_file. simpl. by rewrite Hp. Qed.

Lemma os_listdir_missing d w :
  lookup_node (fs w) d = None ->
  os_listdir d w =
    (Raise (FileNotFoundError
              ("[Errno 2] No such file or directory: '" +:+ path_str d +:+ "'")),
     w).
Proof. intros Hd. unfold os_listdir. simpl. by rewrite Hd. Qed.

Lemma os_listdir_run d w :
  lookup_node (fs w) d = Some NDir -> os_listdir d w = (Ok (children (fs w) d), w).
Proof. intros Hd. unfold os_listdir. simpl. by rewrite Hd. Qed.

(** ** Paths and directory entries *)

Lemma strip_prefix_Some d p r : strip_prefix d p = Some r -> p = d ++ r.
Proof.
  revert p. induction d as [|x d IH]; intros p Hs; simpl in *; [congruence |].
  destruct p as [|y p]; [done |].
  destruct (String.eqb x y) eqn:Hxy; [| done].
  apply String.eqb_eq in Hxy as ->. by rewrite (IH _ Hs).
Qed.

Lemma strip_prefix_app d r : strip_prefix d (d ++ r) = Some r.
Proof.
  induction d as [|x d IH]; [done |]. simpl. by rewrite String.eqb_refl.
Qed.

Lemma child_of_Some d p x : child_of d p = Some x <-> p = d ++ [x].
Proof.
  unfold child_of. split.
  - destruct (strip_prefix d p) as [[|y [|z r]]|] eqn:Hs; try done.
    intros [= ->]. by apply strip_prefix_Some.
  - intros ->. by rewrite strip_prefix_app.
Qed.

Lemma elem_of_children f d x : x ∈ children f d <-> is_Some (f !! (d ++ [x])).
Proof.
  unfold children. rewrite list_elem_of_omap. split.
  - intros ([p n] & Hin & Hc). apply elem_of_map_to_list in Hin.
    apply child_of_Some in Hc. simpl in Hc. subst p. by exists n.
  - intros [n Hn]. exists (d ++ [x], n). split.
    + by apply elem_of_map_to_list.
    + by apply child_of_Some.
Qed.

Lemma NoDup_children f d : NoDup (children f d).
Proof.
  unfold children. pose proof (NoDup_fst_map_to_list f) as Hnd.
  induction (map_to_list f) as [|[p n] l IH]; simpl; [constructor |].
  apply NoDup_cons in Hnd as [Hp Hl]. specialize (IH Hl).
  destruct (child_of d p) as [x|] eqn:Hc; [| done].
  apply NoDup_cons. split; [| done].
  intros Hin. apply list_elem_of_omap in Hin as ([q m] & Hq & Hcq).
  apply child_of_Some in Hc, Hcq. simpl in Hcq. subst p q.
  apply Hp. apply list_elem_of_fmap. by exists (d ++ [x], m).
Qed.

Lemma lookup_node_delete_child f (d : path) (x : string) :
  lookup_node (delete (d ++ [x]) f) d = lookup_node f d.
Proof.
  destruct d as [|y d]; [done |]. simpl. apply lookup_delete_ne.
  intros Heq. apply (f_equal length) in Heq.
  cbn [length] in Heq. rewrite length_app in Heq. cbn [length] in Heq. lia.
Qed.

Lemma entry_inj (d d' : path) (x y : string) :
  d ++ [x] = d' ++ [y] -> d = d' /\ x = y.
Proof. intros Heq. by apply app_inj_tail in Heq. Qed.

Lemma folder_not_entry (dir : path) (n m x : string) :
  dir ++ [m] <> (dir ++ [n]) ++ [x].
Proof.
  intros Heq. apply (f_equal length) in Heq.
  rewrite !length_app in Heq. cbn [length] in Heq. lia.
Qed.

Lemma append_eq_self (s t : string) : s +:+ t = s -> t = "".
Proof.
  induction s as [|a s IH]; simpl; [done |]. intros [= Heq]. by apply IH.
Qed.

(** Membership in a list written out. *)
Ltac in_list :=
  repeat (apply elem_of_cons; first [by left | right]); try done.

Lemma NoDup_fmap_eq {A B} (f : A -> B) (l : list A) x y :
  NoDup (f <$> l) -> x ∈ l -> y ∈ l -> f x = f y -> x = y.
Proof.
  induction l as [|a l IH]; intros Hnd Hx Hy Heq; [by apply elem_of_nil in Hx |].
  rewrite fmap_cons in Hnd. apply NoDup_cons in Hnd as [Ha Hnd].
  apply elem_of_cons in Hx as [->|Hx]; apply elem_of_cons in Hy as [->|Hy].
  - done.
  - destruct Ha. rewrite Heq. apply list_elem_of_fmap. by exists y.
  - destruct Ha. rewrite <- Heq. apply list_elem_of_fmap. by exists x.
  - by apply IH.
Qed.

(** ** Running one statement at a time *)

Lemma bind_ok {A B} (m : M A) (k : A -> M B) w a w1 :
  m w = (Ok a, w1) -> bind m k w = k a w1.
Proof. intros Hm. simpl. by rewrite Hm. Qed.

Lemma bind_raise {A B} (m : M A) (k : A -> M B) w e w1 :
  m w = (Raise e, w1) -> bind m k w = (Raise e, w1).
Proof. intros Hm. simpl. by rewrite Hm. Qed.

Lemma try_bind_ok {A B} (m : M A) (k : A -> M B) catches h w a w1 :
  m w = (Ok a, w1) ->
  try_except (bind m k) catches h w = try_except (k a) catches h w1.
Proof. intros Hm. simpl. by rewrite Hm. Qed.

Lemma try_bind_raise {A B} (m : M A) (k : A -> M B) catches h w e w1 :
  m w = (Raise e, w1) ->
  try_except (bind m k) catches h w =
    if catches e then h e w1 else (Raise e, w1).
Proof. intros Hm. simpl. by rewrite Hm. Qed.

Lemma try_ok {A} (m : M A) catches h w a w1 :
  m w = (Ok a, w1) -> try_except m catches h w = (Ok a, w1).
Proof. intros Hm. simpl. by rewrite Hm. Qed.

Lemma for_each_app {A} (l1 l2 : list A) body w :
  for_each (l1 ++ l2) body w =
    match for_each l1 body w with
    | (Ok _, w1) => for_each l2 body w1
    | (Raise e, w1) => (Raise e, w1)
    end.
Proof.
  revert w. induction l1 as [|x l1 IH]; intros w; [done |].
  simpl. destruct (body x w) as [[[]|e] w1]; [apply IH | done].
Qed.

Lemma for_each_ok {A} (l : list A) body w :
  (forall x w, x ∈ l -> fst (body x w) = Ok tt) ->
  fst (for_each l body w) = Ok tt.
Proof.
  revert w. induction l as [|x l IH]; intros w Hb; [done |].
  simpl. specialize (Hb x w ltac:(in_list)) as Hx.
  destruct (body x w) as [[[]|e] w1]; [| done].
  apply IH. intros y w2 Hy. apply Hb. in_list.
Qed.

(** Run the first statement of the goal's computation, proving with
    [tac] what it returns. *)
Ltac mstep tac :=
  first [ erewrite try_bind_ok; [| tac ]
        | erewrite bind_ok; [| tac ] ];
  cbv beta.

(** Two traces that differ in how their pieces are grouped. *)
Ltac same_trace :=
  repeat (rewrite <- app_assoc || rewrite <- app_comm_cons || simpl app);
  try done.

(** The statement runs by computation. *)
Ltac mrefl := exact eq_refl.

(** The whitelisted reductions that run the monad on a state. *)
Ltac mrun :=
  cbn [bind try_except capture when lift emit ret raise get_fs put_fs
       get_bucket put_bucket logging_info logging_warning logging_error
       logging_critical print logged fst snd fs bucket trace status_code
       reason body lookup_node negb andb orb is_Exception
       is_RequestException is_JSONDecodeError is_CalledProcessError
       exn_str for_each for_fold for_until].

(** ** What the library calls append *)

Section AppendsLibrary.
Context (P : event -> Prop).

Lemma appends_os_makedirs p :
  P (EvMakedirs p) -> follows (appends P) (os_makedirs p).
Proof. intros HP. follows_auto. Qed.

Lemma appends_write_file who p c :
  P (EvWrite who p) -> follows (appends P) (write_file who p c).
Proof. intros HP. follows_auto. Qed.

Lemma appends_zip_extractall zip_path dest :
  (forall p, P (EvMakedirs p)) -> (forall p, P (EvWrite ByExtract p)) ->
  follows (appends P) (zip_extractall zip_path dest).
Proof.
  intros Hm Hw. fapply follows_zip_extractall; intros.
  - by apply appends_os_makedirs.
  - by apply appends_write_file.
Qed.

End AppendsLibrary.

#[export] Hint Resolve appends_os_makedirs appends_write_file
  appends_zip_extractall : follows.

(** No condition on the events. *)
Definition any_event (_ : event) : Prop := True.

#[export] Hint Extern 1 (any_event _) => exact I : follows.

Lemma same_bucket_zip_extractall zip_path dest :
  follows same_bucket (zip_extractall zip_path dest).
Proof. fapply follows_zip_extractall; intros; follows_auto. Qed.

#[export] Hint Resolve same_bucket_zip_extractall : follows.

(** ** The bucket *)

Lemma blob_get_put_eq name c b : blob_get name (blob_put name c b) = Some c.
Proof.
  induction b as [|[n c'] b IH]; simpl.
  - by rewrite String.eqb_refl.
  - destruct (String.compare name n) eqn:Hc; simpl.
    + by rewrite String.eqb_refl.
    + by rewrite String.eqb_refl.
    + destruct (String.eqb name n) eqn:Heq; [| done].
      apply String.eqb_eq in Heq as ->.
      pose proof (String.compare_antisym n n) as Ha. rewrite Hc in Ha. done.
Qed.

Lemma blob_get_put_ne name name' c b :
  name <> name' -> blob_get name' (blob_put name c b) = blob_get name' b.
Proof.
  intros Hne. induction b as [|[n c'] b IH]; simpl.
  - by rewrite (proj2 (String.eqb_neq name' name)).
  - destruct (String.compare name n) eqn:Hc; simpl.
    + apply String.compare_eq_iff in Hc as <-.
      by rewrite (proj2 (String.eqb_neq name' name)).
    + by rewrite (proj2 (String.eqb_neq name' name)).
    + by rewrite IH.
Qed.

(** * Properties of cdf_export.py *)

Module ExportProps.
Import CdfExport.

(** ** The bulk export and the status of its answer *)




(** ** The order of the first steps of a backup *)

(** What [fetch_namespaces] returns and logs after its request, as the
    answer of the service decides it. *)
Definition namespaces_answer (E : env) : json * list event :=
  match get_namespaces E with
  | Response status rsn b =>
      if (400 <=? status)%Z && (status <? 600)%Z
      then (JArr [],
            [EvLog ERROR ("Failed to fetch namespaces: "
                            +:+ (pretty status +:+ " Error: " +:+ rsn))])
      else (b, [])
  | NoResponse msg =>
      (JArr [], [EvLog ERROR ("Failed to fetch namespaces: " +:+ msg)])
  end.

Lemma fetch_namespaces_run E headers w :
  fetch_namespaces E headers w =
    (Ok (fst (namespaces_answer E)),
     World (fs w) (bucket w)
       (trace w ++ EvApi GetNamespaces :: snd (namespaces_answer E))).
Proof.
  unfold fetch_namespaces, namespaces_answer, session_request, raise_for_status.
  destruct (get_namespaces E) as [status rsn b|msg]; mrun.
  - destruct ((400 <=? status)%Z && (status <? 600)%Z); mrun;
      by rewrite <- ?app_assoc.
  - by rewrite <- app_assoc.
Qed.

(** The events of the export step: folders made, the export stored and
    unpacked, and lines of the log at level INFO. *)
Definition export_event (e : event) : Prop :=
  match e with
  | EvMakedirs _ | EvWrite ByExport _ | EvWrite ByExtract _ | EvLog INFO _ => True
  | _ => False
  end.

#[export] Hint Extern 1 (export_event _) => exact I : follows.

Lemma fetch_applications_trace E headers w :
  exists evs,
    trace (snd (fetch_applications E headers w))
    = trace w ++ EvApi GetExport :: evs /\
    Forall export_event evs.
Proof.
  unfold fetch_applications, session_request.
  destruct (get_export E) as [status rsn b|msg].
  - mstep mrefl. mstep mrefl.
    match goal with
    | |- context [try_except ?m ?c ?h ?w1] =>
        assert (Hf : follows (appends export_event) (try_except m c h))
          by follows_auto;
        destruct (Hf w1) as (evs & Ht & Hevs)
    end.
    exists evs. split; [| done].
    rewrite Ht. simpl. by rewrite <- app_assoc.
  - mrun. exists []. split; [done | constructor].
Qed.

Lemma fetch_applications_same_bucket E headers :
  follows same_bucket (fetch_applications E headers).
Proof. unfold fetch_applications. follows_auto. Qed.




(** ** The first file a backup saves *)

(** Every event but a file written by [save_to_file]. *)
Definition not_save (e : event) : Prop :=
  match e with
  | EvWrite BySave _ => False
  | _ => True
  end.

#[export] Hint Extern 1 (not_save _) => exact I : follows.

(** The staging folder of a run. *)
Definition staging (E : env) : path :=
  BACKUP_DIRECTORY ++ [TODAY E +:+ "_backup"].

Lemma bind_Ok_inv {A B} (m : M A) (k : A -> M B) w b w' :
  bind m k w = (Ok b, w') ->
  exists a w1, m w = (Ok a, w1) /\ k a w1 = (Ok b, w').
Proof.
  simpl. destruct (m w) as [[a|e] w1]; [| done]. intros Hk. by exists a, w1.
Qed.

Lemma try_except_Ok_inv {A} (m : M A) catches h w a w' :
  try_except m catches h w = (Ok a, w') ->
  m w = (Ok a, w') \/
  exists e w1, m w = (Raise e, w1) /\ catches e = true /\ h e w1 = (Ok a, w').
Proof.
  simpl. destruct (m w) as [[a1|e] w1]; [by left |].
  destruct (catches e) eqn:Hc; [| done]. intros Hh. right. by exists e, w1.
Qed.

Lemma fetch_applications_returns E headers w dir w' :
  fetch_applications E headers w = (Ok dir, w') -> dir = staging E.
Proof.
  unfold fetch_applications. intros Hrun.
  apply try_except_Ok_inv in Hrun as [Hbody|(e & w1 & _ & _ & Hh)]; [| done].
  repeat (apply bind_Ok_inv in Hbody as (? & ? & _ & Hbody)).
  simpl in Hbody. by injection Hbody as <- _.
Qed.

(** [save_to_file] writes at most one file, the one it is asked for, and
    that after whatever else it does. *)
Lemma save_to_file_trace filename content w :
  exists before after,
    trace (snd (save_to_file filename content w)) = trace w ++ before ++ after /\
    Forall not_save before /\
    ((exists e, fst (save_to_file filename content w) = Raise e) /\ after = [] \/
     fst (save_to_file filename content w) = Ok tt /\
     exists rest, after = EvWrite BySave filename :: rest).
Proof.
  unfold save_to_file. mstep mrefl.
  match goal with
  | |- context [when ?b ?m] =>
      assert (Hpre : follows (appends not_save) (when b m)) by follows_auto;
      destruct (Hpre w) as (before & Ht & Hbefore);
      destruct (when b m w) as [[[]|e] w1] eqn:Hmk
  end; simpl in Ht.
  - mstep ltac:(exact Hmk).
    destruct (write_file_cases BySave filename (CJson content) w1)
      as [[e Hw]|Hw].
    + erewrite try_bind_raise by exact Hw. simpl.
      exists before, []. rewrite app_nil_r. eauto 6.
    + mstep ltac:(exact Hw). simpl.
      eexists before, _. split; [rewrite Ht; same_trace | eauto 6].
  - erewrite try_bind_raise by exact Hmk. simpl.
    exists before, []. rewrite app_nil_r. eauto 6.
Qed.

Lemma namespaces_answer_not_save E : Forall not_save (snd (namespaces_answer E)).
Proof.
  unfold namespaces_answer. destruct (get_namespaces E) as [status rsn b|msg].
  - destruct (_ && _); simpl; repeat constructor.
  - simpl. repeat constructor.
Qed.



(** ** Restoring a version that is not there *)

(** The dated archives the history location lists. *)
Definition history_zips (w : world) : list (string * content) :=
  filter (fun blob => endswith (fst blob) ".zip" = true)
    (filter (fun blob => String.prefix GCS_ARCHIVE_FOLDER (fst blob) = true)
       (bucket w)).

Lemma find_none_iff {A} (f : A -> bool) (l : list A) :
  (forall x, x ∈ l -> f x = false) -> List.find f l = None.
Proof.
  induction l as [|x l IH]; intros Hall; [done |]. simpl.
  rewrite (Hall x) by apply list_elem_of_here.
  apply IH. intros y Hy. apply Hall. by apply list_elem_of_further.
Qed.

(** C6, the claim as the specification has it, at the empty version
    string: no archive of the history has the version [""], yet the run
    does not fail; it restores the latest archive and sends its PUT
    requests. *)
Lemma restore_empty_version_writes :
  bucket (snd (main Samples.one_connection Backup None Samples.fresh))
  = Samples.backed_up /\
  map (fun blob => zip_version (fst blob))
    (history_zips (Samples.with_bucket Samples.backed_up))
  = ["2024-12-06"] /\
  fst (restore_application_state Samples.one_connection "Bearer token"
         (Some "") (Samples.with_bucket Samples.backed_up))
  = Ok tt /\
  api_calls
    (trace (snd (restore_application_state Samples.one_connection "Bearer token"
                   (Some "") (Samples.with_bucket Samples.backed_up))))
  = [PutNamespace "ns1" (Samples.namespace_doc "ns1");
     PutApp "ns1" "etl"
       (JObj [("name", JStr "etl"); ("configuration", JObj [])])].
Proof. repeat split; vm_compute; reflexivity. Qed.

(** What the failed download reports. *)
Definition unknown_version_message (E : env) (v : string) (w : world) : string :=
  match gcs_error E (GcsList GCS_ARCHIVE_FOLDER) with
  | Some msg => msg
  | None =>
      match history_zips w with
      | [] => "No .zip files found in folder 'cdf/archive'."
      | _ => "Specified version '" +:+ v +:+ "' was not found in archive."
      end
  end.

(** C6, amended: a restore with a version string that is not empty and
    that no dated archive of the history location has raises before any
    request is sent: no API call is made, and the files and the bucket
    are as they were.  The error is the version-not-found one when the
    history location lists at least one .zip blob, the no-.zip-files one
    when it lists none, and the error of the object store when the listing
    itself fails.  (An empty version string counts as no version: the
    latest archive is restored.) *)
Theorem restore_unknown_version (E : env) (headers : string) (v : string)
    (w : world) :
  v <> "" ->
  (forall blob, blob ∈ history_zips w -> zip_version (fst blob) <> v) ->
  let r := restore_application_state E headers (Some v) w in
  fst r = Raise (Exception ("Failed to download and unzip file: "
                              +:+ unknown_version_message E v w)) /\
  api_calls (new_events w (snd r)) = [] /\
  fs (snd r) = fs w /\
  bucket (snd r) = bucket w.
Proof.
  intros Hv Hnone r. subst r.
  apply String.eqb_neq in Hv.
  unfold restore_application_state, version_given. rewrite Hv. cbn [negb].
  unfold download_and_unzip_from_gcs, list_blobs, unknown_version_message,
    history_zips in *.
  destruct (gcs_error E (GcsList GCS_ARCHIVE_FOLDER)) as [msg|].
  { mrun. repeat split; try done. by rewrite new_events_same. }
  set (zips := filter _ (filter _ (bucket w))) in *.
  mrun. fold zips.
  destruct zips as [|blob zips'] eqn:Hz.
  { mrun. repeat split; try done. by erewrite new_events_app by done. }
  mrun. unfold version_given. rewrite Hv. cbn [negb default].
  rewrite find_none_iff.
  2: { intros x Hx. apply String.eqb_neq. by apply Hnone. }
  mrun. repeat split; try done. by erewrite new_events_app by done.
Qed.

(** The amended claim at the version 2024-12-07, which the history of
    the sample bucket does not have. *)
Lemma restore_unknown_version_witness :
  fst (restore_application_state Samples.one_connection "Bearer token"
         (Some "2024-12-07") (Samples.with_bucket Samples.backed_up))
  = Raise (Exception
             ("Failed to download and unzip file: "
                +:+ unknown_version_message Samples.one_connection "2024-12-07"
                      (Samples.with_bucket Samples.backed_up))) /\
  api_calls
    (new_events (Samples.with_bucket Samples.backed_up)
       (snd (restore_application_state Samples.one_connection "Bearer token"
               (Some "2024-12-07") (Samples.with_bucket Samples.backed_up))))
  = [] /\
  fs (snd (restore_application_state Samples.one_connection "Bearer token"
             (Some "2024-12-07") (Samples.with_bucket Samples.backed_up)))
  = fs (Samples.with_bucket Samples.backed_up) /\
  bucket (snd (restore_application_state Samples.one_connection "Bearer token"
                 (Some "2024-12-07") (Samples.with_bucket Samples.backed_up)))
  = bucket (Samples.with_bucket Samples.backed_up).
Proof.
  apply (restore_unknown_version Samples.one_connection "Bearer token"
           "2024-12-07" (Samples.with_bucket Samples.backed_up)).
  - discriminate.
  - intros blob Hblob.
    assert (Hin : blob ∈ [("cdf/archive/2024-12-06_backup.zip",
                            Samples.one_connection_archive)])
      by exact Hblob.
    apply list_elem_of_singleton in Hin as ->. vm_compute. discriminate.
Defined.

(** ** Publishing the archive *)

(** The names of the two blobs a run publishes. *)
Definition history_blob (E : env) : string :=
  GCS_ARCHIVE_FOLDER +:+ "/" +:+ ZIPFILE_NAME E.
Definition latest_blob : string := GCS_BACKUP_FOLDER +:+ "/" +:+ "backup.zip".

Lemma history_blob_not_latest E : history_blob E <> latest_blob.
Proof. unfold history_blob, latest_blob. simpl. discriminate. Qed.

(** The state after [save_to_gcs] tried to upload the archive [a] as
    [file_name] into [bucket_folder]. *)
Definition after_upload (E : env) (file_name bucket_folder : string)
    (a : content) (w : world) : world :=
  let blob := bucket_folder +:+ "/" +:+ file_name in
  match gcs_error E (GcsUpload blob) with
  | None =>
      World (fs w) (blob_put blob a (bucket w))
        (trace w ++
           [EvUpload blob;
            EvLog INFO ("Zip file uploaded to GCS bucket '" +:+ GCS_BUCKET_NAME
                          +:+ "' as '" +:+ file_name +:+ "'.")])
  | Some msg =>
      World (fs w) (bucket w)
        (trace w ++
           [EvUpload blob;
            EvLog ERROR ("Failed to save " +:+ file_name +:+ " to GCS: " +:+ msg)])
  end.

Lemma save_to_gcs_run E file_name file_path bucket_folder a w :
  lookup_node (fs w) file_path = Some (NFile a) ->
  save_to_gcs E file_name file_path bucket_folder w
  = (Ok tt, after_upload E file_name bucket_folder a w).
Proof.
  intros Hfile. unfold save_to_gcs, upload_from_filename, read_file, after_upload.
  mrun. rewrite Hfile. mrun.
  destruct (gcs_error E _); mrun; f_equal; f_equal; same_trace.
Qed.

(** [compress_folder] on a folder that exists, when the archive can be
    written next to it. *)
Lemma compress_folder_run folder_path w :
  lookup_node (fs w) folder_path <> None ->
  lookup_node (fs w) (parent (path_add_suffix folder_path ".zip")) = Some NDir ->
  fs w !! path_add_suffix folder_path ".zip" <> Some NDir ->
  compress_folder folder_path w
  = (Ok (path_add_suffix folder_path ".zip"),
     World (<[path_add_suffix folder_path ".zip"
              := NFile (CZip (files_under (fs w) folder_path))]> (fs w))
       (bucket w)
       (trace w ++
          [EvWrite ByCompress (path_add_suffix folder_path ".zip");
           EvLog INFO ("Compressed folder saved at: "
                         +:+ path_str (path_add_suffix folder_path ".zip"))])).
Proof.
  intros Hex Hpar Hnd. unfold compress_folder, os_path_exists.
  mrun. destruct (lookup_node (fs w) folder_path) as [n|]; [| done]. mrun.
  rewrite write_file_run; [| | done | done].
  - mrun. f_equal. f_equal. same_trace.
  - apply path_add_suffix_nonempty.
Qed.

Lemma try_log_never_raises (m : M unit) (msg : exn -> string) w :
  fst (try_except m is_Exception (fun e => logging_error (msg e)) w) = Ok tt.
Proof. simpl. by destruct (m w) as [[[]|e] w1]. Qed.

(** C5, the claim as the specification has it, at a run whose upload to
    the history location fails: the run ends normally all the same, the
    latest slot holds its archive, and the history has no entry for
    it. *)
Lemma failed_history_upload_is_accepted :
  gcs_error Samples.history_upload_fails
    (GcsUpload (history_blob Samples.history_upload_fails))
  = Some "503 Service Unavailable" /\
  fst (main Samples.history_upload_fails Backup None Samples.fresh) = Ok tt /\
  bucket (snd (main Samples.history_upload_fails Backup None Samples.fresh))
  = [("cdf/latest/backup.zip", Samples.one_connection_archive)] /\
  blob_get (history_blob Samples.history_upload_fails)
    (bucket (snd (main Samples.history_upload_fails Backup None Samples.fresh)))
  = None.
Proof. repeat split; vm_compute; reflexivity. Qed.

(** C5, amended: the publish step never raises.  When the archive can be
    compressed, each of the two uploads that succeeds stores that archive,
    in the latest slot under the fixed name and in the history location
    under the dated name of the run (replacing an entry of the same
    date).  An upload that fails is logged as an error and leaves its
    location as it was; the other upload is attempted all the same, and
    the run ends normally. *)
Theorem publish_outcome (E : env) (zip_folder : path) (w : world) :
  let r := compress_and_upload E zip_folder w in
  let zip_path := path_add_suffix zip_folder ".zip" in
  let a := CZip (files_under (fs w) zip_folder) in
  fst r = Ok tt /\
  (lookup_node (fs w) zip_folder <> None ->
   lookup_node (fs w) (parent zip_path) = Some NDir ->
   fs w !! zip_path <> Some NDir ->
   blob_get (history_blob E) (bucket (snd r))
   = match gcs_error E (GcsUpload (history_blob E)) with
     | None => Some a
     | Some _ => blob_get (history_blob E) (bucket w)
     end /\
   blob_get latest_blob (bucket (snd r))
   = match gcs_error E (GcsUpload latest_blob) with
     | None => Some a
     | Some _ => blob_get latest_blob (bucket w)
     end /\
   (forall msg,
       gcs_error E (GcsUpload (history_blob E)) = Some msg ->
       EvLog ERROR ("Failed to save " +:+ ZIPFILE_NAME E +:+ " to GCS: " +:+ msg)
         ∈ new_events w (snd r)) /\
   (forall msg,
       gcs_error E (GcsUpload latest_blob) = Some msg ->
       EvLog ERROR ("Failed to save " +:+ "backup.zip" +:+ " to GCS: " +:+ msg)
         ∈ new_events w (snd r))).
Proof.
  intros r zip_path a. subst r. split; [apply try_log_never_raises |].
  intros Hex Hpar Hnd. unfold compress_and_upload.
  mstep mrefl.
  mstep ltac:(by apply compress_folder_run).
  fold zip_path. fold a.
  mstep ltac:(apply (save_to_gcs_run _ _ _ _ a); simpl;
              rewrite lookup_node_nonempty by apply path_add_suffix_nonempty;
              apply lookup_insert_eq).
  erewrite try_ok.
  2: { apply (save_to_gcs_run _ _ _ _ a). unfold after_upload.
       destruct (gcs_error E _); simpl;
         rewrite lookup_node_nonempty by apply path_add_suffix_nonempty;
         apply lookup_insert_eq. }
  cbn [snd]. unfold after_upload.
  change (GCS_ARCHIVE_FOLDER +:+ "/" +:+ ZIPFILE_NAME E) with (history_blob E).
  change (GCS_BACKUP_FOLDER +:+ "/" +:+ "backup.zip") with latest_blob.
  pose proof (history_blob_not_latest E) as Hne.
  destruct (gcs_error E (GcsUpload (history_blob E))) as [mh|] eqn:Hh;
    destruct (gcs_error E (GcsUpload latest_blob)) as [ml|] eqn:Hl;
    cbn [bucket trace fs];
    rewrite ?blob_get_put_eq, ?blob_get_put_ne by done;
    rewrite ?blob_get_put_eq;
    (split; [done |]); (split; [done |]);
    (split; intros msg Hmsg; [| ]); try done;
    injection Hmsg as <-;
    (erewrite new_events_app; [| same_trace]); set_solver.
Qed.

(** The amended claim at a run whose upload to the history location
    fails: the latest slot gets the archive, the history stays without an
    entry, and the failure is in the log. *)
Lemma publish_outcome_witness :
  let w := Samples.staged in
  let E := Samples.history_upload_fails in
  let r := compress_and_upload E ["backup"; "2024-12-06_backup"] w in
  fst r = Ok tt /\
  blob_get (history_blob E) (bucket (snd r)) = None /\
  blob_get latest_blob (bucket (snd r))
  = Some (CZip (files_under (fs w) ["backup"; "2024-12-06_backup"])) /\
  EvLog ERROR
    ("Failed to save " +:+ ZIPFILE_NAME E +:+ " to GCS: "
       +:+ "503 Service Unavailable")
    ∈ new_events w (snd r).
Proof.
  intros w E r.
  destruct (publish_outcome E ["backup"; "2024-12-06_backup"] w)
    as [Hok Hpublished].
  destruct Hpublished as (Hhist & Hlatest & Hlogged & _).
  - vm_compute. discriminate.
  - vm_compute. reflexivity.
  - vm_compute. discriminate.
  - split; [exact Hok |]. split; [exact Hhist |]. split; [exact Hlatest |].
    apply Hlogged. reflexivity.
Defined.

(** ** A draft that cannot be fetched *)

(** The answers on which a read soft-fails: no answer at all, or a
    status of the 4xx and 5xx ranges. *)
Definition soft_fails {A} (answer : http A) : Prop :=
  match answer with
  | NoResponse _ => True
  | Response status _ _ => (400 <= status < 600)%Z
  end.

(** The text of the [RequestException] of such an answer. *)
Definition request_error {A} (answer : http A) : string :=
  match answer with
  | NoResponse msg => msg
  | Response status rsn _ => pretty status +:+ " Error: " +:+ rsn
  end.

Lemma fetch_pipeline_soft_fails E namespace header draft_id w :
  soft_fails (get_draft E (py_str namespace) (py_str draft_id)) ->
  fetch_pipeline E namespace header draft_id w
  = (Ok JNull,
     World (fs w) (bucket w)
       (trace w ++
          [EvApi (GetDraft (py_str namespace) (py_str draft_id));
           EvLog ERROR
             ("Failed to fetch pipeline *" +:+ py_str draft_id
                +:+ "* from namespace '" +:+ py_str namespace +:+ "': "
                +:+ request_error
                      (get_draft E (py_str namespace) (py_str draft_id)))])).
Proof.
  intros Hfail. unfold fetch_pipeline, session_request, raise_for_status.
  destruct (get_draft E _ _) as [status rsn b|msg]; simpl in Hfail; mrun.
  - rewrite (proj2 (Z.leb_le 400 status)) by lia.
    rewrite (proj2 (Z.ltb_lt status 600)) by lia. mrun.
    f_equal. f_equal. same_trace.
  - f_equal. f_equal. same_trace.
Qed.

Lemma save_to_file_run filename content w :
  fs w !! BACKUP_DIRECTORY <> None ->
  filename <> [] ->
  lookup_node (fs w) (parent filename) = Some NDir ->
  fs w !! filename <> Some NDir ->
  save_to_file filename content w
  = (Ok tt,
     World (<[filename := NFile (CJson content)]> (fs w)) (bucket w)
       (trace w ++
          [EvWrite BySave filename;
           EvLog INFO ("File '" +:+ path_str filename
                         +:+ "' created successfully.")])).
Proof.
  intros Hbackup Hne Hpar Hnd. unfold save_to_file. mstep mrefl.
  rewrite lookup_node_nonempty by done.
  destruct (fs w !! BACKUP_DIRECTORY) as [n|]; [| done].
  mstep mrefl. mstep ltac:(by apply write_file_run).
  mrun. f_equal. f_equal. same_trace.
Qed.



(** The same in a whole run: the archive of the backup has the file of
    the draft, holding null. *)
Example failed_draft_in_the_archive :
  blob_get latest_blob
    (bucket (snd (main Samples.draft_not_found Backup None Samples.fresh)))
  = Some (CZip [(["namespaces.json"],
                 Some (CJson (JArr [Samples.namespace_doc "ns1"])));
                (["ns1"; "draft_p1.json"], Some (CJson JNull))]).
Proof. vm_compute. reflexivity. Qed.

(** ** A namespace without a folder in the archive *)

Lemma restore_namespace_missing_folder E headers zip_blob_path namespace name w :
  py_getitem namespace "name" = Ok (JStr name) ->
  lookup_node (fs w) (zip_blob_path ++ [name]) = None ->
  restore_namespace E headers zip_blob_path namespace w
  = (Raise (FileNotFoundError
              ("[Errno 2] No such file or directory: '"
                 +:+ path_str (zip_blob_path ++ [name]) +:+ "'")),
     w).
Proof.
  intros Hname Hmissing. unfold restore_namespace.
  rewrite Hname. mstep mrefl. mstep mrefl.
  erewrite bind_raise; [done |]. by apply os_listdir_missing.
Qed.

(** The members of the archive [compress_folder] builds are the files
    below the folder: a folder without a file below it is not in the
    archive. *)
Lemma files_under_member f folder m :
  m ∈ files_under f folder ->
  exists x rel c,
    m = (x :: rel, Some c) /\ f !! (folder ++ x :: rel) = Some (NFile c).
Proof.
  unfold files_under. intros Hm.
  apply list_elem_of_omap in Hm as ([p n] & Hin & Hsome).
  apply elem_of_map_to_list in Hin. simpl in Hsome.
  destruct n as [c|]; [| done].
  destruct (strip_prefix folder p) as [[|x rel]|] eqn:Hs; [done | | done].
  injection Hsome as <-. apply strip_prefix_Some in Hs as ->.
  by exists x, rel, c.
Qed.

Lemma compress_omits_empty_folders f folder name :
  (forall rel c, f !! (folder ++ name :: rel) <> Some (NFile c)) ->
  forall m, m ∈ files_under f folder -> head (fst m) <> Some name.
Proof.
  intros Hempty m Hm.
  apply files_under_member in Hm as (x & rel & c & -> & Hfile).
  simpl. intros [= ->]. by destruct (Hempty rel c).
Qed.

Lemma take_below dest (x name : string) l k :
  take k (dest ++ x :: l) = dest ++ [name] -> x = name.
Proof.
  rewrite take_app. intros Heq.
  destruct (decide (k <= length dest)) as [Hle|Hgt].
  - apply (f_equal length) in Heq.
    rewrite length_app, !length_take, length_app in Heq. cbn [length] in Heq. lia.
  - rewrite take_ge in Heq by lia. apply app_inv_head in Heq.
    destruct (k - length dest) as [|n] eqn:Hk; [lia |].
    simpl in Heq. congruence.
Qed.

Lemma parent_length (p : path) : length (parent p) <= length p.
Proof.
  unfold parent. induction p as [|x [|y p] IH]; simpl in *; lia.
Qed.

Lemma parent_below dest (x : string) rel :
  parent (dest ++ x :: rel) = dest \/
  exists l, parent (dest ++ x :: rel) = dest ++ x :: l.
Proof.
  unfold parent. rewrite removelast_app by done.
  destruct rel as [|y rel]; simpl.
  - left. by rewrite app_nil_r.
  - right. eauto.
Qed.

(** Unpacking a member whose path does not start with [name] makes no
    folder [name] below the target. *)
Lemma extract_member_elsewhere dest name m :
  head (fst m) <> Some name ->
  follows (fs_absent (fun p => p = dest ++ [name])) (extract_member dest m).
Proof.
  destruct m as [[|x rel] oc]; simpl; intros Hhead.
  - unfold extract_member. simpl. rewrite app_nil_r.
    assert (Hup : forall k, take (S k) (parent dest) <> dest ++ [name]).
    { intros k Heq. apply (f_equal length) in Heq.
      pose proof (parent_length dest).
      rewrite length_take, length_app in Heq. cbn [length] in Heq. lia. }
    assert (Hdest : forall k, take (S k) dest <> dest ++ [name]).
    { intros k Heq. apply (f_equal length) in Heq.
      rewrite length_take, length_app in Heq. cbn [length] in Heq. lia. }
    assert (Hself : dest <> dest ++ [name]).
    { intros Heq. apply (f_equal length) in Heq.
      rewrite length_app in Heq. cbn [length] in Heq. lia. }
    follows_auto;
      (eapply fs_absent_mkdir_chain; [eassumption | intros ?; cbv beta; eauto]).
  - assert (Hx : x <> name) by congruence.
    assert (Htarget : forall k, take k (dest ++ x :: rel) <> dest ++ [name]).
    { intros k Heq. by apply take_below in Heq. }
    assert (Hup : forall k,
               take (S k) (parent (dest ++ x :: rel)) <> dest ++ [name]).
    { intros k Heq.
      destruct (parent_below dest x rel) as [Hp|[l Hp]]; rewrite Hp in Heq.
      - apply (f_equal length) in Heq.
        rewrite length_take, length_app in Heq. cbn [length] in Heq. lia.
      - by apply take_below in Heq. }
    assert (Hself : dest ++ x :: rel <> dest ++ [name]).
    { intros Heq. apply app_inv_head in Heq. congruence. }
    unfold extract_member. simpl.
    follows_auto;
      (eapply fs_absent_mkdir_chain; [eassumption | intros ?; cbv beta; eauto]).
Qed.

Lemma restore_namespace_same_fs E headers zip_blob_path namespace :
  follows same_fs (restore_namespace E headers zip_blob_path namespace).
Proof. follows_auto. Qed.



(** The same in a whole restore, from the bucket to the log: the calls
    sent are those for [ns1] alone, and the error ends the run. *)
Example restore_run_stops_at_missing_folder :
  let w :=
    Samples.with_bucket
      [("cdf/latest/backup.zip", CZip Samples.archive_without_default)] in
  api_calls (trace (snd (main Samples.one_connection Restore None w)))
  = [PutNamespace "ns1" (Samples.namespace_doc "ns1")] /\
  last (trace (snd (main Samples.one_connection Restore None w)))
  = Some (EvLog ERROR
            "An unexpected error occurred during -> restore: [Errno 2] No such file or directory: 'restore/backup/default'").
Proof. split; vm_compute; reflexivity. Qed.

(** ** Connections of a namespace without drafts *)

(** C1, at a namespace with one connection and no draft, restored into
    a target that accepts every request: the backup fetches the
    connection [c1] of [ns1] and archives it, and the restore of that
    archive sends no request for it.  The loop over the connection files
    is inside the body of the loop over the draft files. *)
Lemma connection_lost_without_drafts :
  api_calls (trace (snd (main Samples.one_connection Backup None Samples.fresh)))
  = [GetExport; GetNamespaces; GetDrafts "ns1"; GetConnections "ns1"] /\
  bucket (snd (main Samples.one_connection Backup None Samples.fresh))
  = [("cdf/archive/2024-12-06_backup.zip", Samples.one_connection_archive);
     ("cdf/latest/backup.zip", Samples.one_connection_archive)] /\
  (["ns1"; "conn_c1.json"], Some (CJson (JObj [("name", JStr "c1")])))
    ∈ match Samples.one_connection_archive with
      | CZip members => members
      | _ => []
      end /\
  api_calls
    (trace (snd (main Samples.one_connection Restore None
                   (Samples.with_bucket Samples.backed_up))))
  = [PutNamespace "ns1" (Samples.namespace_doc "ns1");
     PutApp "ns1" "etl"
       (JObj [("name", JStr "etl"); ("configuration", JObj [])])].
Proof.
  split; [vm_compute; reflexivity |].
  split; [vm_compute; reflexivity |].
  split; [| vm_compute; reflexivity].
  simpl. set_solver.
Qed.

(** ** The namespace "default" on restore *)

(** Every event but a request that creates the namespace "default". *)
Definition no_create_default (e : event) : Prop :=
  match e with
  | EvApi (PutNamespace name _) => name <> "default"
  | _ => True
  end.

#[export] Hint Extern 1 (no_create_default _) => exact I : follows.

Lemma restore_never_creates_default E headers restore_version :
  follows (appends no_create_default)
    (restore_application_state E headers restore_version).
Proof.
  follows_auto.
  apply appends_event. simpl. apply String.eqb_neq.
  by destruct (String.eqb _ _).
Qed.

(** The part of [restore_namespace] that comes after the request for the
    namespace. *)
Definition restore_resources (E : env) (headers : string) (name : string)
    (namespace_dir : path) : M unit :=
  do files <- os_listdir namespace_dir;
  do cl <- for_fold files (Classified [] [] []) (classify_file namespace_dir);
  do _ <- for_each (deployed_apps cl) (restore_app E headers name namespace_dir);
  for_each (pipeline_files cl)
    (restore_pipeline E headers name namespace_dir (conn_files cl)).

Lemma restore_default_resources E headers zip_blob_path namespace w :
  py_getitem namespace "name" = Ok (JStr "default") ->
  restore_namespace E headers zip_blob_path namespace w
  = restore_resources E headers "default" (zip_blob_path ++ ["default"]) w.
Proof.
  intros Hname. unfold restore_namespace, restore_resources.
  rewrite Hname. mstep mrefl. mstep mrefl. simpl.
  destruct (os_listdir _ w) as [[files|e] w1]; [| done].
  destruct (for_fold files _ _ w1) as [[cl|e] w2]; [| done].
  by destruct (for_each (deployed_apps cl) _ w2) as [[[]|e] w3].
Qed.

Lemma fetch_pipelines_list_run E namespace headers w :
  exists j errs,
    fetch_pipelines_list E namespace headers w
    = (Ok j,
       World (fs w) (bucket w)
         (trace w ++ EvApi (GetDrafts (py_str namespace)) :: errs)).
Proof.
  unfold fetch_pipelines_list, session_request, raise_for_status.
  destruct (get_drafts E (py_str namespace)) as [status rsn b|msg]; mrun.
  - destruct ((400 <=? status)%Z && (status <? 600)%Z); mrun;
      eexists _, _; f_equal; f_equal; same_trace.
  - eexists _, _. f_equal. f_equal. same_trace.
Qed.

(** The backup of [cdf_export.py] asks for the drafts of "default" as it
    does for any namespace whose folder is in the staging folder. *)
Lemma backup_default_drafts E headers zip_folder namespace w :
  py_getitem namespace "name" = Ok (JStr "default") ->
  fs w !! (zip_folder ++ ["default"]) <> None ->
  exists evs,
    new_events w (snd (backup_namespace E headers zip_folder namespace w))
    = EvLog INFO "*************Fetching Pipelines from default********************"
      :: EvApi (GetDrafts "default") :: evs.
Proof.
  intros Hname Hdir. unfold backup_namespace. rewrite Hname.
  mstep mrefl. mstep mrefl. mstep mrefl.
  rewrite lookup_node_nonempty
    by (intros Heq; by apply app_eq_nil in Heq as [_ ?]).
  destruct (fs w !! (zip_folder ++ ["default"])) as [n|]; [| done].
  mstep mrefl. mstep mrefl.
  match goal with
  | |- context [try_except _ _ _ ?w1] =>
      destruct (fetch_pipelines_list_run E (JStr "default") headers w1)
        as (j & errs & Hlist)
  end.
  mstep ltac:(exact Hlist).
  match goal with
  | |- context [try_except ?m ?c ?h ?w2] =>
      assert (Hrest : follows (appends any_event) (try_except m c h))
        by follows_auto;
      destruct (Hrest w2) as (evs & Ht & _)
  end.
  eexists. apply new_events_app. rewrite Ht. cbn [trace py_str]. same_trace.
Qed.

(** ** Formatting the deployed apps *)

(** [app_<name>.json], the name a formatted file is given. *)
Definition app_name (file : string) : string :=
  "app_" +:+ splitext_stem file +:+ ".json".

(** What [format_deployed_apps] rewrites a file to, if it does: the file
    must hold a JSON object whose [configuration] is a text that
    [json.loads] decodes.  It does not for a text that is not valid JSON,
    and neither for a file that cannot be read as a JSON object or whose
    [configuration] is no text. *)
Definition formatted (E : env) (c : content) : option json :=
  match c with
  | CJson (JObj fields) =>
      match default (JStr "") (assoc "configuration" fields) with
      | JStr s =>
          match json_loads_text E s with
          | Some configuration_dict =>
              Some (JObj (obj_set "configuration" configuration_dict fields))
          | None => None
          end
      | _ => None
      end
  | _ => None
  end.

(** A file whose [configuration] is a text that is not valid JSON. *)
Definition invalid_configuration (E : env) (c : content) : Prop :=
  exists fields s,
    c = CJson (JObj fields) /\
    assoc "configuration" fields = Some (JStr s) /\
    json_loads_text E s = None.

Lemma invalid_configuration_not_formatted E c :
  invalid_configuration E c -> formatted E c = None.
Proof.
  intros (fields & s & -> & Hcfg & Hbad). simpl. rewrite Hcfg. simpl.
  by rewrite Hbad.
Qed.

(** A directory entry that is no file is passed over. *)
Lemma format_app_file_not_file E namespace_dir file w :
  (forall c, fs w !! (namespace_dir ++ [file]) <> Some (NFile c)) ->
  format_app_file E namespace_dir file w = (Ok tt, w).
Proof.
  intros Hnot. unfold format_app_file, os_path_isfile. mrun.
  rewrite lookup_node_nonempty
    by (intros Heq; by apply app_eq_nil in Heq as [_ ?]).
  destruct (fs w !! (namespace_dir ++ [file])) as [[c|]|]; [| done | done].
  by destruct (Hnot c).
Qed.

(** A file that is not rewritten stays as it is: one line is added to
    the log. *)
Lemma format_app_file_skips E namespace_dir file c w :
  fs w !! (namespace_dir ++ [file]) = Some (NFile c) ->
  formatted E c = None ->
  exists msg,
    format_app_file E namespace_dir file w
    = (Ok tt, World (fs w) (bucket w) (trace w ++ [EvLog ERROR msg])).
Proof.
  intros Hfile Hnone.
  unfold format_app_file, os_path_isfile, json_load, read_file, json_loads.
  mrun. rewrite !lookup_node_nonempty, Hfile by apply child_nonempty. mrun.
  destruct c as [[| | | | |fields]| |]; mrun; try by eexists.
  simpl in Hnone. unfold py_get_default. mrun.
  destruct (default (JStr "") (assoc "configuration" fields))
    as [| | |s| |]; mrun; try by eexists.
  destruct (json_loads_text E s); [done |]. mrun. by eexists.
Qed.

(** A file that is rewritten ends under its new name. *)
Lemma format_app_file_renames E namespace_dir file c doc w :
  fs w !! (namespace_dir ++ [file]) = Some (NFile c) ->
  formatted E c = Some doc ->
  lookup_node (fs w) namespace_dir = Some NDir ->
  fs w !! (namespace_dir ++ [app_name file]) <> Some NDir ->
  exists msg,
    format_app_file E namespace_dir file w
    = (Ok tt,
       World (<[namespace_dir ++ [app_name file] := NFile (CJson doc)]>
                (delete (namespace_dir ++ [file]) (fs w)))
         (bucket w)
         (trace w ++
            [EvWrite ByFormat (namespace_dir ++ [file]);
             EvRename (namespace_dir ++ [file])
               (namespace_dir ++ [app_name file]);
             EvLog INFO msg])).
Proof.
  intros Hfile Hsome Hdir Hfree.
  unfold format_app_file, os_path_isfile, json_load, read_file, json_loads.
  mrun. rewrite !lookup_node_nonempty, Hfile by apply child_nonempty. mrun.
  destruct c as [[| | | | |fields]| |]; try done. simpl in Hsome.
  unfold py_get_default. mrun.
  destruct (default (JStr "") (assoc "configuration" fields))
    as [| | |s| |]; try done.
  destruct (json_loads_text E s) as [cfg|]; [| done].
  injection Hsome as <-. mrun.
  rewrite write_file_run;
    [| apply child_nonempty | by rewrite parent_child | by rewrite Hfile].
  mrun. fold (app_name file).
  erewrite os_rename_run; cbn [fs];
    [| apply lookup_insert_eq
     | by rewrite parent_child, lookup_node_insert_child
     | destruct (decide (namespace_dir ++ [file]
                         = namespace_dir ++ [app_name file])) as [->|Hdiff];
       [by rewrite lookup_insert_eq | by rewrite lookup_insert_ne] ].
  mrun. rewrite delete_insert_eq, <- !app_assoc. by eexists.
Qed.

(** What the formatting step rewrites entry [file] of folder [d] to, if
    it does. *)
Definition decoded (E : env) (f : gmap path node) (d : path) (file : string)
  : option json :=
  match f !! (d ++ [file]) with
  | Some (NFile c) => formatted E c
  | _ => None
  end.

(** The event rewrites or renames the file at [p]. *)
Definition rewrites (p : path) (e : event) : Prop :=
  match e with
  | EvWrite _ q => q = p
  | EvRename q _ => q = p
  | _ => False
  end.

(** The files after entry [file] of folder [d] has had its turn. *)
Definition format_result (E : env) (d : path) (file : string)
    (f : gmap path node) : gmap path node :=
  match decoded E f d file with
  | Some doc =>
      <[d ++ [app_name file] := NFile (CJson doc)]> (delete (d ++ [file]) f)
  | None => f
  end.

(** One turn of the inner loop of [format_deployed_apps]: it does not
    raise, and its events rewrite and rename no file but the entry it is
    about, and that one only when it is decoded. *)
Lemma format_app_file_run E d file w :
  lookup_node (fs w) d = Some NDir ->
  (is_Some (decoded E (fs w) d file) ->
   fs w !! (d ++ [app_name file]) <> Some NDir) ->
  exists evs,
    format_app_file E d file w
    = (Ok tt, World (format_result E d file (fs w)) (bucket w) (trace w ++ evs)) /\
    Forall (fun e => forall p, rewrites p e ->
                       is_Some (decoded E (fs w) d file) /\ p = d ++ [file]) evs.
Proof.
  intros Hdir Hfree. unfold format_result, decoded in *.
  destruct (fs w !! (d ++ [file])) as [[c|]|] eqn:Hfile.
  - destruct (formatted E c) as [doc|] eqn:Hc.
    + destruct (format_app_file_renames E d file c doc w) as [msg ->];
        [done | done | done | by apply Hfree |].
      eexists. split; [done |].
      repeat (apply Forall_cons; split;
              [intros p Hp; simpl in Hp; try done; subst; by split |]).
      by apply Forall_nil.
    + destruct (format_app_file_skips E d file c w) as [msg ->]; [done | done |].
      eexists. split; [done |].
      apply Forall_cons. split; [by intros p Hp | by apply Forall_nil].
  - exists []. rewrite format_app_file_not_file by (intros c; congruence).
    rewrite app_nil_r. by destruct w.
  - exists []. rewrite format_app_file_not_file by (intros c; congruence).
    rewrite app_nil_r. by destruct w.
Qed.

Section FormatFolder.
Context (E : env) (d : path).

(** The entries [files] of folder [d] all exist, those of them that are
    rewritten get new names that differ from each other, and no such
    name is taken in the folder. *)
Definition new_names_free_in (f : gmap path node) (files : list string) : Prop :=
  (forall g, g ∈ files -> is_Some (f !! (d ++ [g]))) /\
  (forall g, g ∈ files -> is_Some (decoded E f d g) ->
             f !! (d ++ [app_name g]) = None) /\
  (forall g h, g ∈ files -> h ∈ files ->
               is_Some (decoded E f d g) -> is_Some (decoded E f d h) ->
               app_name g = app_name h -> g = h).

(** The turn of [file] leaves the other entries of the list alone. *)
Lemma format_result_rest f file rest g :
  NoDup (file :: rest) -> new_names_free_in f (file :: rest) -> g ∈ rest ->
  format_result E d file f !! (d ++ [g]) = f !! (d ++ [g]) /\
  decoded E (format_result E d file f) d g = decoded E f d g.
Proof.
  intros Hnd (Hex & Hfree & _) Hg. apply NoDup_cons in Hnd as [Hfile _].
  assert (Hsame : format_result E d file f !! (d ++ [g]) = f !! (d ++ [g])).
  { unfold format_result.
    destruct (decoded E f d file) as [doc|] eqn:Hdec; [| done].
    rewrite lookup_insert_ne, lookup_delete_ne; [done | |].
    - intros Heq. apply app_inv_head in Heq. congruence.
    - intros Heq. apply app_inv_head in Heq.
      assert (g = app_name file) as -> by congruence.
      destruct (Hex (app_name file)) as [n Hn]; [in_list |].
      rewrite Hfree in Hn; [done | in_list | by rewrite Hdec]. }
  split; [done |]. unfold decoded. by rewrite Hsame.
Qed.

(** The new names of the entries that remain are free after the turn of
    [file] as they were before it. *)
Lemma new_names_free_in_step f file rest :
  NoDup (file :: rest) ->
  new_names_free_in f (file :: rest) ->
  new_names_free_in (format_result E d file f) rest.
Proof.
  intros Hnd Hall.
  pose proof (fun g => format_result_rest _ _ _ g Hnd Hall) as Hrest.
  apply NoDup_cons in Hnd as [Hfile Hnd].
  destruct Hall as (Hex & Hfree & Hinj). split_and!.
  - intros g Hg. destruct (Hrest g Hg) as [-> _]. apply Hex. in_list.
  - intros g Hg Hdec. destruct (Hrest g Hg) as [_ Hd]. rewrite Hd in Hdec.
    unfold format_result.
    destruct (decoded E f d file) as [doc|] eqn:Hdf.
    + rewrite lookup_insert_ne.
      * apply lookup_delete_None. right. apply Hfree; [in_list | done].
      * intros Heq. apply app_inv_head in Heq.
        assert (file = g); [| congruence].
        apply Hinj; [in_list | in_list | by rewrite Hdf | done | congruence].
    + apply Hfree; [in_list | done].
  - intros g h Hg Hh Hdg Hdh.
    destruct (Hrest g Hg) as [_ Hd1]. destruct (Hrest h Hh) as [_ Hd2].
    rewrite Hd1 in Hdg. rewrite Hd2 in Hdh.
    apply Hinj; [in_list | in_list | done | done].
Qed.

(** The folder itself stays. *)
Lemma format_result_dir f file :
  lookup_node (format_result E d file f) d = lookup_node f d.
Proof.
  unfold format_result. destruct (decoded E f d file); [| done].
  by rewrite lookup_node_insert_child, lookup_node_delete_child.
Qed.

(** The inner loop of [format_deployed_apps] over entries with new names
    that are free. *)
Lemma format_folder_run files w :
  NoDup files ->
  new_names_free_in (fs w) files ->
  lookup_node (fs w) d = Some NDir ->
  exists w',
    for_each files (format_app_file E d) w = (Ok tt, w') /\
    bucket w' = bucket w /\
    (forall g doc,
        g ∈ files -> decoded E (fs w) d g = Some doc ->
        fs w' !! (d ++ [g]) = None /\
        fs w' !! (d ++ [app_name g]) = Some (NFile (CJson doc))) /\
    (forall p,
        (forall g, g ∈ files -> is_Some (decoded E (fs w) d g) ->
                   p <> d ++ [g] /\ p <> d ++ [app_name g]) ->
        fs w' !! p = fs w !! p) /\
    exists evs,
      trace w' = trace w ++ evs /\
      Forall (fun e => forall p, rewrites p e ->
                exists g, g ∈ files /\ is_Some (decoded E (fs w) d g) /\
                          p = d ++ [g]) evs.
Proof.
  revert w. induction files as [|file rest IH]; intros w Hnd Hfree Hdir.
  { exists w. split_and!; try done.
    - intros g doc Hg. by apply elem_of_nil in Hg.
    - exists []. by rewrite app_nil_r. }
  destruct (format_app_file_run E d file w) as (evs & Hrun & Hevs); [done | |].
  { intros Hdec. destruct Hfree as (_ & Hf & _).
    rewrite Hf; [done | in_list | done]. }
  pose proof (new_names_free_in_step _ _ _ Hnd Hfree) as Hfree1.
  pose proof (fun g => format_result_rest _ _ _ g Hnd Hfree) as Hrest.
  apply NoDup_cons in Hnd as [Hfile Hnd].
  set (w1 := World (format_result E d file (fs w)) (bucket w) (trace w ++ evs)) in *.
  destruct (IH w1) as (w' & Hloop & Hb & Hdone & Hframe & evs' & Ht & Hevs');
    [done | done | by simpl; rewrite format_result_dir |].
  destruct Hfree as (Hex & Hf & Hinj).
  exists w'. split_and!.
  - cbn [for_each]. by erewrite bind_ok by exact Hrun.
  - by rewrite Hb.
  - intros g doc Hg Hdec. apply elem_of_cons in Hg as [->|Hg].
    + assert (Hff : fs w !! (d ++ [app_name file]) = None)
        by (apply Hf; [in_list | by rewrite Hdec]).
      destruct (Hex file) as [m Hm]; [in_list |].
      assert (Hsame : forall p, (p = d ++ [file] \/ p = d ++ [app_name file]) ->
                fs w' !! p = fs w1 !! p).
      { intros p Hp. apply Hframe. intros g Hg Hdg.
        destruct (Hrest g Hg) as [_ Hd]. simpl in Hdg. rewrite Hd in Hdg.
        assert (Hfg : fs w !! (d ++ [app_name g]) = None)
          by (apply Hf; [in_list | done]).
        destruct (Hex g) as [n Hn]; [in_list |].
        destruct Hp as [-> | ->]; split; intros Heq;
          apply app_inv_head in Heq; try congruence.
        assert (file = g); [| congruence].
        apply Hinj; [in_list | in_list | by rewrite Hdec | done | congruence]. }
      rewrite !Hsame by auto. simpl. unfold format_result. rewrite Hdec.
      assert (Hne : d ++ [app_name file] <> d ++ [file]) by congruence.
      rewrite lookup_insert_ne by done.
      by rewrite lookup_delete_eq, lookup_insert_eq.
    + destruct (Hrest g Hg) as [_ Hd].
      apply Hdone; [done |]. simpl. by rewrite Hd.
  - intros p Hp. rewrite Hframe.
    + simpl. unfold format_result.
      destruct (decoded E (fs w) d file) as [doc|] eqn:Hdec; [| done].
      destruct (Hp file) as [Hp1 Hp2]; [in_list | by rewrite Hdec |].
      by rewrite lookup_insert_ne, lookup_delete_ne.
    + intros g Hg Hdg. destruct (Hrest g Hg) as [_ Hd].
      simpl in Hdg. rewrite Hd in Hdg.
      apply Hp; [in_list | done].
  - exists (evs ++ evs'). split; [by rewrite Ht, app_assoc |].
    apply Forall_app. split.
    + eapply Forall_impl; [exact Hevs |]. intros e He p Hp.
      destruct (He p Hp) as [Hdec ->].
      exists file. split_and!; [in_list | done | done].
    + eapply Forall_impl; [exact Hevs' |]. intros e He p Hp.
      destruct (He p Hp) as (g & Hg & Hdg & ->).
      destruct (Hrest g Hg) as [_ Hd].
      simpl in Hdg. rewrite Hd in Hdg.
      exists g. split_and!; [in_list | done | done].
Qed.

End FormatFolder.

(** The entries of folder [d] that the formatting step rewrites. *)
Definition renamed (E : env) (f : gmap path node) (d : path) : list string :=
  filter (fun g => is_Some (decoded E f d g)) (children f d).

(** The new names of the entries of folder [d] differ from each other
    and from the names of the entries. *)
Definition new_names_free (E : env) (f : gmap path node) (d : path) : Prop :=
  NoDup ((app_name <$> renamed E f d) ++ children f d).

(** The same, said of every name. *)
Definition free (E : env) (d : path) (f : gmap path node) : Prop :=
  (forall g, is_Some (decoded E f d g) -> f !! (d ++ [app_name g]) = None) /\
  (forall g h, is_Some (decoded E f d g) -> is_Some (decoded E f d h) ->
               app_name g = app_name h -> g = h).

(** What is decoded is a file of the folder. *)
Lemma decoded_is_entry E f d g :
  is_Some (decoded E f d g) -> g ∈ children f d.
Proof.
  intros Hdec. apply elem_of_children. unfold decoded in Hdec.
  destruct (f !! (d ++ [g])); [done |]. by destruct Hdec.
Qed.

Lemma decoded_exists E f d g : is_Some (decoded E f d g) -> g ∈ renamed E f d.
Proof.
  intros Hdec. apply list_elem_of_filter. split; [done |].
  by eapply decoded_is_entry.
Qed.

(** The two ways of saying that the new names are free. *)
Lemma new_names_free_free E f d : new_names_free E f d -> free E d f.
Proof.
  intros Hnd. apply NoDup_app in Hnd as (Hnew & Hfresh & _). split.
  - intros g Hdec. apply eq_None_not_Some. intros Hex.
    apply (Hfresh (app_name g)).
    + apply list_elem_of_fmap. exists g. split; [done |].
      by apply decoded_exists.
    + by apply elem_of_children.
  - intros g h Hg Hh. apply (NoDup_fmap_eq _ _ _ _ Hnew); by apply decoded_exists.
Qed.

Lemma free_in_children E f d : free E d f -> new_names_free_in E d f (children f d).
Proof.
  intros [Hfree Hinj]. split_and!.
  - intros g Hg. by apply elem_of_children.
  - intros g _. apply Hfree.
  - intros g h _ _. apply Hinj.
Qed.

(** [free] looks at the entries of the folder only. *)
Lemma free_same_folder E d f f' :
  (forall x, f' !! (d ++ [x]) = f !! (d ++ [x])) -> free E d f -> free E d f'.
Proof.
  intros Hsame [Hfree Hinj].
  assert (Hdec : forall g, decoded E f' d g = decoded E f d g)
    by (intros g; unfold decoded; by rewrite Hsame).
  split.
  - intros g Hg. rewrite Hdec in Hg. rewrite Hsame. by apply Hfree.
  - intros g h Hg Hh. rewrite Hdec in Hg, Hh. by apply Hinj.
Qed.

(** A path that is no entry of folder [d]. *)
Definition outside (d p : path) : Prop := forall x, p <> d ++ [x].

(** An event that rewrites or renames no file but an entry of [d]. *)
Definition within (d : path) (e : event) : Prop :=
  forall p, rewrites p e -> exists x, p = d ++ [x].

Lemma not_outside d x : ~ outside d (d ++ [x]).
Proof. intros Hout. by apply (Hout x). Qed.

#[local] Hint Resolve not_outside : follows.
#[local] Hint Extern 1 (within _ _) =>
  (intros ? Hrw; simpl in Hrw; try done; subst; by eexists) : follows.

(** The pass of [format_deployed_apps] over one namespace stays within
    the folder of that namespace. *)
Lemma format_namespace_elsewhere E dir ns n :
  py_getitem ns "name" = Ok (JStr n) ->
  follows same_bucket (format_namespace E dir ns) /\
  follows (fs_same (outside (dir ++ [n]))) (format_namespace E dir ns) /\
  follows (appends (within (dir ++ [n]))) (format_namespace E dir ns).
Proof.
  intros Hname.
  split_and!; unfold format_namespace; rewrite Hname;
    (fapply follows_bind_lift; intros ? [= <-]); simpl as_str;
    (fapply follows_bind_lift; intros ? [= <-]); follows_auto.
Qed.

(** No turn of the inner loop raises, whatever the entry. *)
Lemma format_app_file_ok E d g w : fst (format_app_file E d g w) = Ok tt.
Proof.
  unfold format_app_file. mstep mrefl.
  match goal with |- context [when ?b _ _] => destruct b end; [| done].
  apply try_log_never_raises.
Qed.

(** The pass over a namespace ends normally unless a file has the name
    of the namespace. *)
Lemma format_namespace_ok E dir ns n w :
  py_getitem ns "name" = Ok (JStr n) ->
  (forall c, fs w !! (dir ++ [n]) <> Some (NFile c)) ->
  fst (format_namespace E dir ns w) = Ok tt.
Proof.
  intros Hname Hnf. unfold format_namespace, os_path_exists. rewrite Hname.
  mrun. simpl as_str. mrun.
  rewrite lookup_node_nonempty by apply child_nonempty.
  destruct (fs w !! (dir ++ [n])) as [[c|]|] eqn:Hd; mrun.
  - by destruct (Hnf c).
  - rewrite os_listdir_run
      by (by rewrite lookup_node_nonempty by apply child_nonempty).
    mrun. apply for_each_ok. intros g w1 _. apply format_app_file_ok.
  - done.
Qed.

(** The pass over the namespace whose folder has free new names. *)
Lemma format_namespace_run E dir ns name w :
  py_getitem ns "name" = Ok (JStr name) ->
  fs w !! (dir ++ [name]) = Some NDir ->
  free E (dir ++ [name]) (fs w) ->
  exists w',
    format_namespace E dir ns w = (Ok tt, w') /\
    (forall g doc,
        decoded E (fs w) (dir ++ [name]) g = Some doc ->
        fs w' !! ((dir ++ [name]) ++ [g]) = None /\
        fs w' !! ((dir ++ [name]) ++ [app_name g]) = Some (NFile (CJson doc))) /\
    (forall p,
        (forall g, is_Some (decoded E (fs w) (dir ++ [name]) g) ->
                   p <> (dir ++ [name]) ++ [g] /\
                   p <> (dir ++ [name]) ++ [app_name g]) ->
        fs w' !! p = fs w !! p) /\
    exists evs,
      trace w' = trace w ++ evs /\
      Forall (fun e => forall p, rewrites p e ->
                exists g, is_Some (decoded E (fs w) (dir ++ [name]) g) /\
                          p = (dir ++ [name]) ++ [g]) evs.
Proof.
  intros Hname Hdir Hfree.
  assert (Hd : lookup_node (fs w) (dir ++ [name]) = Some NDir)
    by (by rewrite lookup_node_nonempty by apply child_nonempty).
  destruct (format_folder_run E (dir ++ [name]) (children (fs w) (dir ++ [name])) w)
    as (w' & Hloop & _ & Hdone & Hframe & evs & Ht & Hevs);
    [apply NoDup_children | by apply free_in_children | done |].
  exists w'. split_and!.
  - unfold format_namespace, os_path_exists. rewrite Hname. mrun.
    simpl as_str. mrun. rewrite Hd. mrun. by rewrite os_listdir_run.
  - intros g doc Hdec. apply Hdone; [| done].
    eapply decoded_is_entry. by rewrite Hdec.
  - intros p Hp. apply Hframe. intros g _. apply Hp.
  - exists evs. split; [done |].
    eapply Forall_impl; [exact Hevs |]. intros e He p Hrw.
    destruct (He p Hrw) as (g & _ & Hg & ->). by exists g.
Qed.

(** The names of the namespaces of a listing. *)
Definition named (nss : list json) (names : list string) : Prop :=
  Forall2 (fun ns n => py_getitem ns "name" = Ok (JStr n)) nss names.

(** No file has the name of a namespace in [dir]. *)
Definition no_file_named (dir : path) (names : list string)
    (f : gmap path node) : Prop :=
  forall n, n ∈ names -> forall c, f !! (dir ++ [n]) <> Some (NFile c).

(** What the passes over namespaces other than [name] leave alone and
    log. *)
Definition folder_kept (dir : path) (name : string) (w w' : world) : Prop :=
  (forall p, (forall n x, n <> name -> p <> (dir ++ [n]) ++ [x]) ->
             fs w' !! p = fs w !! p) /\
  exists evs,
    trace w' = trace w ++ evs /\
    Forall (fun e => forall p, rewrites p e ->
              exists n x, n <> name /\ p = (dir ++ [n]) ++ [x]) evs.

(** The passes over namespaces other than [name] do not raise and stay
    out of the folder of [name]. *)
Lemma format_others E dir name nss names w :
  named nss names -> name ∉ names -> no_file_named dir names (fs w) ->
  exists w',
    for_each nss (format_namespace E dir) w = (Ok tt, w') /\
    folder_kept dir name w w'.
Proof.
  intros Hnamed. revert w.
  induction Hnamed as [|ns n nss names Hname Hnamed IH]; intros w Hnot Hnf.
  { exists w. split; [done |]. split; [done |]. exists [].
    by rewrite app_nil_r. }
  apply not_elem_of_cons in Hnot as [Hne Hnot].
  destruct (format_namespace_elsewhere E dir ns n Hname) as (_ & Hfs & Hev).
  pose proof (format_namespace_ok E dir ns n w Hname) as Hok.
  specialize (Hfs w). specialize (Hev w).
  destruct (format_namespace E dir ns w) as [r w1] eqn:Hrun.
  simpl in Hok, Hfs, Hev.
  assert (r = Ok tt) as -> by (apply Hok; apply Hnf; in_list).
  destruct (IH w1) as (w' & Hloop & Hframe & evs' & Ht' & Hevs'); [done | |].
  { intros m Hm c. rewrite Hfs; [apply Hnf; in_list |].
    intros x. apply folder_not_entry. }
  destruct Hev as (evs & Ht & Hevs).
  exists w'. split; [| split].
  - cbn [for_each]. by erewrite bind_ok by exact Hrun.
  - intros p Hp. rewrite Hframe by done. apply Hfs. intros x. by apply Hp.
  - exists (evs ++ evs'). split; [by rewrite Ht', Ht, app_assoc |].
    apply Forall_app. split; [| done].
    eapply Forall_impl; [exact Hevs |]. intros e He p Hrw.
    destruct (He p Hrw) as [x ->]. by exists n, x.
Qed.

(** What the formatting step does to the folder of namespace [name],
    seen from the state [w] it starts in: the entries it decodes are
    under their new names, the others are as they were, and so is
    everything that is no entry of a namespace folder; no entry it does
    not decode is rewritten or renamed. *)
Definition folder_done (E : env) (dir : path) (name : string)
    (w w' : world) : Prop :=
  (forall g doc,
      decoded E (fs w) (dir ++ [name]) g = Some doc ->
      fs w' !! ((dir ++ [name]) ++ [g]) = None /\
      fs w' !! ((dir ++ [name]) ++ [app_name g]) = Some (NFile (CJson doc))) /\
  (forall g n,
      fs w !! ((dir ++ [name]) ++ [g]) = Some n ->
      decoded E (fs w) (dir ++ [name]) g = None ->
      fs w' !! ((dir ++ [name]) ++ [g]) = Some n) /\
  (forall p, (forall n x, p <> (dir ++ [n]) ++ [x]) -> fs w' !! p = fs w !! p) /\
  exists evs,
    trace w' = trace w ++ evs /\
    forall g, decoded E (fs w) (dir ++ [name]) g = None ->
              Forall (fun e => ~ rewrites ((dir ++ [name]) ++ [g]) e) evs.

(** The outer loop of [format_deployed_apps] over a listing that has
    [name] once. *)
Lemma format_deployed_run E dir name nss names w :
  named nss names -> NoDup names -> name ∈ names ->
  no_file_named dir names (fs w) ->
  fs w !! (dir ++ [name]) = Some NDir ->
  free E (dir ++ [name]) (fs w) ->
  exists w',
    for_each nss (format_namespace E dir) w = (Ok tt, w') /\
    folder_done E dir name w w'.
Proof.
  intros Hnamed. revert w.
  induction Hnamed as [|ns n nss names Hname Hnamed IH];
    intros w Hnd Hin Hnf Hdir Hfree; [by apply elem_of_nil in Hin |].
  apply NoDup_cons in Hnd as [Hn Hnd].
  destruct (decide (n = name)) as [->|Hne].
  - (* the pass over [name], then the others *)
    destruct (format_namespace_run E dir ns name w)
      as (w1 & Hrun & Hdone & Hframe & evs & Ht & Hevs); [done | done | done |].
    destruct (format_others E dir name nss names w1)
      as (w' & Hloop & Hkept & evs' & Ht' & Hevs'); [done | done | |].
    { intros m Hm c. rewrite Hframe; [apply Hnf; in_list |].
      intros g _. split; apply folder_not_entry. }
    assert (Hentry : forall x, fs w' !! ((dir ++ [name]) ++ [x])
                               = fs w1 !! ((dir ++ [name]) ++ [x])).
    { intros x. apply Hkept. intros m y Hm Heq.
      apply entry_inj in Heq as [Heq _]. apply entry_inj in Heq as [_ Heq].
      congruence. }
    exists w'. split; [| split_and!].
    + cbn [for_each]. by erewrite bind_ok by exact Hrun.
    + intros g doc Hdec. rewrite !Hentry. by apply Hdone.
    + intros g m Hg Hdec. rewrite Hentry, Hframe; [done |].
      intros h Hh. destruct Hfree as [Hf _]. split; intros Heq;
        apply entry_inj in Heq as [_ ->]; [by rewrite Hdec in Hh |].
      rewrite Hf in Hg; done.
    + intros p Hp. rewrite Hkept, Hframe; [done | |].
      * intros g _. split; apply Hp.
      * intros m x _. apply Hp.
    + exists (evs ++ evs'). split; [by rewrite Ht', Ht, app_assoc |].
      intros g Hdec. apply Forall_app. split.
      * eapply Forall_impl; [exact Hevs |]. intros e He Hrw.
        destruct (He _ Hrw) as (h & Hh & Heq).
        apply entry_inj in Heq as [_ ->]. by rewrite Hdec in Hh.
      * eapply Forall_impl; [exact Hevs' |]. intros e He Hrw.
        destruct (He _ Hrw) as (m & x & Hm & Heq).
        apply entry_inj in Heq as [Heq _]. apply entry_inj in Heq as [_ Heq].
        congruence.
  - (* the pass over another namespace, then the rest *)
    apply elem_of_cons in Hin as [Heq|Hin]; [congruence |].
    destruct (format_namespace_elsewhere E dir ns n Hname) as (_ & Hfs & Hev).
    pose proof (format_namespace_ok E dir ns n w Hname) as Hok.
    specialize (Hfs w). specialize (Hev w).
    destruct (format_namespace E dir ns w) as [r w1] eqn:Hrun.
    simpl in Hok, Hfs, Hev.
  assert (r = Ok tt) as -> by (apply Hok; apply Hnf; in_list).
    assert (Hentry : forall x, fs w1 !! ((dir ++ [name]) ++ [x])
                               = fs w !! ((dir ++ [name]) ++ [x])).
    { intros x. apply Hfs. intros y Heq.
      apply entry_inj in Heq as [Heq _]. apply entry_inj in Heq as [_ Heq].
      congruence. }
    assert (Hdec : forall g, decoded E (fs w1) (dir ++ [name]) g
                             = decoded E (fs w) (dir ++ [name]) g)
      by (intros g; unfold decoded; by rewrite Hentry).
    destruct (IH w1) as (w' & Hloop & Hdone & Hsame & Hframe & evs' & Ht' & Hevs');
      [done | done | | | |].
    { intros m Hm c. rewrite Hfs; [apply Hnf; in_list |].
      intros x. apply folder_not_entry. }
    { rewrite Hfs; [done |]. intros x. apply folder_not_entry. }
    { by eapply free_same_folder. }
    destruct Hev as (evs & Ht & Hevs).
    exists w'. split; [| split_and!].
    + cbn [for_each]. by erewrite bind_ok by exact Hrun.
    + intros g doc Hg. apply Hdone. by rewrite Hdec.
    + intros g m Hg Hg'. apply Hsame; [by rewrite Hentry | by rewrite Hdec].
    + intros p Hp. rewrite Hframe by done. apply Hfs. intros x. apply Hp.
    + exists (evs ++ evs'). split; [by rewrite Ht', Ht, app_assoc |].
      intros g Hg. apply Forall_app. split.
      * eapply Forall_impl; [exact Hevs |]. intros e He Hrw.
        destruct (He _ Hrw) as [x Heq].
        apply entry_inj in Heq as [Heq _]. apply entry_inj in Heq as [_ Heq].
        congruence.
      * apply Hevs'. by rewrite Hdec.
Qed.

(** ** The steps after the formatting *)

(** The archive of the run, next to the staging folder. *)
Definition zip_path (E : env) : path := path_add_suffix (staging E) ".zip".

(** Making the folder of a namespace, or the backup directory, makes no
    directory where the archive goes. *)
Lemma zip_path_not_made E (s : string) k :
  zip_path E <> take (S k) (staging E ++ [s]).
Proof.
  unfold zip_path, staging, BACKUP_DIRECTORY, path_add_suffix. simpl.
  destruct k as [|[|[|k]]]; simpl; try done.
  intros [= Heq]. by apply append_eq_self in Heq.
Qed.

Lemma zip_path_not_backup E k : zip_path E <> take (S k) BACKUP_DIRECTORY.
Proof.
  unfold zip_path, staging, BACKUP_DIRECTORY, path_add_suffix. simpl.
  by destruct k as [|k].
Qed.

(** A path where the namespace loop of the backup saves a draft or a
    connection. *)
Definition saved (dir p : path) : Prop :=
  exists s a, p = (dir ++ [s]) ++ ["draft_" +:+ a] \/
              p = (dir ++ [s]) ++ ["conn_" +:+ a].

Definition unsaved (dir p : path) : Prop := ~ saved dir p.

Lemma not_unsaved_draft dir (s a : string) :
  ~ unsaved dir ((dir ++ [s]) ++ ["draft_" +:+ a]).
Proof. intros Hun. apply Hun. exists s, a. by left. Qed.

Lemma not_unsaved_conn dir (s a : string) :
  ~ unsaved dir ((dir ++ [s]) ++ ["conn_" +:+ a]).
Proof. intros Hun. apply Hun. exists s, a. by right. Qed.

#[local] Hint Resolve not_unsaved_draft not_unsaved_conn : follows.
#[local] Hint Extern 1 (no_dir_at (zip_path _) _ (World _ _ _)) =>
  (eapply no_dir_at_mkdir_chain;
   [eassumption | first [apply zip_path_not_made | apply zip_path_not_backup]])
  : follows.

(** The body of the namespace loop leaves alone what is no draft and no
    connection of its, and makes no directory where the archive goes. *)
Lemma backup_namespace_keeps E headers namespace :
  follows (fs_keeps (unsaved (staging E)))
    (backup_namespace E headers (staging E) namespace) /\
  follows (no_dir_at (zip_path E))
    (backup_namespace E headers (staging E) namespace).
Proof. split; follows_auto. Qed.

(** The body of the namespace loop does not raise on a namespace that
    has a name. *)
Lemma backup_namespace_ok E headers zip_folder namespace name w :
  py_getitem namespace "name" = Ok name ->
  fst (backup_namespace E headers zip_folder namespace w) = Ok tt.
Proof.
  intros Hname. unfold backup_namespace. rewrite Hname. mstep mrefl.
  apply try_log_never_raises.
Qed.

(** So the namespace loop runs to its end. *)
Lemma backup_namespaces_run E headers nss names w :
  named nss names ->
  exists w',
    for_each nss (backup_namespace E headers (staging E)) w = (Ok tt, w') /\
    fs_keeps (unsaved (staging E)) w w' /\
    no_dir_at (zip_path E) w w'.
Proof.
  intros Hnamed.
  exists (snd (for_each nss (backup_namespace E headers (staging E)) w)).
  split_and!.
  - pose proof (for_each_ok nss (backup_namespace E headers (staging E)) w) as Hok.
    destruct (for_each nss _ w) as [r w']. simpl in *. rewrite Hok; [done |].
    intros ns w1 Hns.
    apply list_elem_of_lookup in Hns as [i Hi].
    destruct (Forall2_lookup_l _ _ _ i ns Hnamed Hi) as (n & _ & Hn).
    by eapply backup_namespace_ok.
  - apply (follows_for_each _). intros ns. apply backup_namespace_keeps.
  - apply (follows_for_each _). intros ns. apply backup_namespace_keeps.
Qed.

(** The publish step on a folder that exists, when the archive can be
    written next to it: the archive is on disk, and in the latest slot
    if that upload succeeds. *)
Lemma compress_and_upload_run E zip_folder w :
  lookup_node (fs w) zip_folder <> None ->
  lookup_node (fs w) (parent (path_add_suffix zip_folder ".zip")) = Some NDir ->
  fs w !! path_add_suffix zip_folder ".zip" <> Some NDir ->
  exists w',
    compress_and_upload E zip_folder w = (Ok tt, w') /\
    fs w' = <[path_add_suffix zip_folder ".zip"
              := NFile (CZip (files_under (fs w) zip_folder))]> (fs w) /\
    (gcs_error E (GcsUpload latest_blob) = None ->
     blob_get latest_blob (bucket w')
     = Some (CZip (files_under (fs w) zip_folder))).
Proof.
  intros Hex Hpar Hnd. eexists. split.
  - unfold compress_and_upload. mstep mrefl.
    mstep ltac:(by apply compress_folder_run).
    mstep ltac:(apply (save_to_gcs_run _ _ _ _
                         (CZip (files_under (fs w) zip_folder))); simpl;
                rewrite lookup_node_nonempty by apply path_add_suffix_nonempty;
                apply lookup_insert_eq).
    erewrite try_ok; [done |].
    apply (save_to_gcs_run _ _ _ _ (CZip (files_under (fs w) zip_folder))).
    unfold after_upload. destruct (gcs_error E _); simpl;
      rewrite lookup_node_nonempty by apply path_add_suffix_nonempty;
      apply lookup_insert_eq.
  - unfold after_upload.
    change (GCS_BACKUP_FOLDER +:+ "/" +:+ "backup.zip") with latest_blob.
    split.
    + by destruct (gcs_error E (GcsUpload latest_blob)), (gcs_error E _).
    + intros ->. cbn [bucket]. apply blob_get_put_eq.
Qed.

(** A file below the folder is a member of the archive. *)
Lemma files_under_intro f folder x rel c :
  f !! (folder ++ x :: rel) = Some (NFile c) ->
  (x :: rel, Some c) ∈ files_under f folder.
Proof.
  intros Hfile. unfold files_under. apply list_elem_of_omap.
  exists (folder ++ x :: rel, NFile c). split.
  - by apply elem_of_map_to_list.
  - simpl. by rewrite strip_prefix_app.
Qed.

(** A listing whose entries have names is a list, and not the empty
    one unless it has no entries. *)
Lemma named_truthy namespaces nss names name :
  py_iter namespaces = Ok nss -> named nss names -> name ∈ names ->
  py_truthy namespaces = true.
Proof.
  intros Hiter Hnamed Hin.
  destruct Hnamed as [|ns n nss names Hn Hnamed]; [by apply elem_of_nil in Hin |].
  destruct namespaces as [| | |s|items|fields]; simpl in *; try done.
  - destruct s as [|a s]; [done |]. simpl in Hiter. by injection Hiter as <- _.
  - by injection Hiter as ->.
  - destruct fields as [|[k v] fields]; [done |]. simpl in Hiter.
    by injection Hiter as <- _.
Qed.

Definition is_dir (f : gmap path node) (p : path) : bool :=
  match f !! p with Some NDir => true | _ => false end.

Definition is_file (f : gmap path node) (p : path) : bool :=
  match f !! p with Some (NFile _) => true | _ => false end.

(** The state the export is unpacked into: the backup directory and the
    staging folder in it are directories, no file has the name of a
    namespace, and neither the file of the listing nor the archive is a
    directory. *)
Definition unpacked (E : env) (names : list string) (f : gmap path node)
  : bool :=
  is_dir f BACKUP_DIRECTORY && is_dir f (staging E)
  && forallb (fun n => negb (is_file f (staging E ++ [n]))) names
  && negb (is_dir f (staging E ++ ["namespaces.json"]))
  && negb (is_dir f (zip_path E)).

Lemma is_dir_true f p : is_dir f p = true -> f !! p = Some NDir.
Proof. unfold is_dir. by destruct (f !! p) as [[?|]|]. Qed.

Lemma is_dir_false f p : negb (is_dir f p) = true -> f !! p <> Some NDir.
Proof. unfold is_dir. by destruct (f !! p) as [[?|]|]. Qed.

Lemma unpacked_spec E names f :
  unpacked E names f = true ->
  f !! BACKUP_DIRECTORY = Some NDir /\
  f !! staging E = Some NDir /\
  no_file_named (staging E) names f /\
  f !! (staging E ++ ["namespaces.json"]) <> Some NDir /\
  f !! zip_path E <> Some NDir.
Proof.
  unfold unpacked. rewrite !andb_true_iff.
  intros ((((Hb & Hs) & Hn) & Hj) & Hz). split_and!.
  - by apply is_dir_true.
  - by apply is_dir_true.
  - intros n Hin c Hfile. rewrite forallb_forall in Hn.
    specialize (Hn n ltac:(by apply list_elem_of_In)).
    unfold is_file in Hn. by rewrite Hfile in Hn.
  - by apply is_dir_false.
  - by apply is_dir_false.
Qed.

(** The namespace loop saves nothing under a name [app_<name>.json], nor
    at the staging folder or above it. *)
Lemma not_saved_app dir (name g : string) :
  unsaved dir ((dir ++ [name]) ++ [app_name g]).
Proof.
  intros (s & a & [Heq|Heq]); apply entry_inj in Heq as [_ Heq];
    unfold app_name in Heq; simpl in Heq; discriminate.
Qed.

Lemma not_saved_short dir (p : path) : length p <= length dir -> unsaved dir p.
Proof.
  intros Hlen (s & a & [->| ->]); rewrite !length_app in Hlen;
    cbn [length] in Hlen; lia.
Qed.

(** A path of at most three components is no entry of a namespace
    folder of the staging folder. *)
Ltac short :=
  match goal with
  | H : forall p, length p <= 3 -> _ |- _ =>
      apply H; try done; unfold staging, BACKUP_DIRECTORY;
      rewrite ?length_app; cbn [length]; lia
  end.



(** The same in a whole run: the archive of the backup has the two apps
    that decode under their new names, and the third as it was
    exported. *)
Example broken_app_in_the_archive :
  blob_get latest_blob
    (bucket (snd (main Samples.undecodable_app Backup None Samples.fresh)))
  = Some (CZip
            [(["namespaces.json"],
              Some (CJson (JArr [Samples.namespace_doc "ns1"])));
             (["ns1"; "broken.json"],
              Some (CJson (JObj [("name", JStr "broken");
                                 ("configuration", JStr "{not json")])));
             (["ns1"; "app_etl.json"],
              Some (CJson (JObj [("name", JStr "etl");
                                 ("configuration", JObj [])])));
             (["ns1"; "app_load.json"],
              Some (CJson (JObj [("name", JStr "load");
                                 ("configuration", JObj [])])))]).
Proof. vm_compute. reflexivity. Qed.

End ExportProps.

(** * Properties of cdf_state.py *)

Module StateProps.
Import CdfState.

(** The namespace a request is about. *)
Definition call_namespace (c : api_call) : option string :=
  match c with
  | GetNamespaces | GetExport => None
  | GetDrafts ns | GetDraft ns _ | GetConnections ns | GetApps ns | GetApp ns _
  | PutNamespace ns _ | PutApp ns _ _ | PutDraft ns _ _
  | PutConnection ns _ _ => Some ns
  end.

(** Every event but a request about the namespace "default" and a file
    saved in its folder. *)
Definition skips_default (E : env) (e : event) : Prop :=
  match e with
  | EvApi c => call_namespace c <> Some "default"
  | EvWrite BySave p =>
      ~ exists rest, p = BACKUP_DIRECTORY E ++ "default" :: rest
  | _ => True
  end.

#[export] Hint Extern 1 (skips_default _ _) =>
  (simpl; first [exact I | discriminate]) : follows.

Lemma pretty_N_go_not_default x s :
  s <> "default" -> pretty_N_go x s <> "default".
Proof.
  revert s. induction (N.lt_wf_0 x) as [x _ IH]; intros s Hs.
  assert (x = 0 \/ 0 < x)%N as [->|Hpos] by lia.
  - by rewrite pretty_N_go_0.
  - rewrite pretty_N_go_step by done. apply IH.
    { by apply N.div_lt. }
    unfold pretty_N_char. by repeat case_match.
Qed.

Lemma pretty_Z_not_default (n : Z) : pretty n <> "default".
Proof.
  assert (Hpos : forall p : positive, pretty p <> "default").
  { intros p. unfold pretty, pretty_positive, pretty, pretty_N.
    case_decide; [done |]. by apply pretty_N_go_not_default. }
  destruct n as [|p|p]; [done | apply Hpos |].
  unfold pretty, pretty_Z. simpl. discriminate.
Qed.

(** Only the string "default" prints as "default". *)
Lemma py_str_default j : is_default j = false -> py_str j <> "default".
Proof.
  destruct j as [|[]|n|s|items|fields]; simpl; intros Hd; try discriminate.
  - apply pretty_Z_not_default.
  - by apply String.eqb_neq.
Qed.

(** The side conditions of [skips_default]: the name at hand passed the
    test [!= "default"]. *)
Ltac not_default :=
  simpl;
  lazymatch goal with
  | |- Some (py_str ?j) <> Some "default" =>
      intros [= Heq]; revert Heq; apply py_str_default;
      match goal with
      | H : negb (is_default j) = true |- _ => by destruct (is_default j)
      | H : is_default j = false |- _ => exact H
      end
  | |- ~ (exists _, _) =>
      intros [rest Heq]; simplify_eq;
      try match goal with
      | H : as_str ?j = Ok "default" |- _ =>
          destruct j; simpl in *; try discriminate; simplify_eq;
          simpl in *; discriminate
      end
  end.

Lemma backup_skips_default E headers :
  follows (appends (skips_default E)) (backup_application_state E headers).
Proof. follows_auto; apply appends_event; not_default. Qed.

Lemma restore_skips_default E headers :
  follows (appends (skips_default E)) (restore_application_state E headers).
Proof. follows_auto; apply appends_event; not_default. Qed.


Lemma Forall_not_elem {A} (P : A -> Prop) (l : list A) x :
  Forall P l -> ~ P x -> x ∉ l.
Proof. intros Hall Hx Hin. apply Hx. by eapply Forall_forall in Hall. Qed.



End StateProps.

(** * Further properties of cdf_export.py *)

Module ExportExtras.
Import CdfExport ExportProps.

(** ** The entry point and the token *)

(** A machine on which the gcloud call fails: the user is not logged
    in. *)
Definition not_logged_in : env := {|
  TODAY := "2024-12-06";
  gcloud := Raise (CalledProcessError "ERROR: (gcloud.auth) no credentials");
  get_namespaces := Samples.ok (JArr [Samples.namespace_doc "ns1"]);
  get_export := Samples.ok (CZip []);
  get_drafts := fun _ => Samples.ok (JArr []);
  get_draft := fun _ _ => Samples.not_found;
  get_connections := fun _ => Samples.ok (JArr []);
  get_apps := fun _ => Samples.ok (JArr []);
  get_app := fun _ _ => Samples.not_found;
  put := fun _ => Samples.ok tt;
  gcs_error := fun _ => None;
  json_loads_text := Samples.sample_loads
|}.

(** What [main] logs when the gcloud call raises [e]. *)
Definition token_failure_log (op : operation) (e : exn) : list event :=
  match e with
  | CalledProcessError err =>
      [EvLog CRITICAL ("Failed to retrieve access token: " +:+ err);
       EvLog ERROR
         ("An unexpected error occurred during -> " +:+ operation_str op
            +:+ ": Unable to retrieve access token. Ensure you are authenticated using gcloud.")]
  | _ =>
      [EvLog ERROR
         ("An unexpected error occurred during -> " +:+ operation_str op
            +:+ ": " +:+ exn_str e)]
  end.

(** X1: [main] never lets an exception out: whatever the backup or the
    restore raises, the run ends normally.  When the gcloud call itself
    fails, nothing is requested from the service, no file is touched and
    the bucket is as it was; a [CalledProcessError] is logged at level
    CRITICAL with the text of stderr and reported as the failure to get a
    token, any other exception is reported with its own text. *)
Theorem main_ends_normally (E : env) (op : operation)
    (restore_version : option string) (w : world) :
  let r := main E op restore_version w in
  fst r = Ok tt /\
  (forall e,
      gcloud E = Raise e ->
      fs (snd r) = fs w /\ bucket (snd r) = bucket w /\
      new_events w (snd r) = EvToken :: token_failure_log op e).
Proof.
  intros r. subst r. split.
  - unfold main. apply try_log_never_raises.
  - intros e He. unfold main, get_access_token. rewrite He. mrun.
    destruct e; mrun; (split; [done |]); (split; [done |]);
      apply new_events_app; same_trace.
Qed.

(** The property on the machine that is not logged in, for a backup. *)
Example main_not_logged_in :
  main not_logged_in Backup None Samples.fresh
  = (Ok tt,
     World ∅ []
       [EvToken;
        EvLog CRITICAL
          "Failed to retrieve access token: ERROR: (gcloud.auth) no credentials";
        EvLog ERROR
          "An unexpected error occurred during -> backup: Unable to retrieve access token. Ensure you are authenticated using gcloud."]).
Proof. vm_compute. reflexivity. Qed.

(** ** Reading from the service *)

(** A read that soft-fails to [fallback]: the request, the status check
    and the body of the answer, with the handler that logs the line
    [line err] and returns [fallback]. *)
Definition soft_read (call : api_call) (answer : http json)
    (line : string -> string) (fallback : json) : M json :=
  try_except
    (do response <- session_request call answer;
     do _ <- raise_for_status response;
     ret (body response))
    is_RequestException
    (fun e =>
       do _ <- logging_error (line (exn_str e));
       ret fallback).

(** What such a read returns and logs. *)
Definition soft_read_outcome (answer : http json) (line : string -> string)
    (fallback : json) : json * list event :=
  match answer with
  | Response status rsn b =>
      if (400 <=? status)%Z && (status <? 600)%Z
      then (fallback, [EvLog ERROR (line (request_error answer))])
      else (b, [])
  | NoResponse msg => (fallback, [EvLog ERROR (line (request_error answer))])
  end.

Lemma soft_read_run call answer line fallback w :
  soft_read call answer line fallback w
  = (Ok (fst (soft_read_outcome answer line fallback)),
     World (fs w) (bucket w)
       (trace w ++ EvApi call :: snd (soft_read_outcome answer line fallback))).
Proof.
  unfold soft_read, soft_read_outcome, session_request, raise_for_status.
  destruct answer as [status rsn b|msg]; mrun.
  - destruct ((400 <=? status)%Z && (status <? 600)%Z); mrun;
      by rewrite <- ?app_assoc.
  - by rewrite <- app_assoc.
Qed.

(** The lines the two readers log. *)
Definition pipelines_line (ns err : string) : string :=
  "Failed to fetch pipelines for namespace '" +:+ ns +:+ "': " +:+ err.
Definition connections_line (ns err : string) : string :=
  "Failed to fetch connections for namespace '" +:+ ns +:+ "': " +:+ err.


(** The property at a service that answers 503 for the connections of
    [ns1]. *)
Example fetch_connections_unavailable :
  let E := {|
    TODAY := "2024-12-06";
    gcloud := Ok "token";
    get_namespaces := Samples.ok (JArr [Samples.namespace_doc "ns1"]);
    get_export := Samples.ok (CZip []);
    get_drafts := fun _ => Samples.ok (JArr []);
    get_draft := fun _ _ => Samples.not_found;
    get_connections := fun _ => Response 503%Z "Service Unavailable" JNull;
    get_apps := fun _ => Samples.ok (JArr []);
    get_app := fun _ _ => Samples.not_found;
    put := fun _ => Samples.ok tt;
    gcs_error := fun _ => None;
    json_loads_text := Samples.sample_loads
  |} in
  fetch_connections E (JStr "ns1") "Bearer token" Samples.fresh
  = (Ok (JArr []),
     World ∅ []
       [EvApi (GetConnections "ns1");
        EvLog ERROR
          "Failed to fetch connections for namespace 'ns1': 503 Error: Service Unavailable"]).
Proof. vm_compute. reflexivity. Qed.

(** ** The archive, packed and unpacked *)

(** [os.makedirs] succeeds when the path is not there and nothing on the
    way to it is a file; the path is a directory then. *)
Lemma mkdir_chain_ok f pre todo :
  todo <> [] ->
  f !! (pre ++ todo) = None ->
  (forall k c, 0 < k < length todo -> f !! (pre ++ take k todo) <> Some (NFile c)) ->
  exists f', mkdir_chain f pre todo = Ok f' /\ f' !! (pre ++ todo) = Some NDir.
Proof.
  revert f pre. induction todo as [|x rest IH]; intros f pre Hne Hnew Hway; [done |].
  destruct rest as [|y rest].
  { simpl. rewrite Hnew. eexists. split; [done |]. apply lookup_insert_eq. }
  assert (Hq : forall c, f !! (pre ++ [x]) <> Some (NFile c)).
  { intros c. apply (Hway 1 c). simpl. lia. }
  assert (Hrec : forall g,
            g !! ((pre ++ [x]) ++ y :: rest) = None ->
            (forall k, 0 < k < length (y :: rest) ->
                       g !! ((pre ++ [x]) ++ take k (y :: rest))
                       = f !! (pre ++ take (S k) (x :: y :: rest))) ->
            exists f', mkdir_chain g (pre ++ [x]) (y :: rest) = Ok f' /\
                       f' !! (pre ++ x :: y :: rest) = Some NDir).
  { intros g Hg Hsame.
    destruct (IH g (pre ++ [x])) as (f' & Hc & Hd); [done | done | |].
    - intros k c Hk. rewrite (Hsame k Hk). apply Hway. simpl in *. lia.
    - exists f'. split; [done |]. by rewrite <- app_assoc in Hd. }
  cbn [mkdir_chain].
  destruct (f !! (pre ++ [x])) as [[c|]|] eqn:Hx.
  - by destruct (Hq c).
  - apply Hrec.
    + by rewrite <- app_assoc.
    + intros k Hk. by rewrite <- app_assoc.
  - apply Hrec.
    + rewrite lookup_insert_ne; [by rewrite <- app_assoc |].
      intros Heq. apply (f_equal length) in Heq.
      rewrite !length_app in Heq. cbn [length] in Heq. lia.
    + intros k Hk. rewrite lookup_insert_ne; [by rewrite <- app_assoc |].
      intros Heq. apply (f_equal length) in Heq.
      rewrite !length_app, length_take in Heq. cbn [length] in *. lia.
Qed.


(** Unpacking one file member [rel ++ [x]] into [dest], when nothing on
    the way to its folder is a file and no directory is where it goes:
    the folders that miss are made and the file is written. *)
Lemma extract_file_run dest rel (x : string) c w :
  (forall k c', 0 < k <= length (dest ++ rel) ->
                fs w !! take k (dest ++ rel) <> Some (NFile c')) ->
  fs w !! (dest ++ rel ++ [x]) <> Some NDir ->
  exists f1 evs,
    extract_member dest (rel ++ [x], Some c) w
    = (Ok tt,
       World (<[dest ++ rel ++ [x] := NFile c]> f1) (bucket w) (trace w ++ evs)) /\
    forall q,
      f1 !! q = fs w !! q \/
      (fs w !! q = None /\ f1 !! q = Some NDir /\
       exists k, q = take (S k) (dest ++ rel)).
Proof.
  intros Hway Hfree. unfold extract_member. cbn [fst snd].
  assert (Hpar : parent (dest ++ rel ++ [x]) = dest ++ rel)
    by (by rewrite app_assoc, parent_child).
  rewrite Hpar. unfold os_path_exists. mrun.
  destruct (lookup_node (fs w) (dest ++ rel)) as [n|] eqn:Hup; mrun.
  - (* the folder is there *)
    assert (Hdir : lookup_node (fs w) (dest ++ rel) = Some NDir).
    { rewrite Hup. destruct (dest ++ rel) as [|y l] eqn:Hl; [by injection Hup as <- |].
      destruct n as [c'|]; [| done]. simpl in Hup.
      destruct (Hway (length (y :: l)) c'); [simpl; lia |].
      by rewrite firstn_all. }
    rewrite write_file_run.
    + exists (fs w), [EvWrite ByExtract (dest ++ rel ++ [x])].
      split; [done |]. intros q. by left.
    + rewrite app_assoc. apply child_nonempty.
    + by rewrite Hpar.
    + done.
  - (* the folder is made *)
    assert (Hne : dest ++ rel <> []) by (by destruct (dest ++ rel)).
    rewrite lookup_node_nonempty in Hup by done.
    destruct (mkdir_chain_ok (fs w) [] (dest ++ rel)) as (f1 & Hc & Hd);
      [done | done | |].
    { intros k c' Hk. apply Hway. lia. }
    rewrite os_makedirs_run, Hc. mrun.
    pose proof (mkdir_chain_lookup _ _ _ _ (dest ++ rel ++ [x]) Hc) as Htarget.
    rewrite write_file_run.
    + exists f1, [EvMakedirs (dest ++ rel); EvWrite ByExtract (dest ++ rel ++ [x])].
      split; [cbn [fs bucket trace]; by rewrite <- app_assoc |].
      intros q. exact (mkdir_chain_lookup _ _ _ _ q Hc).
    + rewrite app_assoc. apply child_nonempty.
    + rewrite Hpar. cbn [fs]. by rewrite lookup_node_nonempty.
    + cbn [fs]. destruct Htarget as [->|(_ & _ & k & Heq)]; [done |].
      apply (f_equal length) in Heq. simpl app in Heq.
      rewrite length_take, !length_app in Heq. cbn [length] in Heq. lia.
Qed.


(** The members are files, none at the root of the archive. *)
Definition file_members (ms : archive) : Prop :=
  forall m, m ∈ ms -> fst m <> [] /\ exists c, snd m = Some c.

(** No member is found on the way to another, nor twice with two
    contents. *)
Definition prefix_free (ms : archive) : Prop :=
  forall m m' k, m ∈ ms -> m' ∈ ms -> fst m' = fst m ++ k -> m = m'.

(** The target folder [dest] while the members [done] are unpacked into
    it: nothing on the way to [dest] is a file, and below [dest] there
    are the files of [done] and the folders on the way to them, nothing
    else. *)
Definition unpacked_into (dest : path) (g : gmap path node) (done : archive)
  : Prop :=
  (forall k c, 0 < k <= length dest -> g !! take k dest <> Some (NFile c)) /\
  (forall q n, q <> [] -> g !! (dest ++ q) = Some n ->
     (exists c, n = NFile c /\ (q, Some c) ∈ done) \/
     (n = NDir /\ exists m y k, m ∈ done /\ fst m = q ++ y :: k)) /\
  (forall rel c, (rel, Some c) ∈ done -> g !! (dest ++ rel) = Some (NFile c)).

Lemma take_app_below (dest rel q : path) n :
  take n (dest ++ rel) = dest ++ q -> q = take (n - length dest) rel.
Proof.
  rewrite take_app. intros Heq.
  destruct (decide (n < length dest)) as [Hlt|Hge].
  - apply (f_equal length) in Heq.
    rewrite !length_app, !length_take in Heq. lia.
  - rewrite take_ge in Heq by lia. by apply app_inv_head in Heq.
Qed.

Lemma take_app_above (dest rel : path) n :
  n <= length dest -> take n (dest ++ rel) = take n dest.
Proof.
  intros Hle. rewrite take_app.
  replace (n - length dest) with 0 by lia. by rewrite take_0, app_nil_r.
Qed.

Lemma extract_members_run dest rest :
  forall done w,
    file_members (done ++ rest) -> prefix_free (done ++ rest) ->
    unpacked_into dest (fs w) done ->
    exists w',
      for_each rest (extract_member dest) w = (Ok tt, w') /\
      unpacked_into dest (fs w') (done ++ rest) /\
      bucket w' = bucket w /\
      (forall p, (forall q, p <> dest ++ q) -> (forall k, p <> take k dest) ->
                 fs w' !! p = fs w !! p).
Proof.
  induction rest as [|m rest IH]; intros done w Hfiles Hfree Hinv.
  { exists w. rewrite app_nil_r. by split_and!. }
  destruct m as [mpath oc].
  destruct (Hfiles (mpath, oc)) as [Hne [c Hc]];
    [apply elem_of_app; right; in_list |].
  simpl in Hne, Hc. subst oc.
  destruct (exists_last Hne) as (rel & x & ->).
  set (m := (rel ++ [x], Some c)) in *.
  assert (Hm : m ∈ done ++ m :: rest) by (apply elem_of_app; right; in_list).
  assert (Hdone : forall m', m' ∈ done -> m' ∈ done ++ m :: rest)
    by (intros m' Hm'; apply elem_of_app; by left).
  destruct Hinv as (Hway & Hbelow & Hthere).
  destruct (extract_file_run dest rel x c w) as (f1 & evs & Hrun & Hf1).
  { intros k c' Hk Hfile.
    destruct (decide (k <= length dest)) as [Hle|Hgt].
    - rewrite take_app_above in Hfile by done. apply (Hway k c'); [lia | done].
    - rewrite take_app, take_ge in Hfile by lia.
      rewrite length_app in Hk.
      destruct (Hbelow (take (k - length dest) rel) (NFile c')) as
        [(c2 & [= <-] & Hin)|(Hdir & _)]; [| done | | done].
      { intros Hnil. apply (f_equal length) in Hnil.
        rewrite length_take in Hnil. simpl in Hnil. lia. }
      assert (Heq : (take (k - length dest) rel, Some c') = m).
      { apply (Hfree _ _ (drop (k - length dest) rel ++ [x])); [by apply Hdone | done |].
        simpl. by rewrite app_assoc, take_drop. }
      injection Heq as Heq _. apply (f_equal length) in Heq.
      rewrite length_take, length_app in Heq. cbn [length] in Heq. lia. }
  { intros Hdir.
    destruct (Hbelow (rel ++ [x]) NDir) as
      [(c2 & Hc2 & _)|(_ & m' & y & k & Hm' & Hpath)];
      [apply child_nonempty | done | done |].
    assert (Heq : m = m') by (by apply (Hfree _ _ (y :: k)); [| apply Hdone |]).
    subst m'. simpl in Hpath. apply (f_equal length) in Hpath.
    rewrite !length_app in Hpath. cbn [length] in Hpath. lia. }
  set (w1 := World (<[dest ++ rel ++ [x] := NFile c]> f1) (bucket w)
               (trace w ++ evs)) in *.
  assert (Hinv1 : unpacked_into dest (fs w1) (done ++ [m])).
  { subst w1. cbn [fs]. split_and!.
    - intros k c' Hk. rewrite lookup_insert_ne.
      + destruct (Hf1 (take k dest)) as [->|(_ & -> & _)]; [by apply Hway | done].
      + intros Heq. apply (f_equal length) in Heq.
        rewrite length_take, !length_app in Heq. cbn [length] in Heq. lia.
    - intros q n Hq Hn.
      destruct (decide (dest ++ rel ++ [x] = dest ++ q)) as [Heq|Hdiff].
      + apply app_inv_head in Heq. subst q. rewrite lookup_insert_eq in Hn.
        injection Hn as <-. left. exists c. split; [done |].
        apply elem_of_app. right. in_list.
      + rewrite lookup_insert_ne in Hn by done.
        destruct (Hf1 (dest ++ q)) as [Hsame|(_ & Hnew & k & Hk)].
        * rewrite Hsame in Hn.
          destruct (Hbelow q n Hq Hn) as [(c2 & -> & Hin)|(-> & m' & y & k & Hm' & Hp)].
          -- left. exists c2. split; [done |]. apply elem_of_app. by left.
          -- right. split; [done |]. exists m', y, k.
             split; [apply elem_of_app; by left | done].
        * rewrite Hnew in Hn. injection Hn as <-. right. split; [done |].
          symmetry in Hk. apply take_app_below in Hk.
          destruct (drop (S k - length dest) rel ++ [x]) as [|y l] eqn:Hrest;
            [by apply app_eq_nil in Hrest as [_ ?] |].
          exists m, y, l. split; [apply elem_of_app; right; in_list |].
          simpl. rewrite <- Hrest, app_assoc, Hk. by rewrite take_drop.
    - intros rel' c' Hin. apply elem_of_app in Hin as [Hin|Hin].
      + destruct (decide (dest ++ rel ++ [x] = dest ++ rel')) as [Heq|Hdiff].
        * apply app_inv_head in Heq. subst rel'.
          assert (Heq : (rel ++ [x], Some c') = m).
          { apply (Hfree _ _ []); [by apply Hdone | done |].
            simpl. by rewrite app_nil_r. }
          injection Heq as <-. apply lookup_insert_eq.
        * rewrite lookup_insert_ne by done.
          pose proof (Hthere rel' c' Hin) as Hold.
          destruct (Hf1 (dest ++ rel')) as [->|(Hnone & _)]; [done |].
          by rewrite Hnone in Hold.
      + apply list_elem_of_singleton in Hin. injection Hin as -> ->.
        apply lookup_insert_eq. }
  destruct (IH (done ++ [m]) w1) as (w' & Hloop & Hinv' & Hb & Hframe).
  { by rewrite <- app_assoc. }
  { by rewrite <- app_assoc. }
  { done. }
  exists w'. split_and!.
  - cbn [for_each]. by erewrite bind_ok by exact Hrun.
  - by rewrite <- app_assoc in Hinv'.
  - by rewrite Hb.
  - intros p Hp Hp'. rewrite Hframe by done. subst w1. cbn [fs].
    rewrite lookup_insert_ne by (by intros Heq; apply (Hp (rel ++ [x]))).
    destruct (Hf1 p) as [->|(_ & _ & k & Hk)]; [done |].
    destruct (decide (S k <= length dest)) as [Hle|Hgt].
    + rewrite take_app_above in Hk by done. by destruct (Hp' (S k)).
    + rewrite take_app, take_ge in Hk by lia. by destruct (Hp (take (S k - length dest) rel)).
Qed.


(** The file system is a tree: above every node there are directories
    only. *)
Definition ancestors_are_dirs (f : gmap path node) (p : path) : bool :=
  forallb (fun k => is_dir f (take k p)) (seq 1 (length p - 1)).

Definition tree (f : gmap path node) : bool :=
  forallb (fun pn => ancestors_are_dirs f (fst pn)) (map_to_list f).

(** Nothing is below [dest], and nothing on the way to [dest], [dest]
    included, is a file. *)
Definition vacant (f : gmap path node) (dest : path) : bool :=
  forallb (fun pn =>
             match strip_prefix dest (fst pn) with
             | Some (_ :: _) => false
             | _ => true
             end) (map_to_list f)
  && forallb (fun k => negb (is_file f (take k dest))) (seq 1 (length dest)).

Lemma tree_spec f p n k :
  tree f = true -> f !! p = Some n -> 0 < k < length p ->
  f !! take k p = Some NDir.
Proof.
  unfold tree, ancestors_are_dirs. rewrite forallb_forall.
  intros Htree Hp Hk.
  specialize (Htree (p, n)). rewrite forallb_forall in Htree.
  apply is_dir_true, Htree.
  - apply list_elem_of_In. by apply elem_of_map_to_list.
  - apply in_seq. simpl. lia.
Qed.

Lemma vacant_spec f dest :
  vacant f dest = true ->
  (forall q, q <> [] -> f !! (dest ++ q) = None) /\
  (forall k c, 0 < k <= length dest -> f !! take k dest <> Some (NFile c)).
Proof.
  unfold vacant. rewrite andb_true_iff, !forallb_forall. intros [Hbelow Hway].
  split.
  - intros q Hq. destruct (f !! (dest ++ q)) as [n|] eqn:Hn; [| done].
    specialize (Hbelow (dest ++ q, n)). simpl in Hbelow.
    rewrite strip_prefix_app in Hbelow. destruct q; [done |].
    discriminate Hbelow. apply list_elem_of_In. by apply elem_of_map_to_list.
  - intros k c Hk Hfile. specialize (Hway k). unfold is_file in Hway.
    rewrite Hfile in Hway. discriminate Hway. apply in_seq. lia.
Qed.

(** The archive of a folder of a tree: files, and none on the way to
    another. *)
Lemma files_under_file_members f folder : file_members (files_under f folder).
Proof.
  intros m Hm. apply files_under_member in Hm as (x & rel & c & -> & _).
  split; [done | by exists c].
Qed.

Lemma files_under_prefix_free f folder :
  tree f = true -> prefix_free (files_under f folder).
Proof.
  intros Htree m m' k Hm Hm' Hpath.
  apply files_under_member in Hm as (x & rel & c & -> & Hfile).
  apply files_under_member in Hm' as (x' & rel' & c' & -> & Hfile').
  simpl in Hpath. rewrite Hpath in Hfile' |- *.
  destruct k as [|y k].
  - rewrite app_nil_r in Hfile' |- *. congruence.
  - change (x :: rel ++ y :: k) with ((x :: rel) ++ y :: k) in Hfile'.
    rewrite app_assoc in Hfile'.
    pose proof (tree_spec f _ _ (length (folder ++ x :: rel)) Htree Hfile') as Hdir.
    rewrite take_app_length, Hfile in Hdir. discriminate Hdir.
    rewrite !length_app. cbn [length]. lia.
Qed.




(** ** The name of the dated archive *)

(** Character [a] occurs in [s]. *)
Fixpoint occurs (a : Ascii.ascii) (s : string) : bool :=
  match s with
  | EmptyString => false
  | String b r => Ascii.eqb b a || occurs a r
  end.

(** One step of [+:+] on a string that starts with a character. *)
Ltac app_step := unfold String.append; fold String.append.

Lemma string_app_assoc (a b c : string) : (a +:+ b) +:+ c = a +:+ (b +:+ c).
Proof. induction a as [|x a IH]; [done |]. app_step. by rewrite IH. Qed.

Lemma string_app_nil_r (a : string) : a +:+ "" = a.
Proof. induction a as [|x a IH]; [done |]. app_step. by rewrite IH. Qed.

Lemma string_rev_acc_app s acc : string_rev_acc s acc = string_rev s +:+ acc.
Proof.
  unfold string_rev. revert acc.
  induction s as [|a s IH]; intros acc; [done |].
  simpl. rewrite (IH (String a "")), (IH (String a acc)).
  by rewrite string_app_assoc.
Qed.

Lemma string_rev_app (a b : string) :
  string_rev (a +:+ b) = string_rev b +:+ string_rev a.
Proof.
  induction a as [|x a IH].
  - app_step. by rewrite string_app_nil_r.
  - unfold string_rev in *. app_step. simpl.
    rewrite (string_rev_acc_app (a +:+ b)), (string_rev_acc_app a).
    unfold string_rev. rewrite IH. apply string_app_assoc.
Qed.

Lemma string_rev_involutive (s : string) : string_rev (string_rev s) = s.
Proof.
  induction s as [|x s IH]; [done |].
  change (String x s) with (String x "" +:+ s) at 1.
  rewrite string_rev_app, string_rev_app. by rewrite IH.
Qed.

Lemma occurs_app a (s t : string) : occurs a (s +:+ t) = occurs a s || occurs a t.
Proof. induction s as [|x s IH]; [done |]. app_step. simpl. by rewrite IH, orb_assoc. Qed.

Lemma occurs_rev a (s : string) : occurs a (string_rev s) = occurs a s.
Proof.
  induction s as [|x s IH]; [done |].
  change (String x s) with (String x "" +:+ s) at 1.
  rewrite string_rev_app, occurs_app, IH. simpl.
  rewrite orb_false_r. apply orb_comm.
Qed.

Lemma before_first_sep sep (x y : string) :
  occurs sep x = false -> before_first sep (x +:+ String sep y) = x.
Proof.
  induction x as [|a x IH]; app_step; simpl.
  - by rewrite Ascii.eqb_refl.
  - intros [Ha Hx]%orb_false_iff. rewrite Ha. by rewrite IH.
Qed.

Lemma after_last_sep sep (x y : string) :
  occurs sep y = false -> after_last sep (x +:+ String sep y) = y.
Proof.
  intros Hy. unfold after_last.
  change (String sep y) with (String sep "" +:+ y).
  rewrite !string_rev_app, string_app_assoc.
  change (string_rev (String sep "") +:+ string_rev x)
    with (String sep (string_rev x)).
  rewrite before_first_sep by (by rewrite occurs_rev).
  apply string_rev_involutive.
Qed.

Lemma prefix_app (a b : string) : String.prefix a (a +:+ b) = true.
Proof.
  induction a as [|x a IH]; [by destruct b |].
  app_step. simpl. destruct (Ascii.ascii_dec x x); [done | done].
Qed.

Lemma endswith_app (a b : string) : endswith (a +:+ b) b = true.
Proof. unfold endswith. rewrite string_rev_app. apply prefix_app. Qed.

(** X4: the dated archive of a backup is found again by its date.  When
    the date of the day has neither a slash nor an underscore in it (the
    format [%Y-%m-%d] has none), the blob that the backup stores in the
    archive folder is listed under that folder, counts as a zip file,
    and the version that the restore reads off its name is the date; so
    that a restore asking for that date finds an archive with it in any
    listing that has this blob. *)
Theorem dated_archive_is_found_by_its_date (E : env)
    (zips : list (string * content)) (c : content) :
  occurs "/" (TODAY E) = false ->
  occurs "_" (TODAY E) = false ->
  startswith (history_blob E) GCS_ARCHIVE_FOLDER = true /\
  endswith (history_blob E) ".zip" = true /\
  zip_version (history_blob E) = TODAY E /\
  ((history_blob E, c) ∈ zips ->
   exists blob,
     List.find (fun blob => String.eqb (zip_version (fst blob)) (TODAY E)) zips
     = Some blob /\
     zip_version (fst blob) = TODAY E).
Proof.
  intros Hslash Hunder.
  assert (Hv : zip_version (history_blob E) = TODAY E).
  { unfold zip_version, history_blob, ZIPFILE_NAME.
    change (GCS_ARCHIVE_FOLDER +:+ "/" +:+ TODAY E +:+ "_backup.zip")
      with (GCS_ARCHIVE_FOLDER +:+ String "/" (TODAY E +:+ String "_" "backup.zip")).
    rewrite after_last_sep.
    - by apply before_first_sep.
    - rewrite occurs_app, Hslash. reflexivity. }
  split_and!.
  - apply prefix_app.
  - unfold history_blob, ZIPFILE_NAME.
    change (GCS_ARCHIVE_FOLDER +:+ "/" +:+ TODAY E +:+ "_backup.zip")
      with (GCS_ARCHIVE_FOLDER +:+ ("/" +:+ (TODAY E +:+ ("_backup" +:+ ".zip")))).
    rewrite <- !string_app_assoc. apply endswith_app.
  - done.
  - intros Hin.
    destruct (List.find (fun blob => String.eqb (zip_version (fst blob)) (TODAY E))
                zips) as [blob|] eqn:Hfind.
    + exists blob. split; [done |].
      apply find_some in Hfind as [_ Heq]. by apply String.eqb_eq in Heq.
    + apply list_elem_of_In in Hin.
      pose proof (find_none _ _ Hfind _ Hin) as Hno. simpl in Hno.
      rewrite Hv, String.eqb_refl in Hno. done.
Qed.

Lemma dated_archive_is_found_by_its_date_witness :
  startswith (history_blob Samples.one_connection) GCS_ARCHIVE_FOLDER = true /\
  endswith (history_blob Samples.one_connection) ".zip" = true /\
  zip_version (history_blob Samples.one_connection) = "2024-12-06" /\
  (("cdf/archive/2024-12-06_backup.zip", CZip []) ∈
     [("cdf/archive/2024-12-05_backup.zip", CZip []);
      ("cdf/archive/2024-12-06_backup.zip", CZip [])] ->
   exists blob,
     List.find (fun blob => String.eqb (zip_version (fst blob)) "2024-12-06")
       [("cdf/archive/2024-12-05_backup.zip", CZip []);
        ("cdf/archive/2024-12-06_backup.zip", CZip [])]
     = Some blob /\
     zip_version (fst blob) = "2024-12-06").
Proof.
  apply (dated_archive_is_found_by_its_date Samples.one_connection
           [("cdf/archive/2024-12-05_backup.zip", CZip []);
            ("cdf/archive/2024-12-06_backup.zip", CZip [])] (CZip []));
    reflexivity.
Defined.

(** ** The files of a namespace, sorted by their names *)

(** The three groups of the restore as filters of a listing: among the
    entries that are files, those whose name starts with [conn], of the
    others those whose name starts with [draft], and the rest. *)
Definition conns_of (f : gmap path node) (dir : path) (files : list string)
  : list string :=
  List.filter (fun file => is_file f (dir ++ [file]) && startswith file "conn")
    files.

Definition drafts_of (f : gmap path node) (dir : path) (files : list string)
  : list string :=
  List.filter (fun file => is_file f (dir ++ [file])
                           && negb (startswith file "conn")
                           && startswith file "draft") files.

Definition apps_of (f : gmap path node) (dir : path) (files : list string)
  : list string :=
  List.filter (fun file => is_file f (dir ++ [file])
                           && negb (startswith file "conn")
                           && negb (startswith file "draft")) files.

Lemma classify_run dir files acc w :
  for_fold files acc (classify_file dir) w
  = (Ok (Classified (conn_files acc ++ conns_of (fs w) dir files)
           (pipeline_files acc ++ drafts_of (fs w) dir files)
           (deployed_apps acc ++ apps_of (fs w) dir files)),
     w).
Proof.
  revert acc. induction files as [|file files IH]; intros [cs ds aps].
  { simpl. by rewrite !app_nil_r. }
  cbn [for_fold]. unfold classify_file at 1, os_path_isfile. mrun.
  rewrite lookup_node_nonempty by apply child_nonempty.
  unfold conns_of, drafts_of, apps_of, is_file. cbn [List.filter].
  destruct (fs w !! (dir ++ [file])) as [[c|]|]; cbn [andb negb];
    [| mrun; by rewrite IH | mrun; by rewrite IH].
  destruct (startswith file "conn"); cbn [andb negb].
  { mrun. rewrite IH. cbn [conn_files pipeline_files deployed_apps].
    by rewrite <- app_assoc. }
  destruct (startswith file "draft"); cbn [andb negb]; mrun; rewrite IH;
    cbn [conn_files pipeline_files deployed_apps]; by rewrite <- app_assoc.
Qed.

(** X5: how the restore sorts the files of a namespace folder.  The
    loop never fails and changes nothing; it leaves out the entries that
    are no files, takes every file whose name starts with [conn] for a
    connection, whatever it holds, every other file whose name starts
    with [draft] for a draft, and all the rest for exported apps.  The
    names the backup gives ([conn_], [draft_] and [app_] before the name
    of the thing) fall into the group they are meant for. *)
Theorem files_sorted_by_name (dir : path) (files : list string) (w : world) :
  let conns := conns_of (fs w) dir files in
  let drafts := drafts_of (fs w) dir files in
  let apps := apps_of (fs w) dir files in
  for_fold files (Classified [] [] []) (classify_file dir) w
  = (Ok (Classified conns drafts apps), w) /\
  (forall file,
      file ∈ files -> is_file (fs w) (dir ++ [file]) = true ->
      forall s,
        (file = "conn_" +:+ s -> file ∈ conns) /\
        (file = "draft_" +:+ s -> file ∈ drafts) /\
        (file = "app_" +:+ s -> file ∈ apps)) /\
  (forall file,
      file ∈ conns ++ drafts ++ apps ->
      file ∈ files /\ is_file (fs w) (dir ++ [file]) = true).
Proof.
  intros conns drafts apps. split_and!.
  - by rewrite classify_run.
  - intros file Hin Hfile s.
    apply list_elem_of_In in Hin.
    split_and!; intros ->; apply list_elem_of_In, filter_In;
      (split; [done |]); by rewrite Hfile.
  - intros file Hin.
    rewrite !elem_of_app in Hin.
    destruct Hin as [Hin|[Hin|Hin]];
      apply list_elem_of_In, filter_In in Hin as [Hin Hf];
      rewrite <- list_elem_of_In in Hin;
      (split; [done |]);
      repeat (apply andb_true_iff in Hf as [Hf _]); done.
Qed.


(** ** What the restore sends for a namespace *)

Lemma read_from_file_run p j w :
  p <> [] -> fs w !! p = Some (NFile (CJson j)) -> read_from_file p w = (Ok j, w).
Proof.
  intros Hp Hfile. unfold read_from_file, json_load, read_file. mrun.
  rewrite lookup_node_nonempty by done. by rewrite Hfile.
Qed.

Lemma api_calls_app evs evs' : api_calls (evs ++ evs') = api_calls evs ++ api_calls evs'.
Proof. apply omap_app. Qed.

(** A run that only adds the events [evs], among them the requests
    [calls], and returns normally. *)
Definition sends (m : M unit) (w : world) (calls : list api_call) : Prop :=
  exists evs,
    m w = (Ok tt, World (fs w) (bucket w) (trace w ++ evs)) /\
    api_calls evs = calls.

Lemma sends_for_each {A} (l : list A) body (calls : A -> list api_call) w :
  (forall x w1, x ∈ l -> fs w1 = fs w -> sends (body x) w1 (calls x)) ->
  sends (for_each l body) w (flat_map calls l).
Proof.
  revert w. induction l as [|x l IH]; intros w Hbody.
  { exists []. by rewrite app_nil_r; destruct w. }
  destruct (Hbody x w) as (evs & Hrun & Hcalls); [in_list | done |].
  destruct (IH (World (fs w) (bucket w) (trace w ++ evs))) as (evs' & Hrun' & Hcalls').
  { intros y w1 Hy Hfs. apply Hbody; [in_list | done]. }
  exists (evs ++ evs'). split.
  - cbn [for_each]. erewrite bind_ok by exact Hrun. rewrite Hrun'.
    cbn [fs bucket trace]. by rewrite <- app_assoc.
  - rewrite api_calls_app, Hcalls, Hcalls'. done.
Qed.

(** The document a file of the folder holds. *)
Definition doc_of (f : gmap path node) (dir : path) (file : string)
  : option json :=
  match f !! (dir ++ [file]) with
  | Some (NFile (CJson j)) => Some j
  | _ => None
  end.

(** The file holds a document that has the keys [keys]. *)
Definition has_keys (f : gmap path node) (dir : path) (keys : list string)
    (file : string) : bool :=
  match doc_of f dir file with
  | Some doc => forallb (fun k => negb (is_Raise (py_getitem doc k))) keys
  | None => false
  end.

(** The request for an exported app, if its document is a dict; the one
    for a connection; the one for a draft, if it has an id, and after it
    the requests for the connections [conns]. *)
Definition app_calls (name : string) (f : gmap path node) (dir : path)
    (file : string) : list api_call :=
  match doc_of f dir file with
  | Some doc =>
      match py_get doc "name" with
      | Ok app_name => [PutApp name (py_str app_name) doc]
      | Raise _ => []
      end
  | None => []
  end.

Definition connection_calls (name : string) (f : gmap path node) (dir : path)
    (file : string) : list api_call :=
  match doc_of f dir file with
  | Some doc =>
      match py_getitem doc "name" with
      | Ok connection_name => [PutConnection name (py_str connection_name) doc]
      | Raise _ => []
      end
  | None => []
  end.

Definition draft_calls (name : string) (f : gmap path node) (dir : path)
    (conns : list string) (file : string) : list api_call :=
  match doc_of f dir file with
  | Some doc =>
      match py_getitem doc "id" with
      | Ok draft_id => [PutDraft name (py_str draft_id) doc]
      | Raise _ => []
      end
  | None => []
  end ++ flat_map (connection_calls name f dir) conns.

(** The run adds [evs] to the trace. *)
Ltac adds_events :=
  eexists; split; [rewrite <- ?app_assoc; reflexivity | reflexivity].

Lemma restore_app_sends E headers name dir app w :
  has_keys (fs w) dir [] app = true ->
  sends (restore_app E headers name dir app) w (app_calls name (fs w) dir app).
Proof.
  unfold has_keys, app_calls, doc_of, sends. intros Hdoc.
  destruct (fs w !! (dir ++ [app])) as [[[j| |]|]|] eqn:Hfile; try done.
  unfold restore_app.
  erewrite bind_ok by (apply read_from_file_run; [apply child_nonempty | done]).
  unfold session_request, raise_for_status.
  destruct (py_get j "name") as [v|e]; mrun; [| adds_events].
  destruct (put E _) as [status rsn b|msg]; mrun; [| adds_events].
  destruct ((400 <=? status)%Z && (status <? 600)%Z); mrun; adds_events.
Qed.

Lemma restore_connection_sends E headers name dir blob w :
  has_keys (fs w) dir ["name"] blob = true ->
  sends (restore_connection E headers name dir blob) w
    (connection_calls name (fs w) dir blob).
Proof.
  unfold has_keys, connection_calls, doc_of, sends. intros Hdoc.
  destruct (fs w !! (dir ++ [blob])) as [[[j| |]|]|] eqn:Hfile; try done.
  unfold restore_connection.
  erewrite bind_ok by (apply read_from_file_run; [apply child_nonempty | done]).
  unfold session_request, raise_for_status. simpl in Hdoc.
  destruct (py_getitem j "name") as [v|e]; [| done]. mrun.
  destruct (put E _) as [status rsn b|msg]; mrun; [| adds_events].
  destruct ((400 <=? status)%Z && (status <? 600)%Z); mrun; adds_events.
Qed.

Lemma restore_pipeline_sends E headers name dir conns blob w :
  has_keys (fs w) dir ["name"] blob = true ->
  forallb (has_keys (fs w) dir ["name"]) conns = true ->
  sends (restore_pipeline E headers name dir conns blob) w
    (draft_calls name (fs w) dir conns blob).
Proof.
  intros Hdoc Hconns.
  assert (Hloop : forall w1, fs w1 = fs w ->
            sends (for_each conns (restore_connection E headers name dir)) w1
              (flat_map (connection_calls name (fs w) dir) conns)).
  { intros w1 Hfs. apply sends_for_each. intros file w2 Hin Hfs2.
    rewrite <- Hfs, <- Hfs2. apply restore_connection_sends.
    rewrite Hfs2, Hfs. rewrite forallb_forall in Hconns.
    by apply Hconns, list_elem_of_In. }
  assert (Hdraft : exists evs,
            api_calls evs
            = match doc_of (fs w) dir blob with
              | Some doc =>
                  match py_getitem doc "id" with
                  | Ok draft_id => [PutDraft name (py_str draft_id) doc]
                  | Raise _ => []
                  end
              | None => []
              end /\
            restore_pipeline E headers name dir conns blob w
            = for_each conns (restore_connection E headers name dir)
                (World (fs w) (bucket w) (trace w ++ evs))).
  { unfold has_keys, doc_of in *.
    destruct (fs w !! (dir ++ [blob])) as [[[j| |]|]|] eqn:Hfile; try done.
    unfold restore_pipeline.
    erewrite bind_ok by (apply read_from_file_run; [apply child_nonempty | done]).
    unfold session_request, raise_for_status. simpl in Hdoc.
    destruct (py_getitem j "name") as [shown|e] eqn:Hshown; [| done].
    destruct (py_getitem j "id") as [v|e]; mrun; rewrite ?Hshown; mrun.
    - destruct (put E _) as [status rsn b|msg]; mrun; rewrite ?Hshown; mrun.
      + destruct ((400 <=? status)%Z && (status <? 600)%Z); mrun;
          rewrite ?Hshown; mrun;
          (eexists; split; [| rewrite <- ?app_assoc; reflexivity]; reflexivity).
      + eexists; split; [| rewrite <- ?app_assoc; reflexivity]; reflexivity.
    - eexists; split; [| rewrite <- ?app_assoc; reflexivity]; reflexivity. }
  destruct Hdraft as (evs & Hcalls & Hrun).
  destruct (Hloop (World (fs w) (bucket w) (trace w ++ evs)) eq_refl)
    as (evs' & Hrun' & Hcalls').
  exists (evs ++ evs'). split.
  - rewrite Hrun, Hrun'. cbn [fs bucket trace]. by rewrite <- app_assoc.
  - unfold draft_calls. by rewrite api_calls_app, Hcalls, Hcalls'.
Qed.

(** Every file of the folder can be read as the restore reads it: it
    holds a document, and the drafts and the connections have a name. *)
Definition restorable (f : gmap path node) (dir : path) : bool :=
  let files := children f dir in
  forallb (has_keys f dir []) (apps_of f dir files)
  && forallb (has_keys f dir ["name"]) (drafts_of f dir files)
  && forallb (has_keys f dir ["name"]) (conns_of f dir files).

(** The requests of the restore for the namespace whose folder is
    [dir]. *)
Definition namespace_calls (name : string) (namespace : json)
    (f : gmap path node) (dir : path) : list api_call :=
  let files := children f dir in
  (if String.eqb name "default" then [] else [PutNamespace name namespace])
  ++ flat_map (app_calls name f dir) (apps_of f dir files)
  ++ flat_map (draft_calls name f dir (conns_of f dir files))
       (drafts_of f dir files).

(** An archive unpacked where the restore works: the namespace [ns1]
    with an exported app, two drafts and a connection. *)
Definition unpacked_ns1 : world :=
  World
    (list_to_map
       [(["restore"], NDir);
        (["restore"; "backup"], NDir);
        (["restore"; "backup"; "namespaces.json"],
         NFile (CJson (JArr [Samples.namespace_doc "ns1"])));
        (["restore"; "backup"; "ns1"], NDir);
        (["restore"; "backup"; "ns1"; "app_etl.json"],
         NFile (CJson (JObj [("name", JStr "etl")])));
        (["restore"; "backup"; "ns1"; "draft_p1.json"],
         NFile (CJson (JObj [("id", JStr "d1"); ("name", JStr "p1")])));
        (["restore"; "backup"; "ns1"; "draft_p2.json"],
         NFile (CJson (JObj [("id", JStr "d2"); ("name", JStr "p2")])));
        (["restore"; "backup"; "ns1"; "conn_c1.json"],
         NFile (CJson (JObj [("name", JStr "c1")])))])
    [] [].

(** A service that refuses to create namespaces. *)
Definition creation_refused : env := {|
  TODAY := "2024-12-06";
  gcloud := Ok "token";
  get_namespaces := Samples.ok (JArr [Samples.namespace_doc "ns1"]);
  get_export := Samples.ok (CZip []);
  get_drafts := fun _ => Samples.ok (JArr []);
  get_draft := fun _ _ => Samples.not_found;
  get_connections := fun _ => Samples.ok (JArr []);
  get_apps := fun _ => Samples.ok (JArr []);
  get_app := fun _ _ => Samples.not_found;
  put := fun c =>
    match c with
    | PutNamespace _ _ => Response 403%Z "Forbidden" tt
    | _ => Samples.ok tt
    end;
  gcs_error := fun _ => None;
  json_loads_text := Samples.sample_loads
|}.

(** X6: a namespace that cannot be created is skipped, and the restore
    goes on.  When the request that creates a namespace other than
    [default] gets no answer or a status from 400 to 599, the restore
    logs one error, sends nothing else for that namespace, touches
    neither files nor bucket, and continues with the namespaces that
    follow in the listing. *)
Theorem uncreated_namespace_is_skipped (E : env) (headers : string)
    (zip_blob_path : path) (namespace : json) (name : string)
    (rest : list json) (w : world) :
  py_getitem namespace "name" = Ok (JStr name) ->
  name <> "default" ->
  lookup_node (fs w) (zip_blob_path ++ [name]) = Some NDir ->
  soft_fails (put E (PutNamespace name namespace)) ->
  for_each (namespace :: rest) (restore_namespace E headers zip_blob_path) w
  = for_each rest (restore_namespace E headers zip_blob_path)
      (World (fs w) (bucket w)
         (trace w ++
            [EvApi (PutNamespace name namespace);
             EvLog ERROR
               ("Failed to recreate namespace '" +:+ name +:+ "': "
                  +:+ request_error (put E (PutNamespace name namespace)))])).
Proof.
  intros Hname Hnd Hdir Hfail. cbn [for_each].
  erewrite bind_ok; [done |].
  unfold restore_namespace. rewrite Hname. mstep mrefl. mstep mrefl.
  mstep ltac:(by apply os_listdir_run). mstep ltac:(apply classify_run).
  apply String.eqb_neq in Hnd. rewrite Hnd.
  unfold session_request, raise_for_status.
  destruct (put E _) as [status rsn b|msg]; simpl in Hfail; mrun.
  - rewrite (proj2 (Z.leb_le 400 status)) by lia.
    rewrite (proj2 (Z.ltb_lt status 600)) by lia. mrun.
    by rewrite <- app_assoc.
  - by rewrite <- app_assoc.
Qed.

Lemma uncreated_namespace_is_skipped_witness :
  for_each [Samples.namespace_doc "ns1"]
    (restore_namespace creation_refused "Bearer token" ["restore"; "backup"])
    unpacked_ns1
  = (Ok tt,
     World (fs unpacked_ns1) []
       [EvApi (PutNamespace "ns1" (Samples.namespace_doc "ns1"));
        EvLog ERROR "Failed to recreate namespace 'ns1': 403 Error: Forbidden"]).
Proof.
  apply (uncreated_namespace_is_skipped creation_refused "Bearer token"
           ["restore"; "backup"] (Samples.namespace_doc "ns1") "ns1" []
           unpacked_ns1).
  - reflexivity.
  - discriminate.
  - vm_compute. reflexivity.
  - simpl. lia.
Defined.

(** X7: the requests of the restore for one namespace.  When the folder
    of the namespace is there, every file in it can be read and the
    request that creates the namespace is answered well, the restore of
    the namespace returns normally whatever the service answers to the
    other requests, changes neither files nor bucket, and has sent: the
    request for the namespace (none for [default]); one request for each
    exported app whose document is a dict; and for each draft the
    request for the draft, if it has an id, followed by the requests for
    all connections of the namespace, so that the connections are sent
    once for each draft. *)
Theorem restore_namespace_requests (E : env) (headers : string)
    (zip_blob_path : path) (namespace : json) (name : string) (w : world) :
  py_getitem namespace "name" = Ok (JStr name) ->
  lookup_node (fs w) (zip_blob_path ++ [name]) = Some NDir ->
  (name <> "default" -> ~ soft_fails (put E (PutNamespace name namespace))) ->
  restorable (fs w) (zip_blob_path ++ [name]) = true ->
  let r := restore_namespace E headers zip_blob_path namespace w in
  fst r = Ok tt /\
  fs (snd r) = fs w /\
  bucket (snd r) = bucket w /\
  api_calls (new_events w (snd r))
  = namespace_calls name namespace (fs w) (zip_blob_path ++ [name]).
Proof.
  intros Hname Hdir Hput Hall.
  set (dir := zip_blob_path ++ [name]) in *.
  apply andb_true_iff in Hall as [Hall Hconns].
  apply andb_true_iff in Hall as [Happs Hdrafts].
  set (files := children (fs w) dir) in *.
  assert (Hrest : forall w1, fs w1 = fs w ->
            sends (do _ <- for_each (apps_of (fs w) dir files)
                             (restore_app E headers name dir);
                   for_each (drafts_of (fs w) dir files)
                     (restore_pipeline E headers name dir
                        (conns_of (fs w) dir files))) w1
              (flat_map (app_calls name (fs w) dir) (apps_of (fs w) dir files)
               ++ flat_map (draft_calls name (fs w) dir (conns_of (fs w) dir files))
                    (drafts_of (fs w) dir files))).
  { intros w1 Hfs.
    destruct (sends_for_each (apps_of (fs w) dir files)
                (restore_app E headers name dir) (app_calls name (fs w) dir) w1)
      as (evs & Hrun & Hcalls).
    { intros file w2 Hin Hfs2. rewrite <- Hfs, <- Hfs2.
      apply restore_app_sends. rewrite Hfs2, Hfs.
      rewrite forallb_forall in Happs. by apply Happs, list_elem_of_In. }
    destruct (sends_for_each (drafts_of (fs w) dir files)
                (restore_pipeline E headers name dir (conns_of (fs w) dir files))
                (draft_calls name (fs w) dir (conns_of (fs w) dir files))
                (World (fs w1) (bucket w1) (trace w1 ++ evs)))
      as (evs' & Hrun' & Hcalls').
    { intros file w2 Hin Hfs2. cbn [fs] in Hfs2. rewrite <- Hfs, <- Hfs2.
      apply restore_pipeline_sends; rewrite Hfs2, Hfs; [| done].
      rewrite forallb_forall in Hdrafts. by apply Hdrafts, list_elem_of_In. }
    exists (evs ++ evs'). split.
    - erewrite bind_ok by exact Hrun. rewrite Hrun'.
      cbn [fs bucket trace]. by rewrite <- app_assoc.
    - by rewrite api_calls_app, Hcalls, Hcalls'. }
  assert (Hhead : exists evs,
            api_calls evs
            = (if String.eqb name "default" then []
               else [PutNamespace name namespace]) /\
            restore_namespace E headers zip_blob_path namespace w
            = (do _ <- for_each (apps_of (fs w) dir files)
                         (restore_app E headers name dir);
               for_each (drafts_of (fs w) dir files)
                 (restore_pipeline E headers name dir
                    (conns_of (fs w) dir files)))
                (World (fs w) (bucket w) (trace w ++ evs))).
  { unfold restore_namespace. rewrite Hname. mstep mrefl. mstep mrefl.
    fold dir. mstep ltac:(by apply os_listdir_run).
    mstep ltac:(apply classify_run). fold files.
    cbn [conn_files pipeline_files deployed_apps app].
    destruct (String.eqb name "default") eqn:Hdefault; cbn [negb].
    - exists []. split; [done |]. mrun. rewrite app_nil_r. by destruct w.
    - apply String.eqb_neq in Hdefault. specialize (Hput Hdefault).
      unfold session_request, raise_for_status.
      destruct (put E _) as [status rsn b|msg]; simpl in Hput; [| done].
      mrun.
      assert ((400 <=? status)%Z && (status <? 600)%Z = false) as ->.
      { apply andb_false_iff.
        destruct (decide (400 <= status)%Z);
          [right; apply Z.ltb_ge | left; apply Z.leb_gt]; lia. }
      mrun. eexists. split; [| rewrite <- ?app_assoc; reflexivity]. done. }
  destruct Hhead as (evs & Hcalls & Hrun).
  destruct (Hrest (World (fs w) (bucket w) (trace w ++ evs)) eq_refl)
    as (evs' & Hrun' & Hcalls').
  intros r. subst r. rewrite Hrun, Hrun'. cbn [fst snd fs bucket trace].
  split_and!; [done | done | done |].
  rewrite <- app_assoc.
  erewrite new_events_app by (cbn [trace]; reflexivity).
  unfold namespace_calls. fold files.
  by rewrite api_calls_app, Hcalls, Hcalls'.
Qed.

Lemma restore_namespace_requests_witness :
  let r := restore_namespace Samples.one_connection "Bearer token"
             ["restore"; "backup"] (Samples.namespace_doc "ns1") unpacked_ns1 in
  fst r = Ok tt /\
  fs (snd r) = fs unpacked_ns1 /\
  bucket (snd r) = bucket unpacked_ns1 /\
  api_calls (new_events unpacked_ns1 (snd r))
  = namespace_calls "ns1" (Samples.namespace_doc "ns1") (fs unpacked_ns1)
      ["restore"; "backup"; "ns1"].
Proof.
  apply (restore_namespace_requests Samples.one_connection "Bearer token"
           ["restore"; "backup"] (Samples.namespace_doc "ns1") "ns1"
           unpacked_ns1).
  - reflexivity.
  - vm_compute. reflexivity.
  - intros _ Hfail. simpl in Hfail. lia.
  - vm_compute. reflexivity.
Defined.

(** The requests for [ns1], the drafts in the order of the listing: the
    one connection goes out twice, once after each draft. *)
Example requests_for_ns1 :
  namespace_calls "ns1" (Samples.namespace_doc "ns1") (fs unpacked_ns1)
    ["restore"; "backup"; "ns1"]
  = [PutNamespace "ns1" (Samples.namespace_doc "ns1");
     PutApp "ns1" "etl" (JObj [("name", JStr "etl")]);
     PutDraft "ns1" "d2" (JObj [("id", JStr "d2"); ("name", JStr "p2")]);
     PutConnection "ns1" "c1" (JObj [("name", JStr "c1")]);
     PutDraft "ns1" "d1" (JObj [("id", JStr "d1"); ("name", JStr "p1")]);
     PutConnection "ns1" "c1" (JObj [("name", JStr "c1")])].
Proof. vm_compute. reflexivity. Qed.

(** ** Downloading the latest archive *)

(** The zip files the restore finds under [cdf/latest]. *)
Definition latest_zips (w : world) : list (string * content) :=
  filter (fun blob => endswith (fst blob) ".zip" = true)
    (filter (fun blob => String.prefix GCS_BACKUP_FOLDER (fst blob) = true)
       (bucket w)).

(** [if not os.path.exists(d): os.makedirs(d)] for a folder [d] at the
    top that is no file. *)
Lemma makedirs_if_missing (d : string) w :
  (forall c, fs w !! [d] <> Some (NFile c)) ->
  exists f1 evs,
    when (negb (match lookup_node (fs w) [d] with
                | Some _ => true
                | None => false
                end)) (os_makedirs [d]) w
    = (Ok tt, World f1 (bucket w) (trace w ++ evs)) /\
    f1 !! [d] = Some NDir /\
    forall p, p <> [d] -> f1 !! p = fs w !! p.
Proof.
  intros Hnf. cbn [lookup_node].
  destruct (fs w !! [d]) as [[c|]|] eqn:Hd; cbn [negb when].
  - by destruct (Hnf c).
  - exists (fs w), []. rewrite app_nil_r. by destruct w.
  - rewrite os_makedirs_run. cbn [mkdir_chain app]. rewrite Hd.
    exists (<[[d] := NDir]> (fs w)), [EvMakedirs [d]]. split_and!; [done | |].
    + apply lookup_insert_eq.
    + intros p Hp. by rewrite lookup_insert_ne.
Qed.

(** X8: a restore without a version unpacks the latest archive.  When
    the first zip file listed under [cdf/latest] is [backup.zip], the
    blob a backup puts there, holding the archive of a folder of a tree,
    when the object store answers, and when the place it is unpacked to
    is free, then the download returns the folder [restore/backup],
    keeps the downloaded archive next to it, leaves the bucket alone,
    and the files below [restore/backup] are the files that were below
    the folder the backup compressed, path by path and with what they
    held. *)
Theorem latest_archive_is_unpacked (E : env) (w : world)
    (f : gmap path node) (folder : path) (rest : list (string * content)) :
  gcs_error E (GcsList GCS_BACKUP_FOLDER) = None ->
  gcs_error E (GcsDownload latest_blob) = None ->
  latest_zips w = (latest_blob, CZip (files_under f folder)) :: rest ->
  tree f = true ->
  vacant (fs w) ["restore"; "backup"] = true ->
  fs w !! ["restore"; "backup.zip"] <> Some NDir ->
  let r := download_and_unzip_from_gcs E GCS_BACKUP_FOLDER None w in
  fst r = Ok ["restore"; "backup"] /\
  bucket (snd r) = bucket w /\
  fs (snd r) !! ["restore"; "backup.zip"]
  = Some (NFile (CZip (files_under f folder))) /\
  forall rel c,
    rel <> [] ->
    (fs (snd r) !! (["restore"; "backup"] ++ rel) = Some (NFile c)
     <-> f !! (folder ++ rel) = Some (NFile c)).
Proof.
  intros Hlist Hdown Hzips Htree Hvacant Hzipfree r. subst r.
  apply vacant_spec in Hvacant as [Hbelow Hway].
  set (ms := files_under f folder) in *.
  unfold download_and_unzip_from_gcs, list_blobs. rewrite Hlist.
  mstep mrefl. fold (latest_zips w). rewrite Hzips.
  mstep mrefl. cbn [version_given]. mstep mrefl.
  change (after_last "/" (fst (latest_blob, CZip ms))) with "backup.zip".
  change (drop_last 4 "backup.zip") with "backup".
  change (RESTORE_DIRECTORY ++ ["backup.zip"]) with ["restore"; "backup.zip"].
  change (RESTORE_DIRECTORY ++ ["backup"]) with ["restore"; "backup"].
  set (dest := ["restore"; "backup"]) in *.
  set (zip := ["restore"; "backup.zip"]) in *.
  mstep mrefl.
  set (w0 := World (fs w) (bucket w) (trace w ++ [EvPrint latest_blob])).
  destruct (makedirs_if_missing "restore" w0) as (f1 & evs & Hmk & Hdir & Hsame).
  { intros c. apply (Hway 1 c). simpl. lia. }
  erewrite try_bind_ok by exact Hmk.
  (* the download *)
  erewrite try_bind_ok.
  2: { unfold download_to_filename. cbn [fst snd]. rewrite Hdown.
       mstep mrefl. apply write_file_run; cbn [fs].
       - done.
       - exact Hdir.
       - rewrite Hsame by done. exact Hzipfree. }
  mstep mrefl. cbn [fs bucket trace].
  (* the archive is unpacked *)
  set (w2 := World _ _ _).
  destruct (extract_members_run dest ms [] w2)
    as (w3 & Hrun & (_ & Hfiles & Hthere) & Hb & Hframe).
  { apply files_under_file_members. }
  { by apply files_under_prefix_free. }
  { subst w2. cbn [fs]. split_and!.
    - intros k c Hk. rewrite lookup_insert_ne.
      + destruct k as [|[|k]]; [simpl in Hk; lia | |].
        * cbn [take dest]. by rewrite Hdir.
        * rewrite Hsame.
          -- apply (Hway (S (S k))). exact Hk.
          -- simpl in Hk. assert (k = 0) as -> by lia. done.
      + simpl in Hk. destruct k as [|[|[|k]]]; try done; lia.
    - intros q n Hq Hn. destruct q as [|x q]; [done |].
      rewrite lookup_insert_ne, Hsame in Hn by done.
      change (fs w0) with (fs w) in Hn. by rewrite Hbelow in Hn.
    - intros rel c Hin. by apply elem_of_nil in Hin. }
  erewrite try_bind_ok.
  2: { unfold zip_extractall.
       erewrite bind_ok
         by (apply read_file_run; subst w2; cbn [fs lookup_node zip];
             apply lookup_insert_eq).
       exact Hrun. }
  mrun. split_and!.
  - done.
  - rewrite Hb. by subst w2.
  - rewrite Hframe.
    + subst w2. cbn [fs]. apply lookup_insert_eq.
    + intros q Heq. destruct q as [|x q]; [done |]. discriminate Heq.
    + intros k Heq. destruct k as [|[|[|k]]]; done.
  - intros rel c Hrel. split.
    + intros Hfile.
      destruct (Hfiles rel (NFile c) Hrel Hfile) as [(c' & [= <-] & Hin)|[? _]];
        [| done].
      apply files_under_member in Hin as (x & l & c' & [= -> ->] & Hsrc). done.
    + intros Hsrc. apply Hthere. destruct rel as [|x l]; [done |].
      by apply files_under_intro.
Qed.

(** The property on a machine without files, for the bucket that the
    upload of the sample staging folder leaves. *)
Lemma latest_archive_is_unpacked_witness :
  let folder := ["backup"; "2024-12-06_backup"] in
  let w :=
    Samples.with_bucket
      (bucket (snd (compress_and_upload Samples.one_connection folder
                      Samples.staged))) in
  let r := download_and_unzip_from_gcs Samples.one_connection GCS_BACKUP_FOLDER
             None w in
  fst r = Ok ["restore"; "backup"] /\
  bucket (snd r) = bucket w /\
  fs (snd r) !! ["restore"; "backup.zip"]
  = Some (NFile (CZip (files_under (fs Samples.staged) folder))) /\
  forall rel c,
    rel <> [] ->
    (fs (snd r) !! (["restore"; "backup"] ++ rel) = Some (NFile c)
     <-> fs Samples.staged !! (folder ++ rel) = Some (NFile c)).
Proof.
  apply (latest_archive_is_unpacked Samples.one_connection
           (Samples.with_bucket
              (bucket (snd (compress_and_upload Samples.one_connection
                              ["backup"; "2024-12-06_backup"] Samples.staged))))
           (fs Samples.staged) ["backup"; "2024-12-06_backup"] []).
  - reflexivity.
  - reflexivity.
  - vm_compute. reflexivity.
  - vm_compute. reflexivity.
  - vm_compute. reflexivity.
  - vm_compute. discriminate.
Defined.

(** ** Files saved and read back *)

(** X9: what [save_to_file] saves, [read_from_file] reads back.
    Whenever the save returns normally, reading the same path in the
    state it leaves gives the saved document and changes nothing.  A
    save that fails raises the wrapped error that names the file; failed
    or not, it leaves the bucket alone and touches no path other than
    the file and the backup directory, which it makes when missing. *)
Theorem saved_file_reads_back (filename : path) (content : json) (w : world) :
  let r := save_to_file filename content w in
  (fst r = Ok tt -> read_from_file filename (snd r) = (Ok content, snd r)) /\
  (forall e,
      fst r = Raise e ->
      exists msg,
        e = Exception ("Failed to create file '" +:+ path_str filename
                         +:+ "': " +:+ msg)) /\
  bucket (snd r) = bucket w /\
  (forall p,
      p <> filename -> p <> BACKUP_DIRECTORY -> fs (snd r) !! p = fs w !! p).
Proof.
  intros r. subst r.
  assert (Hwrite : forall w1,
            (forall p, p <> BACKUP_DIRECTORY -> fs w1 !! p = fs w !! p) ->
            bucket w1 = bucket w ->
            let r := try_except
                       (do _ <- write_file BySave filename (CJson content);
                        logging_info ("File '" +:+ path_str filename
                                        +:+ "' created successfully."))
                       is_Exception
                       (fun e =>
                          raise (Exception
                                   ("Failed to create file '"
                                      +:+ path_str filename +:+ "': "
                                      +:+ exn_str e))) w1 in
            (fst r = Ok tt ->
             read_from_file filename (snd r) = (Ok content, snd r)) /\
            (forall e,
                fst r = Raise e ->
                exists msg,
                  e = Exception ("Failed to create file '"
                                   +:+ path_str filename +:+ "': " +:+ msg)) /\
            bucket (snd r) = bucket w /\
            (forall p,
                p <> filename -> p <> BACKUP_DIRECTORY ->
                fs (snd r) !! p = fs w !! p)).
  { intros w1 Hsame Hb r. subst r.
    destruct filename as [|x rest].
    { unfold write_file. mrun. split_and!; [done | | done |].
      - intros e [= <-]. by eexists.
      - intros p _ Hp. by apply Hsame. }
    destruct (write_file_cases BySave (x :: rest) (CJson content) w1)
      as [[e He]|Hok].
    - erewrite try_bind_raise by exact He. mrun. split_and!; [done | | done |].
      + intros e' [= <-]. by eexists.
      + intros p _ Hp. by apply Hsame.
    - erewrite try_bind_ok by exact Hok. mrun. split_and!.
      + intros _. apply read_from_file_run; [done |]. cbn [fs].
        apply lookup_insert_eq.
      + intros e' He'. discriminate He'.
      + done.
      + intros p Hp Hp'. rewrite lookup_insert_ne by done. by apply Hsame. }
  unfold save_to_file, os_path_exists. mstep mrefl.
  change (lookup_node (fs w) BACKUP_DIRECTORY) with (fs w !! BACKUP_DIRECTORY).
  destruct (fs w !! BACKUP_DIRECTORY) as [n|] eqn:Hdir; cbn [negb].
  - mstep mrefl. by apply Hwrite.
  - erewrite try_bind_ok.
    2: { cbn [when]. rewrite os_makedirs_run.
         change (mkdir_chain (fs w) [] BACKUP_DIRECTORY)
           with (match fs w !! BACKUP_DIRECTORY with
                 | None => Ok (<[BACKUP_DIRECTORY := NDir]> (fs w))
                 | Some NDir =>
                     Raise (FileExistsError
                              ("[Errno 17] File exists: '"
                                 +:+ path_str BACKUP_DIRECTORY +:+ "'"))
                 | Some (NFile _) =>
                     Raise (FileExistsError
                              ("[Errno 17] File exists: '"
                                 +:+ path_str BACKUP_DIRECTORY +:+ "'"))
                 end).
         rewrite Hdir. reflexivity. }
    apply Hwrite; cbn [fs bucket]; [| done].
    intros p Hp. by rewrite lookup_insert_ne.
Qed.

(** ** A listing with an entry that has no name *)

Lemma for_each_raises {A} (l : list A) body x :
  x ∈ l ->
  (forall w, is_Raise (fst (body x w)) = true) ->
  forall w, is_Raise (fst (for_each l body w)) = true.
Proof.
  induction l as [|y l IH]; intros Hin Hx w.
  { by apply elem_of_nil in Hin. }
  cbn [for_each bind].
  apply elem_of_cons in Hin as [<-|Hin].
  - specialize (Hx w). by destruct (body x w) as [[[]|e] w1].
  - destruct (body y w) as [[[]|e] w1]; [| done]. by apply IH.
Qed.

(** X10: a namespace entry without a name stops the backup before
    anything is uploaded.  When the listing the service returns has an
    entry whose name cannot be read (a dict without the key, or no dict
    at all), the backup raises, in the formatting pass at the latest,
    and the bucket is as it was; [main] then logs the error. *)
Theorem unnamed_namespace_stops_the_backup (E : env) (headers : string)
    (nss : list json) (namespace : json) (w : world) :
  fst (namespaces_answer E) = JArr nss ->
  namespace ∈ nss ->
  is_Raise (py_getitem namespace "name") = true ->
  let r := backup_application_state E headers w in
  is_Raise (fst r) = true /\
  bucket (snd r) = bucket w.
Proof.
  intros Hans Hin Hname r. subst r.
  unfold backup_application_state. mstep mrefl.
  set (w0 := World _ _ _).
  pose proof (fetch_applications_same_bucket E headers w0) as Hb1.
  unfold same_bucket in Hb1.
  destruct (fetch_applications E headers w0) as [[dir|e] w1] eqn:Hexport;
    cbn [bind].
  2: { by rewrite Hexport. }
  rewrite Hexport. rewrite fetch_namespaces_run, Hans.
  cbn [snd] in Hb1.
  assert (py_truthy (JArr nss) = true) as ->
    by (destruct nss; [by apply elem_of_nil in Hin | done]).
  cbn [negb].
  set (w2 := World _ _ _).
  assert (Hfmt : follows same_bucket (format_deployed_apps E dir (JArr nss)))
    by (unfold format_deployed_apps; follows_auto).
  specialize (Hfmt w2). unfold same_bucket in Hfmt.
  assert (Hraise : is_Raise (fst (format_deployed_apps E dir (JArr nss) w2)) = true).
  { unfold format_deployed_apps. mstep mrefl. mstep mrefl.
    apply (for_each_raises nss _ namespace); [done |].
    intros w3. unfold format_namespace.
    destruct (py_getitem namespace "name"); [done |]. done. }
  destruct (format_deployed_apps E dir (JArr nss) w2) as [[[]|e] w3] eqn:Hf;
    [done |].
  erewrite bind_raise by exact Hf. split; [done |].
  subst w2 w0. cbn [snd bucket] in *. congruence.
Qed.

(** A service whose listing has an entry without a name after [ns1]. *)
Definition unnamed_entry : env := {|
  TODAY := "2024-12-06";
  gcloud := Ok "token";
  get_namespaces :=
    Samples.ok (JArr [Samples.namespace_doc "ns1";
                      JObj [("description", JStr "no name")]]);
  get_export := Samples.ok (CZip []);
  get_drafts := fun _ => Samples.ok (JArr []);
  get_draft := fun _ _ => Samples.not_found;
  get_connections := fun _ => Samples.ok (JArr []);
  get_apps := fun _ => Samples.ok (JArr []);
  get_app := fun _ _ => Samples.not_found;
  put := fun _ => Samples.ok tt;
  gcs_error := fun _ => None;
  json_loads_text := Samples.sample_loads
|}.

Lemma unnamed_namespace_stops_the_backup_witness :
  let r := backup_application_state unnamed_entry "Bearer token" Samples.fresh in
  is_Raise (fst r) = true /\
  bucket (snd r) = bucket Samples.fresh.
Proof.
  apply (unnamed_namespace_stops_the_backup unnamed_entry "Bearer token"
           [Samples.namespace_doc "ns1";
            JObj [("description", JStr "no name")]]
           (JObj [("description", JStr "no name")]) Samples.fresh).
  - reflexivity.
  - in_list.
  - reflexivity.
Defined.

(** The run at that service: the key error of the entry, and nothing in
    the bucket. *)
Example unnamed_entry_run :
  let r := backup_application_state unnamed_entry "Bearer token" Samples.fresh in
  fst r = Raise (KeyError "name") /\ bucket (snd r) = [].
Proof. vm_compute. by split. Qed.

End ExportExtras.

(** * Further properties of cdf_state.py *)

Module StateExtras.
Import CdfState StateProps.

(** ** The upload that cannot succeed *)

(** The archive next to the staging folder. *)
Definition local_zip (E : env) : path := path_add_suffix (BACKUP_DIRECTORY E) ".zip".

(** The line the backup logs when compressing and uploading failed with
    the message [msg]. *)
Definition upload_failure (msg : string) : event :=
  EvLog ERROR
    ("Failed to compress and upload backup files to GCS: "
       +:+ ("Failed to compress and upload folder: " +:+ msg)).

Lemma compress_and_upload_raises E folder_path zip_filename w :
  exists msg w',
    compress_folder_and_upload_to_gcs E folder_path zip_filename w
    = (Raise (Exception ("Failed to compress and upload folder: " +:+ msg)), w').
Proof.
  unfold compress_folder_and_upload_to_gcs, os_path_exists. mrun.
  destruct (lookup_node (fs w) folder_path) as [n|]; mrun.
  - destruct (write_file_cases ByCompress
                (path_add_suffix (BACKUP_DIRECTORY E) ".zip")
                (CZip (files_under (fs w) folder_path)) w) as [[e He]|Hok].
    + rewrite He. mrun. by eexists _, _.
    + rewrite Hok. mrun. by eexists _, _.
  - by eexists _, _.
Qed.

Lemma last_logged w e : last (trace (logged w e)) = Some e.
Proof. unfold logged. cbn [trace]. apply last_snoc. Qed.

(** X11: the backup of [cdf_state.py] never uploads.  Its upload function
    asks the bucket for a blob with a keyword that [Bucket.blob] does
    not have, so that it raises in every state: when the staging folder
    is there and the archive can be written, the archive is left on the
    disk next to it and the error is the one of that call.  A backup
    therefore leaves the bucket as it was; and when it returns normally,
    it has ended either with the warning that there are no namespaces or
    with the error line of the failed upload. *)
Theorem state_backup_never_uploads (E : env) (headers : string) (w : world) :
  let r := backup_application_state E headers w in
  bucket (snd r) = bucket w /\
  (fst r = Ok tt ->
   last (trace (snd r)) = Some (EvLog WARNING "No namespaces found to backup.") \/
   exists msg, last (trace (snd r)) = Some (upload_failure msg)) /\
  (forall folder_path zip_filename w1,
      exists msg,
        fst (compress_folder_and_upload_to_gcs E folder_path zip_filename w1)
        = Raise (Exception ("Failed to compress and upload folder: " +:+ msg))) /\
  (forall folder_path zip_filename w1,
      lookup_node (fs w1) folder_path <> None ->
      fs w1 !! local_zip E <> Some NDir ->
      compress_folder_and_upload_to_gcs E folder_path zip_filename w1
      = (Raise (Exception
                  ("Failed to compress and upload folder: "
                     +:+ "blob() got an unexpected keyword argument 'sufix'")),
         World (<[local_zip E := NFile (CZip (files_under (fs w1) folder_path))]>
                  (fs w1))
           (bucket w1)
           (trace w1 ++
              [EvWrite ByCompress (local_zip E);
               EvPrint ("Compressed folder saved at: "
                          +:+ path_str (local_zip E))]))).
Proof.
  intros r. subst r. split_and!.
  - assert (Hb : follows same_bucket (backup_application_state E headers))
      by (unfold backup_application_state; follows_auto).
    apply Hb.
  - unfold backup_application_state. cbn [bind].
    destruct (fetch_namespaces E headers w) as [[namespaces|e] w1]; [| done].
    destruct (py_truthy namespaces); cbn [negb].
    2: { intros _. left. apply last_logged. }
    cbn [bind].
    destruct (save_to_file E _ namespaces w1) as [[[]|e] w2]; [| done].
    destruct (py_iter namespaces) as [nss|e]; cbn [lift]; [| done].
    destruct (for_each nss (backup_namespace E headers) w2) as [[[]|e] w3];
      [| done].
    intros _. right.
    destruct (compress_and_upload_raises E (BACKUP_DIRECTORY E)
                (TODAY E +:+ "_backup.zip")
                (logged w3 (EvLog INFO
                   "***************Compressing and uploading the backup files to GCS******************************")))
      as (msg & w4 & Hrun).
    exists msg. mrun. unfold logged in Hrun. rewrite Hrun. mrun.
    apply last_snoc.
  - intros folder_path zip_filename w1.
    destruct (compress_and_upload_raises E folder_path zip_filename w1)
      as (msg & w' & ->).
    by exists msg.
  - intros folder_path zip_filename w1 Hfolder Hzip.
    unfold compress_folder_and_upload_to_gcs, os_path_exists. mrun.
    destruct (lookup_node (fs w1) folder_path) as [n|]; [| done]. mrun.
    fold (local_zip E).
    rewrite write_file_run; [| apply path_add_suffix_nonempty | done | done].
    mrun. by rewrite <- app_assoc.
Qed.

(** ** Connections restored from the bucket *)

(** What [load_from_gcs] returns: the document of the blob, or the empty
    dict when the blob cannot be downloaded or holds no JSON text. *)
Definition loaded (E : env) (b : list (string * content)) (file_name : string)
  : json :=
  match gcs_error E (GcsDownload file_name) with
  | Some _ => JObj []
  | None =>
      match blob_get file_name b with
      | Some (CJson j) => j
      | _ => JObj []
      end
  end.

(** The run adds events without a request among them. *)
Ltac adds_no_request :=
  eexists; split; [rewrite <- ?app_assoc; reflexivity | reflexivity].

Lemma load_from_gcs_run E file_name w :
  exists evs,
    load_from_gcs E file_name w
    = (Ok (loaded E (bucket w) file_name),
       World (fs w) (bucket w) (trace w ++ evs)) /\
    api_calls evs = [].
Proof.
  unfold load_from_gcs, download_as_json, loaded. mrun.
  destruct (gcs_error E (GcsDownload file_name)); mrun; [adds_no_request |].
  destruct (blob_get file_name (bucket w)) as [[j|raw|ms]|]; mrun;
    adds_no_request.
Qed.

(** An answer that [raise_for_status] lets pass. *)
Definition accepted {A} (answer : http A) : bool :=
  match answer with
  | Response status _ _ => negb ((400 <=? status)%Z && (status <? 600)%Z)
  | NoResponse _ => false
  end.

(** The request that puts back the connection of a blob, when its
    document has a name. *)
Definition connection_request (E : env) (name : string)
    (b : list (string * content)) (blob : string * content) : option api_call :=
  match py_getitem (loaded E b (fst blob)) "name" with
  | Ok connection_name =>
      Some (PutConnection name (py_str connection_name) (loaded E b (fst blob)))
  | Raise _ => None
  end.

Definition restored_well (E : env) (name : string)
    (b : list (string * content)) (blob : string * content) : bool :=
  match connection_request E name b blob with
  | Some c => accepted (put E c)
  | None => false
  end.

(** The blobs the restore lists for the connections of a namespace. *)
Definition connection_blobs (name : string) (b : list (string * content))
  : list (string * content) :=
  filter (fun blob =>
            String.prefix ("cdf/" +:+ name +:+ "/connections/") (fst blob)
            && no_slash
                 (String.substring
                    (String.length ("cdf/" +:+ name +:+ "/connections/"))
                    (String.length (fst blob)) (fst blob)) = true) b.

(** One blob of the loop: what it hands back, and the request it sent. *)
Lemma restore_connection_blob_run E headers name blob w :
  exists evs,
    match py_getitem (loaded E (bucket w) (fst blob)) "name" with
    | Raise e =>
        restore_connection_blob E headers name blob tt w
        = (Raise e, World (fs w) (bucket w) (trace w ++ evs)) /\
        api_calls evs = []
    | Ok connection_name =>
        let c := PutConnection name (py_str connection_name)
                   (loaded E (bucket w) (fst blob)) in
        (if accepted (put E c)
         then restore_connection_blob E headers name blob tt w
              = (Ok (tt, None), World (fs w) (bucket w) (trace w ++ evs))
         else exists e,
             restore_connection_blob E headers name blob tt w
             = (Ok (tt, Some e), World (fs w) (bucket w) (trace w ++ evs))) /\
        api_calls evs = [c]
    end.
Proof.
  unfold restore_connection_blob. mrun.
  destruct (load_from_gcs_run E (fst blob)
              (World (fs w) (bucket w)
                 (trace w ++ [EvPrint ("blob --> <Blob: " +:+ GCS_BUCKET_NAME
                                         +:+ ", " +:+ fst blob +:+ ">")])))
    as (evs & Hload & Hnone).
  cbn [fs bucket trace] in Hload. rewrite Hload. mrun.
  destruct (py_getitem (loaded E (bucket w) (fst blob)) "name") as [v|e]; mrun.
  2: { exists (EvPrint ("blob --> <Blob: " +:+ GCS_BUCKET_NAME
                          +:+ ", " +:+ fst blob +:+ ">") :: evs).
       split; [by rewrite <- app_assoc |]. exact Hnone. }
  unfold session_request, raise_for_status, accepted.
  destruct (put E _) as [status rsn b|msg]; mrun.
  - destruct ((400 <=? status)%Z && (status <? 600)%Z); mrun; eexists;
      (split; [try eexists; rewrite <- ?app_assoc; reflexivity |]);
      rewrite !ExportExtras.api_calls_app, Hnone; reflexivity.
  - eexists.
    split; [eexists; rewrite <- ?app_assoc; reflexivity |].
    rewrite !ExportExtras.api_calls_app, Hnone. reflexivity.
Qed.

(** The loop passes the blobs that are restored well. *)
Lemma connections_go_on E headers name pre l w :
  forallb (restored_well E name (bucket w)) pre = true ->
  exists evs,
    for_until (pre ++ l) tt (restore_connection_blob E headers name) w
    = for_until l tt (restore_connection_blob E headers name)
        (World (fs w) (bucket w) (trace w ++ evs)) /\
    api_calls evs = omap (connection_request E name (bucket w)) pre.
Proof.
  revert w. induction pre as [|blob pre IH]; intros w Hpre.
  { exists []. rewrite app_nil_r. by destruct w. }
  cbn [forallb] in Hpre. apply andb_true_iff in Hpre as [Hblob Hpre].
  unfold restored_well, connection_request in Hblob.
  destruct (restore_connection_blob_run E headers name blob w) as (evs & Hrun).
  destruct (py_getitem (loaded E (bucket w) (fst blob)) "name") as [v|e]
    eqn:Hget; [| done].
  cbv zeta in Hrun. rewrite Hblob in Hrun. destruct Hrun as [Hrun Hcalls].
  destruct (IH (World (fs w) (bucket w) (trace w ++ evs)) Hpre)
    as (evs' & Hloop & Hcalls').
  exists (evs ++ evs'). split.
  - cbn [app for_until]. erewrite bind_ok by exact Hrun. cbn [snd fst].
    rewrite Hloop. cbn [fs bucket trace]. by rewrite <- app_assoc.
  - rewrite ExportExtras.api_calls_app, Hcalls, Hcalls'. cbn [bucket].
    simpl omap. unfold connection_request at 2. by rewrite Hget.
Qed.

(** The statements of [restore_connections] before the loop. *)
Lemma restore_connections_loop E headers name w :
  gcs_error E (GcsList ("cdf/" +:+ name +:+ "/connections/")) = None ->
  exists evs,
    api_calls evs = [] /\
    restore_connections E headers name w
    = (do _ <- for_until (connection_blobs name (bucket w)) tt
                 (restore_connection_blob E headers name);
       ret tt) (World (fs w) (bucket w) (trace w ++ evs)).
Proof.
  intros Hlist. unfold restore_connections, list_blobs_delimited.
  rewrite Hlist. mstep mrefl. mstep mrefl. mstep mrefl. mstep mrefl.
  cbn [fs bucket trace]. fold (connection_blobs name (bucket w)).
  eexists. split; [| rewrite <- ?app_assoc; reflexivity]. reflexivity.
Qed.

(** Three connections stored for [ns1]. *)
Definition three_connections : list (string * content) :=
  [("cdf/namespaces.json", CJson (JArr [Samples.namespace_doc "ns1"]));
   ("cdf/ns1/connections/c1.json", CJson (JObj [("name", JStr "c1")]));
   ("cdf/ns1/connections/c2.json", CJson (JObj [("name", JStr "c2")]));
   ("cdf/ns1/connections/c3.json", CJson (JObj [("name", JStr "c3")]))].

(** A service that is not available for the connection [c2], and an
    object store that fails to hand out the blob of [c2]. *)
Definition refuses_c2 : env := {|
  TODAY := "2024-12-06";
  gcloud := Ok "token";
  get_namespaces := Samples.ok (JArr [Samples.namespace_doc "ns1"]);
  get_export := Samples.ok (CZip []);
  get_drafts := fun _ => Samples.ok (JArr []);
  get_draft := fun _ _ => Samples.not_found;
  get_connections := fun _ => Samples.ok (JArr []);
  get_apps := fun _ => Samples.ok (JArr []);
  get_app := fun _ _ => Samples.not_found;
  put := fun c =>
    match c with
    | PutConnection _ connection_name _ =>
        if String.eqb connection_name "c2"
        then Response 503%Z "Service Unavailable" tt
        else Samples.ok tt
    | _ => Samples.ok tt
    end;
  gcs_error := fun _ => None;
  json_loads_text := Samples.sample_loads
|}.

Definition loses_c2 : env := {|
  TODAY := "2024-12-06";
  gcloud := Ok "token";
  get_namespaces := Samples.ok (JArr [Samples.namespace_doc "ns1"]);
  get_export := Samples.ok (CZip []);
  get_drafts := fun _ => Samples.ok (JArr []);
  get_draft := fun _ _ => Samples.not_found;
  get_connections := fun _ => Samples.ok (JArr []);
  get_apps := fun _ => Samples.ok (JArr []);
  get_app := fun _ _ => Samples.not_found;
  put := fun _ => Samples.ok tt;
  gcs_error := fun op =>
    match op with
    | GcsDownload blob =>
        if String.eqb blob "cdf/ns1/connections/c2.json"
        then Some "503 GET: backend error"
        else None
    | _ => None
    end;
  json_loads_text := Samples.sample_loads
|}.

(** X12: the first connection that is refused ends the restore of the
    connections of its namespace.  When the blobs before it were
    restored well and the request for one blob gets no answer or a
    status from 400 to 599, the block returns normally with one error in
    the log, and nothing is sent for the blobs that come after it in the
    listing. *)
Theorem refused_connection_ends_the_loop (E : env) (headers name : string)
    (pre post : list (string * content)) (blob : string * content)
    (c : api_call) (w : world) :
  gcs_error E (GcsList ("cdf/" +:+ name +:+ "/connections/")) = None ->
  connection_blobs name (bucket w) = pre ++ blob :: post ->
  forallb (restored_well E name (bucket w)) pre = true ->
  connection_request E name (bucket w) blob = Some c ->
  accepted (put E c) = false ->
  let r := restore_connections E headers name w in
  fst r = Ok tt /\
  fs (snd r) = fs w /\
  bucket (snd r) = bucket w /\
  api_calls (new_events w (snd r))
  = omap (connection_request E name (bucket w)) pre ++ [c].
Proof.
  intros Hlist Hblobs Hpre Hreq Hput r. subst r.
  destruct (restore_connections_loop E headers name w Hlist)
    as (evs0 & Hcalls0 & ->).
  rewrite Hblobs.
  destruct (connections_go_on E headers name pre (blob :: post)
              (World (fs w) (bucket w) (trace w ++ evs0)) Hpre)
    as (evs1 & Hloop & Hcalls1).
  cbn [fs bucket trace] in Hloop, Hcalls1.
  destruct (restore_connection_blob_run E headers name blob
              (World (fs w) (bucket w) ((trace w ++ evs0) ++ evs1)))
    as (evs2 & Hrun).
  cbn [fs bucket trace] in Hrun. unfold connection_request in Hreq.
  destruct (py_getitem (loaded E (bucket w) (fst blob)) "name") as [v|e];
    [| done].
  injection Hreq as <-. cbv zeta in Hrun. rewrite Hput in Hrun.
  destruct Hrun as [[e Hrun] Hcalls2].
  erewrite bind_ok.
  2: { rewrite Hloop. cbn [for_until]. erewrite bind_ok by exact Hrun.
       cbn [snd]. reflexivity. }
  cbn [ret fst snd fs bucket trace]. split_and!; [done | done | done |].
  erewrite new_events_app by (rewrite <- !app_assoc; reflexivity).
  rewrite !ExportExtras.api_calls_app, Hcalls0, Hcalls1, Hcalls2. done.
Qed.

Lemma refused_connection_ends_the_loop_witness :
  let w := Samples.with_bucket three_connections in
  let r := restore_connections refuses_c2 "Bearer token" "ns1" w in
  fst r = Ok tt /\
  fs (snd r) = fs w /\
  bucket (snd r) = bucket w /\
  api_calls (new_events w (snd r))
  = [PutConnection "ns1" "c1" (JObj [("name", JStr "c1")]);
     PutConnection "ns1" "c2" (JObj [("name", JStr "c2")])].
Proof.
  apply (refused_connection_ends_the_loop refuses_c2 "Bearer token" "ns1"
           [("cdf/ns1/connections/c1.json", CJson (JObj [("name", JStr "c1")]))]
           [("cdf/ns1/connections/c3.json", CJson (JObj [("name", JStr "c3")]))]
           ("cdf/ns1/connections/c2.json", CJson (JObj [("name", JStr "c2")]))
           (PutConnection "ns1" "c2" (JObj [("name", JStr "c2")]))
           (Samples.with_bucket three_connections)).
  - reflexivity.
  - vm_compute. reflexivity.
  - vm_compute. reflexivity.
  - vm_compute. reflexivity.
  - vm_compute. reflexivity.
Defined.

(** X13: a connection blob without a usable document aborts the restore.
    [load_from_gcs] turns a blob that cannot be downloaded or decoded
    into the empty dict; reading the name of such a document, or of any
    document without one, raises, and the block of the connections
    catches request errors only: the exception leaves it, after the
    requests for the blobs before, and no request is sent for that blob
    or the ones after it. *)
Theorem connection_without_name_aborts (E : env) (headers name : string)
    (pre post : list (string * content)) (blob : string * content)
    (e : exn) (w : world) :
  gcs_error E (GcsList ("cdf/" +:+ name +:+ "/connections/")) = None ->
  connection_blobs name (bucket w) = pre ++ blob :: post ->
  forallb (restored_well E name (bucket w)) pre = true ->
  py_getitem (loaded E (bucket w) (fst blob)) "name" = Raise e ->
  let r := restore_connections E headers name w in
  fst r = Raise e /\
  fs (snd r) = fs w /\
  bucket (snd r) = bucket w /\
  api_calls (new_events w (snd r))
  = omap (connection_request E name (bucket w)) pre /\
  (gcs_error E (GcsDownload (fst blob)) <> None -> e = KeyError "name").
Proof.
  intros Hlist Hblobs Hpre Hname r. subst r.
  destruct (restore_connections_loop E headers name w Hlist)
    as (evs0 & Hcalls0 & ->).
  rewrite Hblobs.
  destruct (connections_go_on E headers name pre (blob :: post)
              (World (fs w) (bucket w) (trace w ++ evs0)) Hpre)
    as (evs1 & Hloop & Hcalls1).
  cbn [fs bucket trace] in Hloop, Hcalls1.
  destruct (restore_connection_blob_run E headers name blob
              (World (fs w) (bucket w) ((trace w ++ evs0) ++ evs1)))
    as (evs2 & Hrun).
  cbn [fs bucket trace] in Hrun. rewrite Hname in Hrun.
  destruct Hrun as [Hrun Hcalls2].
  erewrite bind_raise.
  2: { rewrite Hloop. cbn [for_until]. erewrite bind_raise by exact Hrun.
       reflexivity. }
  cbn [fst snd fs bucket trace]. split_and!; [done | done | done | |].
  - erewrite new_events_app by (rewrite <- !app_assoc; reflexivity).
    rewrite !ExportExtras.api_calls_app, Hcalls0, Hcalls1, Hcalls2.
    by rewrite app_nil_r.
  - intros Hdown. unfold loaded in Hname.
    destruct (gcs_error E (GcsDownload (fst blob))); [| done].
    simpl in Hname. by injection Hname as <-.
Qed.

Lemma connection_without_name_aborts_witness :
  let w := Samples.with_bucket three_connections in
  let r := restore_connections loses_c2 "Bearer token" "ns1" w in
  fst r = Raise (KeyError "name") /\
  fs (snd r) = fs w /\
  bucket (snd r) = bucket w /\
  api_calls (new_events w (snd r))
  = [PutConnection "ns1" "c1" (JObj [("name", JStr "c1")])] /\
  (gcs_error loses_c2 (GcsDownload "cdf/ns1/connections/c2.json") <> None ->
   KeyError "name" = KeyError "name").
Proof.
  apply (connection_without_name_aborts loses_c2 "Bearer token" "ns1"
           [("cdf/ns1/connections/c1.json", CJson (JObj [("name", JStr "c1")]))]
           [("cdf/ns1/connections/c3.json", CJson (JObj [("name", JStr "c3")]))]
           ("cdf/ns1/connections/c2.json", CJson (JObj [("name", JStr "c2")]))
           (KeyError "name")
           (Samples.with_bucket three_connections)).
  - reflexivity.
  - vm_compute. reflexivity.
  - vm_compute. reflexivity.
  - vm_compute. reflexivity.
Defined.

(** ** The pipelines when their listing fails *)

(** X14: what the handler of the pipeline block does when the listing of
    the pipelines fails.  The handler names the pipeline loaded last;
    when none was loaded yet, in this namespace or one before it, the
    handler itself raises an [UnboundLocalError], which ends the
    restore; otherwise it logs the failure under the name of that
    earlier pipeline, though it belongs to another namespace, and the
    restore goes on.  No request is sent either way. *)
Theorem failed_pipeline_listing (E : env) (headers name : string)
    (msg : string) (w : world) :
  gcs_error E (GcsList ("cdf/" +:+ name +:+ "/pipelines/")) = Some msg ->
  let prints :=
    [EvPrint ("name -->  " +:+ name);
     EvPrint ("bucket --> <Bucket: " +:+ GCS_BUCKET_NAME +:+ ">");
     EvPrint "list --> <iterator>"] in
  (exists text,
      restore_pipelines E headers name None w
      = (Raise (UnboundLocalError text),
         World (fs w) (bucket w) (trace w ++ prints))) /\
  forall earlier shown,
    py_getitem earlier "name" = Ok shown ->
    restore_pipelines E headers name (Some earlier) w
    = (Ok (Some earlier),
       World (fs w) (bucket w)
         (trace w ++ prints ++
            [EvLog ERROR
               ("Failed to restore pipeline '" +:+ py_str shown
                  +:+ "' in namespace '" +:+ name +:+ "': " +:+ msg)])).
Proof.
  intros Hlist prints. subst prints.
  unfold restore_pipelines, list_blobs_delimited. rewrite Hlist. split.
  - eexists. mrun. by rewrite <- !app_assoc.
  - intros earlier shown Hshown. mrun. rewrite Hshown. mrun.
    by rewrite <- !app_assoc.
Qed.

(** An object store that lists nothing. *)
Definition listing_fails : env := {|
  TODAY := "2024-12-06";
  gcloud := Ok "token";
  get_namespaces := Samples.ok (JArr [Samples.namespace_doc "ns1"]);
  get_export := Samples.ok (CZip []);
  get_drafts := fun _ => Samples.ok (JArr []);
  get_draft := fun _ _ => Samples.not_found;
  get_connections := fun _ => Samples.ok (JArr []);
  get_apps := fun _ => Samples.ok (JArr []);
  get_app := fun _ _ => Samples.not_found;
  put := fun _ => Samples.ok tt;
  gcs_error := fun op =>
    match op with
    | GcsList _ => Some "503 GET: backend error"
    | _ => None
    end;
  json_loads_text := Samples.sample_loads
|}.

Lemma failed_pipeline_listing_witness :
  let prints :=
    [EvPrint "name -->  ns2";
     EvPrint ("bucket --> <Bucket: " +:+ GCS_BUCKET_NAME +:+ ">");
     EvPrint "list --> <iterator>"] in
  (exists text,
      restore_pipelines listing_fails "Bearer token" "ns2" None Samples.fresh
      = (Raise (UnboundLocalError text), World ∅ [] prints)) /\
  forall earlier shown,
    py_getitem earlier "name" = Ok shown ->
    restore_pipelines listing_fails "Bearer token" "ns2" (Some earlier)
      Samples.fresh
    = (Ok (Some earlier),
       World ∅ []
         (prints ++
            [EvLog ERROR
               ("Failed to restore pipeline '" +:+ py_str shown
                  +:+ "' in namespace '" +:+ "ns2" +:+ "': "
                  +:+ "503 GET: backend error")])).
Proof.
  apply (failed_pipeline_listing listing_fails "Bearer token" "ns2"
           "503 GET: backend error" Samples.fresh).
  reflexivity.
Defined.

End StateExtras.
